(** * Loan-sales assistant: stage machine, state merge and background workers

    A shallow embedding of the coordination core of the repository:

    - [MasterAgent]: [ConversationState] with [to_dict] / [from_dict],
      the stage machine [_determine_next_step] and the driver
      [process_message] (implementation/master_agent.py);
    - [StateManager]: [_update_state_from_dict], [save_state] and
      [load_state] (implementation/state_manager.py);
    - [DocumentVerification]: the polling worker that scores uploaded
      documents (implementation/document_verification.py);
    - [SanctionLetterTrigger]: the polling worker that decides when a
      sanction letter is due (implementation/sanction_letter_trigger.py).

    Python values are dynamically typed, so the embedding keeps a small
    universe [pyval] of JSON-like values and lets every operation that
    Python checks at run time return a [result].  A float is a finite
    number, represented by an exact rational, or one of [inf], [-inf] and
    [nan], which [json.load] reads and [json.dump] writes.  The code only
    compares floats with the constant 0.5 and clamps them, so no
    statement below depends on rounding. *)

From Stdlib Require Import QArith Lqa.
From stdpp Require Import gmap strings list fin_maps pretty.

#[local] Set Warnings "-register-all".

(** ** Python values *)

(** A float: finite, infinite or not a number. *)
Inductive pyfloat : Type :=
| Finite (q : Q)
| PosInf
| NegInf
| NaN.
Coercion Finite : Q >-> pyfloat.
Bind Scope Q_scope with pyfloat.

Inductive pyval : Type :=
| PNone
| PBool (b : bool)
| PInt (z : Z)
| PFloat (x : pyfloat)
| PStr (s : string)
| PList (l : list pyval)
| PDict (d : gmap string pyval).

Abbreviation pydict := (gmap string pyval).

(** An exception object: its class and [str(e)]. *)
Record exn := Exn { exn_class : string; exn_msg : string }.

Inductive result (A : Type) : Type :=
| Ok (a : A)
| Raise (e : exn).
Arguments Ok {A} a.
Arguments Raise {A} e.

#[global] Instance result_ret : MRet result := fun A a => Ok a.
#[global] Instance result_bind : MBind result := fun A B f m =>
  match m with
  | Ok a => f a
  | Raise e => Raise e
  end.

Module Py.

Definition type_name (v : pyval) : string :=
  match v with
  | PNone => "NoneType"
  | PBool _ => "bool"
  | PInt _ => "int"
  | PFloat _ => "float"
  | PStr _ => "str"
  | PList _ => "list"
  | PDict _ => "dict"
  end.

Definition AttributeError (v : pyval) (attr : string) : exn :=
  Exn "AttributeError"
      ("'" +:+ type_name v +:+ "' object has no attribute '" +:+ attr +:+ "'").

Definition TypeError (msg : string) : exn := Exn "TypeError" msg.
Definition KeyError (k : string) : exn := Exn "KeyError" ("'" +:+ k +:+ "'").
Definition ValueError (msg : string) : exn := Exn "ValueError" msg.

(** [bool(v)]: Python truthiness. *)
Definition truthy (v : pyval) : bool :=
  match v with
  | PNone => false
  | PBool b => b
  | PInt z => negb (Z.eqb z 0)
  | PFloat (Finite q) => negb (Qeq_bool q 0)
  | PFloat _ => true
  | PStr s => negb (String.eqb s "")
  | PList l => match l with [] => false | _ :: _ => true end
  | PDict d => negb (Nat.eqb (size d) 0)
  end.

(** [d.get(k, dflt)] on a value known to be a dict. *)
Definition dict_get (d : pydict) (k : string) (dflt : pyval) : pyval :=
  default dflt (d !! k).

(** [v.get(k, dflt)] on an arbitrary value. *)
Definition get (v : pyval) (k : string) (dflt : pyval) : result pyval :=
  match v with
  | PDict d => Ok (dict_get d k dflt)
  | _ => Raise (AttributeError v "get")
  end.

(** [v[k]] with a string key. *)
Definition getitem (v : pyval) (k : string) : result pyval :=
  match v with
  | PDict d =>
      match d !! k with
      | Some x => Ok x
      | None => Raise (KeyError k)
      end
  | PStr _ => Raise (TypeError "string indices must be integers")
  | PList _ => Raise (TypeError "list indices must be integers or slices, not str")
  | _ => Raise (TypeError ("'" +:+ type_name v +:+ "' object is not subscriptable"))
  end.

(** [v[k] = x] with a string key. *)
Definition setitem (v : pyval) (k : string) (x : pyval) : result pyval :=
  match v with
  | PDict d => Ok (PDict (<[k := x]> d))
  | PList _ => Raise (TypeError "list indices must be integers or slices, not str")
  | _ => Raise (TypeError ("'" +:+ type_name v +:+ "' object does not support item assignment"))
  end.

(** [v[i]] with an integer index inside [range(len(v))]. *)
Definition index (v : pyval) (i : nat) : result pyval :=
  match v with
  | PList l =>
      match l !! i with
      | Some x => Ok x
      | None => Raise (Exn "IndexError" "list index out of range")
      end
  | PStr s =>
      match String.get i s with
      | Some c => Ok (PStr (String c EmptyString))
      | None => Raise (Exn "IndexError" "string index out of range")
      end
  | PDict _ => Raise (Exn "KeyError" (pretty i))
  | _ => Raise (TypeError ("'" +:+ type_name v +:+ "' object is not subscriptable"))
  end.

(** [v.append(x)]. *)
Definition append (v : pyval) (x : pyval) : result pyval :=
  match v with
  | PList l => Ok (PList (l ++ [x]))
  | _ => Raise (AttributeError v "append")
  end.

(** [len(v)]. *)
Definition len (v : pyval) : result nat :=
  match v with
  | PStr s => Ok (String.length s)
  | PList l => Ok (length l)
  | PDict d => Ok (size d)
  | _ => Raise (TypeError ("object of type '" +:+ type_name v +:+ "' has no len()"))
  end.

(** The numeric value of an int, float or bool. *)
Definition as_number (v : pyval) : option pyfloat :=
  match v with
  | PBool b => Some (Finite (if b then 1 else 0))
  | PInt z => Some (Finite (inject_Z z))
  | PFloat x => Some x
  | _ => None
  end.

(** The value of a finite number. *)
Definition finite_value (v : pyval) : option Q :=
  match as_number v with
  | Some (Finite q) => Some q
  | _ => None
  end.

(** [x < c] and [x >= c] on floats, for a finite [c]: every comparison
    with [nan] is false. *)
Definition float_lt (x : pyfloat) (c : Q) : bool :=
  match x with
  | Finite q => negb (Qle_bool c q)
  | NegInf => true
  | PosInf | NaN => false
  end.

Definition float_ge (x : pyfloat) (c : Q) : bool :=
  match x with
  | Finite q => Qle_bool c q
  | PosInf => true
  | NegInf | NaN => false
  end.

(** [v < c] for a float constant [c]. *)
Definition lt_float (v : pyval) (c : Q) : result bool :=
  match as_number v with
  | Some x => Ok (float_lt x c)
  | None =>
      Raise (TypeError ("'<' not supported between instances of '" +:+
                        type_name v +:+ "' and 'float'"))
  end.

(** [v == s] for a string constant [s]. *)
Definition eq_str (v : pyval) (s : string) : bool :=
  match v with
  | PStr t => String.eqb t s
  | _ => false
  end.

(** [key in v] for a string [key]: a key of a dict, an element of a
    list, a substring of a string. *)
Definition contains (v : pyval) (key : string) : result bool :=
  match v with
  | PDict d => Ok (bool_decide (is_Some (d !! key)))
  | PList l => Ok (existsb (fun x => eq_str x key) l)
  | PStr s => Ok (bool_decide (is_Some (String.index 0 key s)))
  | _ =>
      Raise (TypeError ("argument of type '" +:+ type_name v +:+
                        "' is not iterable"))
  end.

End Py.

(** ** The runtime the code runs on

    The clock, the random generator, [str()] and number formatting are
    library code; they are taken as an interface.  [now n] is the value of
    the [n]-th reading of [datetime.now()], [random n] the [n]-th draw of
    [random.random()], [uuid4 n] the [n]-th fresh identifier. *)

Class PyRuntime := {
  datetime : Type;
  isoformat : datetime → string;
  fromisoformat : string → option datetime;
  now : nat → datetime;
  uuid4 : nat → string;
  random : nat → Q;
  py_str : pyval → string;
  py_repr : pyval → string;
  format_2f : Q → string;
  json_dumps : pyval → string;
  json_loads : string → result pyval
}.

(** How often the clock and the entropy source have been read so far. *)
Record world := World { clock_reads : nat; rng_draws : nat }.

Definition tick (w : world) : world :=
  World (S (clock_reads w)) (rng_draws w).
Definition draw (w : world) : world :=
  World (clock_reads w) (S (rng_draws w)).

(** A concrete runtime, used to run the definitions on examples: the clock
    shows its reading number, every random draw is [r]. *)
Definition nat_digits (n : nat) : string :=
  String.concat "" (repeat "I" n).

Definition sample_runtime (r : Q) : PyRuntime := {|
  datetime := string;
  isoformat := fun t => t;
  fromisoformat := fun s => Some s;
  now := fun n => "T" +:+ nat_digits n;
  uuid4 := fun n => "U" +:+ nat_digits n;
  random := fun _ => r;
  py_str := fun v => match v with PStr s => s | _ => Py.type_name v end;
  py_repr := fun v => match v with PStr s => "'" +:+ s +:+ "'" | _ => Py.type_name v end;
  format_2f := fun _ => "0.00";
  json_dumps := fun v => "{" +:+ Py.type_name v +:+ "}";
  json_loads := fun s => Ok (PDict ∅)
|}.

(** ** implementation/master_agent.py *)

Module MasterAgent.

Inductive ConversationStage :=
| GREETING | INTENT_CAPTURE | SALES_EXPLORATION | VERIFICATION
| UNDERWRITING | DOCUMENTATION | CLOSURE.

Inductive Decision := PENDING | APPROVED | REJECTED | NEED_MORE_INFO.

#[global] Instance ConversationStage_eq_dec : EqDecision ConversationStage.
Proof. solve_decision. Defined.
#[global] Instance Decision_eq_dec : EqDecision Decision.
Proof. solve_decision. Defined.

(** [member.value] *)
Definition stage_value (s : ConversationStage) : string :=
  match s with
  | GREETING => "greeting"
  | INTENT_CAPTURE => "intent_capture"
  | SALES_EXPLORATION => "sales_exploration"
  | VERIFICATION => "verification"
  | UNDERWRITING => "underwriting"
  | DOCUMENTATION => "documentation"
  | CLOSURE => "closure"
  end.

Definition decision_value (d : Decision) : string :=
  match d with
  | PENDING => "pending"
  | APPROVED => "approved"
  | REJECTED => "rejected"
  | NEED_MORE_INFO => "need_more_info"
  end.

Definition all_stages : list ConversationStage :=
  [GREETING; INTENT_CAPTURE; SALES_EXPLORATION; VERIFICATION;
   UNDERWRITING; DOCUMENTATION; CLOSURE].

Definition all_decisions : list Decision :=
  [PENDING; APPROVED; REJECTED; NEED_MORE_INFO].

(** The stage names; a stage string outside this list is unknown. *)
Definition stage_names : list string := stage_value <$> all_stages.

Section Runtime.
Context `{PyRuntime}.

(** [ConversationStage(v)]: lookup of a member by value. *)
Definition ConversationStage_of (v : pyval) : result ConversationStage :=
  match v with
  | PStr s =>
      match find (fun m => String.eqb (stage_value m) s) all_stages with
      | Some m => Ok m
      | None => Raise (Py.ValueError (py_repr v +:+ " is not a valid ConversationStage"))
      end
  | _ => Raise (Py.ValueError (py_repr v +:+ " is not a valid ConversationStage"))
  end.

(** [Decision(v)] *)
Definition Decision_of (v : pyval) : result Decision :=
  match v with
  | PStr s =>
      match find (fun m => String.eqb (decision_value m) s) all_decisions with
      | Some m => Ok m
      | None => Raise (Py.ValueError (py_repr v +:+ " is not a valid Decision"))
      end
  | _ => Raise (Py.ValueError (py_repr v +:+ " is not a valid Decision"))
  end.

(** [datetime.fromisoformat(v)] *)
Definition datetime_fromisoformat (v : pyval) : result datetime :=
  match v with
  | PStr s =>
      match fromisoformat s with
      | Some t => Ok t
      | None => Raise (Py.ValueError ("Invalid isoformat string: " +:+ py_repr v))
      end
  | _ => Raise (Py.TypeError "fromisoformat: argument must be str")
  end.

(** The attributes of a [ConversationState] object.  [stage] and
    [decision] always hold enum members and [start_time] a datetime
    (every assignment in the file goes through the constructors);
    the other attributes hold whatever value was last stored. *)
Record ConversationState := {
  session_id : pyval;
  start_time : datetime;
  stage : ConversationStage;
  customer_id : pyval;
  customer_name : pyval;
  customer_phone : pyval;
  customer_details : pyval;
  loan_details : pyval;
  selected_offer : pyval;
  verification_status : pyval;
  underwriting_result : pyval;
  decision : Decision;
  sanction_letter_id : pyval;
  messages : pyval;
  errors : pyval;
  next_agent : pyval;
  api_retries : pyval;
  document_uploads : pyval;
  gemini_history : pyval;
  recursion_depth : Z
}.

Definition set_stage (v : ConversationStage) (st : ConversationState) :=
  {| session_id := session_id st; start_time := start_time st; stage := v;
     customer_id := customer_id st; customer_name := customer_name st;
     customer_phone := customer_phone st; customer_details := customer_details st;
     loan_details := loan_details st; selected_offer := selected_offer st;
     verification_status := verification_status st;
     underwriting_result := underwriting_result st; decision := decision st;
     sanction_letter_id := sanction_letter_id st; messages := messages st;
     errors := errors st; next_agent := next_agent st;
     api_retries := api_retries st; document_uploads := document_uploads st;
     gemini_history := gemini_history st; recursion_depth := recursion_depth st |}.

Definition set_next_agent (v : pyval) (st : ConversationState) :=
  {| session_id := session_id st; start_time := start_time st; stage := stage st;
     customer_id := customer_id st; customer_name := customer_name st;
     customer_phone := customer_phone st; customer_details := customer_details st;
     loan_details := loan_details st; selected_offer := selected_offer st;
     verification_status := verification_status st;
     underwriting_result := underwriting_result st; decision := decision st;
     sanction_letter_id := sanction_letter_id st; messages := messages st;
     errors := errors st; next_agent := v;
     api_retries := api_retries st; document_uploads := document_uploads st;
     gemini_history := gemini_history st; recursion_depth := recursion_depth st |}.

Definition set_messages (v : pyval) (st : ConversationState) :=
  {| session_id := session_id st; start_time := start_time st; stage := stage st;
     customer_id := customer_id st; customer_name := customer_name st;
     customer_phone := customer_phone st; customer_details := customer_details st;
     loan_details := loan_details st; selected_offer := selected_offer st;
     verification_status := verification_status st;
     underwriting_result := underwriting_result st; decision := decision st;
     sanction_letter_id := sanction_letter_id st; messages := v;
     errors := errors st; next_agent := next_agent st;
     api_retries := api_retries st; document_uploads := document_uploads st;
     gemini_history := gemini_history st; recursion_depth := recursion_depth st |}.

Definition set_errors (v : pyval) (st : ConversationState) :=
  {| session_id := session_id st; start_time := start_time st; stage := stage st;
     customer_id := customer_id st; customer_name := customer_name st;
     customer_phone := customer_phone st; customer_details := customer_details st;
     loan_details := loan_details st; selected_offer := selected_offer st;
     verification_status := verification_status st;
     underwriting_result := underwriting_result st; decision := decision st;
     sanction_letter_id := sanction_letter_id st; messages := messages st;
     errors := v; next_agent := next_agent st;
     api_retries := api_retries st; document_uploads := document_uploads st;
     gemini_history := gemini_history st; recursion_depth := recursion_depth st |}.

Definition initial_customer_details : pydict :=
  list_to_map
    [("full_name", PNone); ("date_of_birth", PNone);
     ("father_or_spouse_name", PNone); ("permanent_address", PNone);
     ("current_address", PNone); ("mobile_number", PNone);
     ("email_id", PNone); ("marital_status", PNone);
     ("number_of_dependents", PNone); ("nationality", PNone);
     ("pan_number", PNone); ("aadhaar_number", PNone);
     ("id_proof", PNone); ("address_proof", PNone);
     ("employment_type", PNone); ("company_or_business_name", PNone);
     ("job_designation", PNone); ("years_of_experience", PNone);
     ("monthly_income", PNone); ("annual_income", PNone);
     ("employer_or_business_details", PNone);
     ("existing_loans_or_emis", PNone);
     ("monthly_financial_obligations", PNone);
     ("savings_and_investments", PNone); ("credit_score", PNone);
     ("cibil_score", PNone);
     ("salary_slips_available", PBool false);
     ("form_16_or_itr_available", PBool false);
     ("bank_statements_available", PBool false);
     ("gst_certificate_available", PBool false);
     ("trade_license_available", PBool false);
     ("profit_and_loss_statement_available", PBool false);
     ("balance_sheet_available", PBool false);
     ("photographs", PNone); ("signature", PNone)].

Definition initial_loan_details : pydict :=
  list_to_map
    [("amount", PNone); ("tenure", PNone); ("purpose", PNone);
     ("interest_rate", PNone); ("emi", PNone); ("processing_fee", PNone)].

(** [ConversationState.__init__]: one fresh identifier, one reading of
    the clock. *)
Definition __init__ (w : world) : ConversationState * world :=
  ({| session_id := PStr (uuid4 (rng_draws w));
      start_time := now (clock_reads w);
      stage := GREETING;
      customer_id := PNone;
      customer_name := PNone;
      customer_phone := PNone;
      customer_details := PDict initial_customer_details;
      loan_details := PDict initial_loan_details;
      selected_offer := PDict ∅;
      verification_status := PDict ∅;
      underwriting_result := PDict ∅;
      decision := PENDING;
      sanction_letter_id := PNone;
      messages := PList [];
      errors := PList [];
      next_agent := PNone;
      api_retries := PDict ∅;
      document_uploads := PDict ∅;
      gemini_history := PList [];
      recursion_depth := 0 |},
   tick (draw w)).

Definition to_dict (st : ConversationState) : pydict :=
  list_to_map
    [("session_id", session_id st);
     ("start_time", PStr (isoformat (start_time st)));
     ("stage", PStr (stage_value (stage st)));
     ("customer_id", customer_id st);
     ("customer_name", customer_name st);
     ("customer_phone", customer_phone st);
     ("customer_details", customer_details st);
     ("loan_details", loan_details st);
     ("selected_offer", selected_offer st);
     ("verification_status", verification_status st);
     ("underwriting_result", underwriting_result st);
     ("decision", PStr (decision_value (decision st)));
     ("sanction_letter_id", sanction_letter_id st);
     ("messages", messages st);
     ("errors", errors st);
     ("next_agent", next_agent st);
     ("api_retries", api_retries st);
     ("document_uploads", document_uploads st)].

(** [ConversationState.from_dict]: a fresh object, then one attribute
    after the other; the three conversions can raise. *)
Definition from_dict (data : pydict) (w : world)
  : result ConversationState * world :=
  let '(state, w) := __init__ w in
  (t ← datetime_fromisoformat
         (Py.dict_get data "start_time" (PStr (isoformat (start_time state))));
   s ← ConversationStage_of
         (Py.dict_get data "stage" (PStr (stage_value (stage state))));
   d ← Decision_of
         (Py.dict_get data "decision" (PStr (decision_value (decision state))));
   mret
     {| session_id := Py.dict_get data "session_id" (session_id state);
        start_time := t;
        stage := s;
        gemini_history := Py.dict_get data "gemini_history" (PList []);
        customer_id := Py.dict_get data "customer_id" (customer_id state);
        customer_name := Py.dict_get data "customer_name" (customer_name state);
        customer_phone := Py.dict_get data "customer_phone" (customer_phone state);
        customer_details :=
          Py.dict_get data "customer_details" (customer_details state);
        loan_details := Py.dict_get data "loan_details" (loan_details state);
        selected_offer := Py.dict_get data "selected_offer" (selected_offer state);
        verification_status :=
          Py.dict_get data "verification_status" (verification_status state);
        underwriting_result :=
          Py.dict_get data "underwriting_result" (underwriting_result state);
        decision := d;
        sanction_letter_id :=
          Py.dict_get data "sanction_letter_id" (sanction_letter_id state);
        messages := Py.dict_get data "messages" (messages state);
        errors := Py.dict_get data "errors" (errors state);
        next_agent := Py.dict_get data "next_agent" (next_agent state);
        api_retries := Py.dict_get data "api_retries" (api_retries state);
        document_uploads :=
          Py.dict_get data "document_uploads" (document_uploads state);
        recursion_depth := recursion_depth state |},
   w).


(** [add_message]: [self.messages.append] is looked up before the
    clock is read. *)
Definition add_message (role content : pyval) (st : ConversationState)
    (w : world) : result ConversationState * world :=
  match messages st with
  | PList l =>
      let msg : pydict :=
        list_to_map [("role", role); ("content", content);
                     ("timestamp", PStr (isoformat (now (clock_reads w))))] in
      (Ok (set_messages (PList (l ++ [PDict msg])) st), tick w)
  | v => (Raise (Py.AttributeError v "append"), w)
  end.

Definition add_error (error_type error_message agent : pyval)
    (st : ConversationState) (w : world)
  : result ConversationState * world :=
  match errors st with
  | PList l =>
      let err : pydict :=
        list_to_map [("type", error_type); ("message", error_message);
                     ("agent", agent);
                     ("timestamp", PStr (isoformat (now (clock_reads w))))] in
      (Ok (set_errors (PList (l ++ [PDict err])) st), tick w)
  | v => (Raise (Py.AttributeError v "append"), w)
  end.

(** *** The stage machine *)

(** A graph node receives either a state dictionary or a state object. *)
Inductive node_input :=
| AsDict (data : pydict)
| AsState (st : ConversationState).

Definition goto (s : ConversationStage) (agent : string)
    (st : ConversationState) : ConversationState :=
  set_next_agent (PStr agent) (set_stage s st).

Definition stay (agent : string) (st : ConversationState)
  : ConversationState :=
  set_next_agent (PStr agent) st.

(** The [if]/[elif] chain on [state_obj.stage].  [stage] always holds
    one of the seven members, so the chain's final [else] (any other
    value) has no case here.  Reading a key of [loan_details] or
    [verification_status] raises when that attribute is not a dict;
    this happens before the branch assigns anything. *)
Definition stage_transition (st : ConversationState)
  : result ConversationState :=
  match stage st with
  | GREETING =>
      if Py.truthy (customer_id st)
      then Ok (goto INTENT_CAPTURE "generate_response" st)
      else Ok (stay "generate_response" st)
  | INTENT_CAPTURE =>
      Ok (goto SALES_EXPLORATION "sales_agent" st)
  | SALES_EXPLORATION =>
      amount ← Py.get (loan_details st) "amount" PNone;
      both ← (if Py.truthy amount
              then Py.get (loan_details st) "tenure" PNone
              else Ok amount);
      if Py.truthy both
      then Ok (goto VERIFICATION "verification_agent" st)
      else Ok (stay "sales_agent" st)
  | VERIFICATION =>
      verified ← Py.get (verification_status st) "verified" (PBool false);
      if Py.truthy verified
      then Ok (goto UNDERWRITING "underwriting_agent" st)
      else Ok (stay "verification_agent" st)
  | UNDERWRITING =>
      if bool_decide (decision st ∈ [APPROVED; REJECTED])
      then
        if bool_decide (decision st = APPROVED)
        then Ok (goto DOCUMENTATION "sanction_letter_agent" st)
        else Ok (goto CLOSURE "generate_response" st)
      else if bool_decide (decision st = NEED_MORE_INFO)
      then Ok (stay "underwriting_agent" st)
      else Ok (stay "underwriting_agent" st)
  | DOCUMENTATION =>
      if Py.truthy (sanction_letter_id st)
      then Ok (goto CLOSURE "generate_response" st)
      else Ok (stay "sanction_letter_agent" st)
  | CLOSURE =>
      Ok (stay "end" st)
  end.

(** The body of the [try]: the chain, then the check that
    [next_agent] is set. *)
Definition determine_try (st : ConversationState)
  : result ConversationState :=
  st1 ← stage_transition st;
  if negb (Py.truthy (next_agent st1))
  then Ok (stay "generate_response" st1)
  else Ok st1.

Definition node_output (response : string) (agent : pyval)
    (st : ConversationState) : pydict :=
  list_to_map [("response", PStr response); ("next_agent", agent);
               ("state", PDict (to_dict st))].

(** [_determine_next_step] once [state_obj] is at hand: the result of
    the call, and the object as the call leaves it. *)
Definition determine_on (st : ConversationState) (w : world)
  : result pydict * ConversationState * world :=
  match determine_try st with
  | Ok st1 =>
      (Ok (node_output "Determined next step" (next_agent st1) st1), st1, w)
  | Raise e =>
      let st1 := stay "generate_response" st in
      match add_error (PStr "exception")
              (PStr ("Error in _determine_next_step: " +:+ exn_msg e))
              PNone st1 w with
      | (Ok st2, w2) =>
          (Ok (node_output ("Error encountered: " +:+ exn_msg e)
                 (PStr "generate_response") st2), st2, w2)
      | (Raise e', w2) => (Raise e', st1, w2)
      end
  end.

(** [_determine_next_step]: the conversion of a dictionary comes
    before the [try] and is not covered by it. *)
Definition _determine_next_step (state : node_input) (w : world)
  : result pydict * option ConversationState * world :=
  match state with
  | AsState st =>
      let '(r, st', w') := determine_on st w in (r, Some st', w')
  | AsDict data =>
      match from_dict data w with
      | (Ok st, w1) =>
          let '(r, st', w') := determine_on st w1 in (r, Some st', w')
      | (Raise e, w1) => (Raise e, None, w1)
      end
  end.

Definition valid_agents : list string :=
  ["sales_agent"; "verification_agent"; "underwriting_agent";
   "sanction_letter_agent"; "generate_response"; "end"].

(** [_route_to_agent], the next node: here the conversion of a
    dictionary has a handler of its own, which falls back to a fresh
    state. *)
Definition _route_to_agent (state : node_input) (w : world)
  : result pydict * world :=
  let '(state_obj, w) :=
    match state with
    | AsState st => (st, w)
    | AsDict data =>
        match from_dict data w with
        | (Ok st, w1) => (st, w1)
        | (Raise _, w1) => __init__ w1
        end
    end in
  if existsb (Py.eq_str (next_agent state_obj)) valid_agents
  then (Ok (node_output "" (next_agent state_obj) state_obj), w)
  else
    let st1 := stay "generate_response" state_obj in
    (Ok (node_output "" (PStr "generate_response") st1), w).

(** *** The transition table of the specification

    The table of section 4.3, written from its words, for comparison
    with [stage_transition]: from a stage and the five conditions the
    table mentions to the next stage and the node invoked next ("none"
    is the response generator, "terminal" the end of the graph). *)
Record conditions := Conditions {
  customer_identified : bool;
  amount_and_tenure_known : bool;
  verification_complete : bool;
  underwriting_decision : Decision;
  sanction_letter_set : bool
}.

Definition transition_table (s : ConversationStage) (c : conditions)
  : ConversationStage * string :=
  match s with
  | GREETING =>
      if customer_identified c then (INTENT_CAPTURE, "generate_response")
      else (GREETING, "generate_response")
  | INTENT_CAPTURE => (SALES_EXPLORATION, "sales_agent")
  | SALES_EXPLORATION =>
      if amount_and_tenure_known c then (VERIFICATION, "verification_agent")
      else (SALES_EXPLORATION, "sales_agent")
  | VERIFICATION =>
      if verification_complete c then (UNDERWRITING, "underwriting_agent")
      else (VERIFICATION, "verification_agent")
  | UNDERWRITING =>
      match underwriting_decision c with
      | APPROVED => (DOCUMENTATION, "sanction_letter_agent")
      | REJECTED => (CLOSURE, "generate_response")
      | NEED_MORE_INFO => (UNDERWRITING, "underwriting_agent")
      | PENDING => (UNDERWRITING, "underwriting_agent")
      end
  | DOCUMENTATION =>
      if sanction_letter_set c then (CLOSURE, "generate_response")
      else (DOCUMENTATION, "sanction_letter_agent")
  | CLOSURE => (CLOSURE, "end")
  end.

(** The conditions as a state with dictionaries [loan] and
    [verification] in [loan_details] and [verification_status] shows
    them; "known", "identified" and "set" are Python truth. *)
Definition conditions_of (st : ConversationState)
    (loan verification : pydict) : conditions :=
  {| customer_identified := Py.truthy (customer_id st);
     amount_and_tenure_known :=
       Py.truthy (Py.dict_get loan "amount" PNone)
       && Py.truthy (Py.dict_get loan "tenure" PNone);
     verification_complete :=
       Py.truthy (Py.dict_get verification "verified" (PBool false));
     underwriting_decision := decision st;
     sanction_letter_set := Py.truthy (sanction_letter_id st) |}.

(** *** The driver *)

Definition setdefault (k : string) (v : pyval) (d : pydict) : pydict :=
  match d !! k with
  | Some _ => d
  | None => <[k := v]> d
  end.

Definition or_else (v dflt : pyval) : pyval :=
  if Py.truthy v then v else dflt.

Definition apology : string :=
  "Apologies, I encountered an internal issue while processing your request.".

(** The [except] clause of [process_message]. *)
Definition graph_error_response (e : exn) (st : ConversationState)
    (w : world) : result pydict * ConversationState * world :=
  match errors st with
  | PList l =>
      let err : pydict :=
        list_to_map [("type", PStr "GraphExecutionError");
                     ("message", PStr (exn_msg e));
                     ("timestamp", PStr (isoformat (now (clock_reads w))))] in
      let st1 := set_errors (PList (l ++ [PDict err])) st in
      (Ok (list_to_map
             [("response", PStr apology);
              ("stage", PStr (stage_value (stage st1)));
              ("decision", PStr "error");
              ("next_agent", PStr "generate_response");
              ("state", PDict (to_dict st1))]),
       st1, tick w)
  | v => (Raise (Py.AttributeError v "append"), st, w)
  end.

(** [process_message].  [graph] stands for the two statements that
    drive the LangGraph object (registering the validator on every
    node, then [invoke]); it receives the input dictionary and either
    returns the graph's output or raises.  The result is what the
    method returns or raises, and [self.state] as the call leaves it.
    The first two steps, appending the user message and printing the
    snapshot, stand before the [try]. *)
Definition process_message (graph : pydict → result pyval)
    (user_message : string) (st : ConversationState) (w : world)
  : result pydict * ConversationState * world :=
  match add_message (PStr "user") (PStr user_message) st w with
  | (Raise e, w0) => (Raise e, st, w0)
  | (Ok st0, w0) =>
      (* the snapshot printed before the [try] reads the loan amount *)
      match Py.get (loan_details st0) "amount" (PStr "None") with
      | Raise e => (Raise e, st0, w0)
      | Ok _ =>
      let w1 := tick w0 in   (* start_time = datetime.now() *)
      match graph {[ "message" := PStr user_message ]} with
      | Raise e => graph_error_response e st0 w1
      | Ok out =>
          let fallback : pydict :=
            list_to_map
              [("response", PStr "I'm sorry, something went wrong while processing your request. Could you please rephrase?");
               ("stage", PStr (stage_value (stage st0)));
               ("decision", PStr (decision_value (decision st0)));
               ("state", PDict (to_dict st0))] in
          let result0 : pydict :=
            match out with
            | PDict d => if Py.truthy out then d else fallback
            | _ => fallback
            end in
          let result1 :=
            setdefault "state" (PDict (to_dict st0))
              (setdefault "decision" (PStr (decision_value (decision st0)))
                 (setdefault "stage" (PStr (stage_value (stage st0)))
                    (setdefault "response" (PStr "No valid response generated.")
                       result0))) in
          let '(st1, w2) :=
            match Py.dict_get result1 "state" PNone with
            | PDict sd =>
                match from_dict sd w1 with
                | (Ok st', w') => (st', w')
                | (Raise _, w') => (st0, w')
                end
            | _ => (st0, w1)
            end in
          let response_text :=
            py_str (Py.dict_get result1 "response"
                      (PStr "Sorry, I didn’t catch that.")) in
          let st2 :=
            if (25 <? recursion_depth st1)%Z
            then set_next_agent (PStr "generate_response")
                   (set_stage GREETING st1)
            else st1 in
          match add_message (PStr "assistant") (PStr response_text) st2 w2 with
          | (Raise e, w3) => graph_error_response e st2 w3
          | (Ok st3, w3) =>
              (Ok (list_to_map
                     [("response", PStr response_text);
                      ("stage", PStr (stage_value (stage st3)));
                      ("decision", PStr (decision_value (decision st3)));
                      ("next_agent",
                       or_else (next_agent st3) (PStr "generate_response"));
                      ("state", PDict (to_dict st3))]),
               st3, tick w3)
          end
      end
      end
  end.

(** *** Notions used to state properties of the stage machine *)

(** The position of a stage in the declaration of [ConversationStage]. *)
Definition stage_index (s : ConversationStage) : nat :=
  match s with
  | GREETING => 0
  | INTENT_CAPTURE => 1
  | SALES_EXPLORATION => 2
  | VERIFICATION => 3
  | UNDERWRITING => 4
  | DOCUMENTATION => 5
  | CLOSURE => 6
  end.

(** The keys [from_dict] looks up in its argument. *)
Definition from_dict_keys : list string :=
  ["session_id"; "start_time"; "stage"; "gemini_history"; "customer_id";
   "customer_name"; "customer_phone"; "customer_details"; "loan_details";
   "selected_offer"; "verification_status"; "underwriting_result";
   "decision"; "sanction_letter_id"; "messages"; "errors"; "next_agent";
   "api_retries"; "document_uploads"].

(** [n] consecutive calls of [_determine_next_step] on the same state
    object; a call that raises ends the run. *)
Fixpoint passes (n : nat) (st : ConversationState) (w : world)
  : ConversationState * world :=
  match n with
  | O => (st, w)
  | S n =>
      match _determine_next_step (AsState st) w with
      | (Ok _, Some st', w') => passes n st' w'
      | _ => (st, w)
      end
  end.

End Runtime.
End MasterAgent.

(** ** implementation/state_manager.py *)

Module StateManager.

(** The state object handed to the manager.  The manager asks with
    [hasattr] which attributes exist and creates attributes by
    assignment, so the object is its attribute dictionary, together with
    whether its class defines the method [add_message]. *)
Record state_object := StateObject {
  attrs : pydict;
  has_add_message : bool
}.

Definition hasattr (o : state_object) (name : string) : bool :=
  bool_decide (is_Some (attrs o !! name)).

Definition setattr (name : string) (v : pyval) (o : state_object)
  : state_object :=
  StateObject (<[name := v]> (attrs o)) (has_add_message o).

Definition getattr (o : state_object) (name : string) : result pyval :=
  match attrs o !! name with
  | Some v => Ok v
  | None =>
      Raise (Exn "AttributeError"
               ("'ConversationState' object has no attribute '" +:+ name +:+ "'"))
  end.

(** Statements that update the object in place and can raise: the object
    and the world are threaded through, and stay as they are at the point
    where an exception leaves the block. *)
Definition stmt : Type :=
  state_object → world → option exn * state_object * world.

Definition skip : stmt := fun o w => (None, o, w).
Definition raise (e : exn) : stmt := fun o w => (Some e, o, w).
Definition assign (name : string) (v : pyval) : stmt :=
  fun o w => (None, setattr name v o, w).

Definition and_then (a b : stmt) : stmt := fun o w =>
  match a o w with
  | (None, o1, w1) => b o1 w1
  | r => r
  end.
Infix ";;;" := and_then (at level 90, right associativity).

(** Run [k] on the value of an expression. *)
Definition eval {A} (r : result A) (k : A → stmt) : stmt :=
  match r with
  | Ok a => k a
  | Raise e => raise e
  end.

(** [if key in state_dict: body(state_dict[key])] *)
Definition if_in (state_dict : pydict) (key : string) (body : pyval → stmt)
  : stmt :=
  match state_dict !! key with
  | Some v => body v
  | None => skip
  end.

(** [if state.name is None: state.name = {}] *)
Definition none_to_empty_dict (name : string) : stmt := fun o w =>
  match attrs o !! name with
  | Some PNone => assign name (PDict ∅) o w
  | Some _ => skip o w
  | None => eval (getattr o name) (fun _ => skip) o w
  end.

(** [state.name[key] = v]; [v] has been evaluated already. *)
Definition assign_item (name key : string) (v : pyval) : stmt := fun o w =>
  eval (cur ← getattr o name; Py.setitem cur key v) (assign name) o w.

Section Runtime.
Context `{PyRuntime}.

(** [state.add_message(role, content)] for a class that defines it as
    [ConversationState] does. *)
Definition add_message (role content : pyval) : stmt := fun o w =>
  match getattr o "messages" with
  | Ok (PList l) =>
      let msg : pydict :=
        list_to_map [("role", role); ("content", content);
                     ("timestamp", PStr (isoformat (now (clock_reads w))))] in
      (None, setattr "messages" (PList (l ++ [PDict msg])) o, tick w)
  | Ok v => raise (Py.AttributeError v "append") o w
  | Raise e => raise e o w
  end.

(** The loop [for doc_id, doc_info in ....items(): state.document_uploads[doc_id] = doc_info] *)
Definition merge_document_uploads (uploads : pydict) : stmt :=
  map_fold (fun doc_id doc_info (acc : stmt) =>
              acc ;;; assign_item "document_uploads" doc_id doc_info)
           skip uploads.

(** The loop [for i in range(current_msg_count, len(...)): ...] *)
Definition append_new_messages (loaded : pyval) (indices : list nat) : stmt :=
  foldr (fun i (rest : stmt) =>
           eval (msg ← Py.index loaded i;
                 role ← Py.getitem msg "role";
                 content ← Py.getitem msg "content";
                 mret (role, content))
                (fun rc => add_message rc.1 rc.2) ;;; rest)
        skip indices.

Definition merge_messages (loaded : pyval) : stmt := fun o w =>
  match attrs o !! "messages" with
  | None => skip o w
  | Some current =>
      eval (current_msg_count ←
              (if Py.truthy current then Py.len current else Ok 0%nat);
            loaded_count ← Py.len loaded;
            mret (current_msg_count, loaded_count))
           (fun counts =>
              let '(current_msg_count, loaded_count) := counts in
              if decide (current_msg_count < loaded_count)
              then
                if negb (has_add_message o)
                then assign "messages" loaded
                else append_new_messages loaded
                       (seq current_msg_count
                            (loaded_count - current_msg_count))
              else assign "messages" loaded)
           o w
  end.

(** [if hasattr(state, name): body] *)
Definition if_hasattr (name : string) (body : stmt) : stmt := fun o w =>
  if hasattr o name then body o w else skip o w.

(** "Special handling for document uploads" *)
Definition update_document_uploads (state_dict : pydict) : stmt :=
  if_in state_dict "document_uploads" (fun uploads =>
    if_hasattr "document_uploads"
      (none_to_empty_dict "document_uploads" ;;;
       match uploads with
       | PDict d => merge_document_uploads d
       | v => raise (Py.AttributeError v "items")
       end)).

(** "Special handling for income proof verification" *)
Definition update_income_proof (state_dict : pydict) : stmt :=
  if_in state_dict "income_proof_verification" (fun ipv =>
    assign "income_proof_verification" ipv ;;;
    if_hasattr "verification_status"
      (none_to_empty_dict "verification_status" ;;;
       eval (Py.get ipv "status" PNone) (fun status =>
         assign_item "verification_status" "income_proof_verified"
           (PBool (Py.eq_str status "verified"))) ;;;
       eval (Py.get ipv "confidence_score" (PFloat 0)) (fun score =>
         assign_item "verification_status" "income_proof_confidence" score))).

(** "Special handling for messages" *)
Definition update_messages (state_dict : pydict) : stmt :=
  if_in state_dict "messages" merge_messages.

(** "Update sanction letter ID if it exists" *)
Definition update_sanction_letter (state_dict : pydict) : stmt :=
  if_in state_dict "sanction_letter_id" (fun letter =>
    assign "sanction_letter_id" letter ;;;
    if_hasattr "documentation_status"
      (none_to_empty_dict "documentation_status" ;;;
       assign_item "documentation_status" "status" (PStr "completed") ;;;
       assign_item "documentation_status" "document_path" letter)).

(** [if key in state_dict: body(state_dict[key])] on whatever value
    [json.load] returned. *)
Definition if_in_loaded (state_dict : pyval) (key : string)
    (body : pyval → stmt) : stmt :=
  eval (Py.contains state_dict key) (fun found : bool =>
    if found then eval (Py.getitem state_dict key) body else skip).

(** The body of "Special handling for messages" once the key is found:
    the state's messages are counted before [state_dict["messages"]] is
    read. *)
Definition merge_loaded_messages (state_dict : pyval) : stmt := fun o w =>
  match attrs o !! "messages" with
  | None => skip o w
  | Some current =>
      eval (current_msg_count ←
              (if Py.truthy current then Py.len current else Ok 0%nat);
            loaded ← Py.getitem state_dict "messages";
            loaded_count ← Py.len loaded;
            mret (current_msg_count, loaded, loaded_count))
           (fun counts =>
              let '(current_msg_count, loaded, loaded_count) := counts in
              if decide (current_msg_count < loaded_count)
              then
                if negb (has_add_message o)
                then assign "messages" loaded
                else append_new_messages loaded
                       (seq current_msg_count
                            (loaded_count - current_msg_count))
              else assign "messages" loaded)
           o w
  end.

(** [_update_state_from_dict] as [load_state] calls it, on whatever value
    [json.load] returned: [in] and the subscripts are those of the value.
    On a dictionary this is [_update_state_from_dict] below. *)
Definition _update_state_from_loaded (state_dict : pyval) : stmt :=
  eval (Py.contains state_dict "document_uploads") (fun found : bool =>
    if found
    then if_hasattr "document_uploads"
           (none_to_empty_dict "document_uploads" ;;;
            eval (Py.getitem state_dict "document_uploads") (fun uploads =>
              match uploads with
              | PDict d => merge_document_uploads d
              | v => raise (Py.AttributeError v "items")
              end))
    else skip) ;;;
  if_in_loaded state_dict "income_proof_verification" (fun ipv =>
    assign "income_proof_verification" ipv ;;;
    if_hasattr "verification_status"
      (none_to_empty_dict "verification_status" ;;;
       eval (Py.get ipv "status" PNone) (fun status =>
         assign_item "verification_status" "income_proof_verified"
           (PBool (Py.eq_str status "verified"))) ;;;
       eval (Py.get ipv "confidence_score" (PFloat 0)) (fun score =>
         assign_item "verification_status" "income_proof_confidence" score))) ;;;
  if_in_loaded state_dict "customer_details" (assign "customer_details") ;;;
  if_in_loaded state_dict "loan_details" (assign "loan_details") ;;;
  if_in_loaded state_dict "extracted_info" (assign "extracted_info") ;;;
  eval (Py.contains state_dict "messages") (fun found : bool =>
    if found then merge_loaded_messages state_dict else skip) ;;;
  if_in_loaded state_dict "conversation_stage" (assign "conversation_stage") ;;;
  if_in_loaded state_dict "decision" (assign "decision") ;;;
  if_in_loaded state_dict "verification_status" (assign "verification_status") ;;;
  if_in_loaded state_dict "underwriting_result" (assign "underwriting_result") ;;;
  if_in_loaded state_dict "documentation_status" (assign "documentation_status") ;;;
  if_in_loaded state_dict "sanction_letter_id" (fun letter =>
    assign "sanction_letter_id" letter ;;;
    if_hasattr "documentation_status"
      (none_to_empty_dict "documentation_status" ;;;
       assign_item "documentation_status" "status" (PStr "completed") ;;;
       assign_item "documentation_status" "document_path" letter)) ;;;
  if_in_loaded state_dict "last_updated" (assign "last_updated").

(** The method on a dictionary, which is what every writer of the state
    file dumps. *)
Definition _update_state_from_dict (state_dict : pydict) : stmt :=
  update_document_uploads state_dict ;;;
  update_income_proof state_dict ;;;
  if_in state_dict "customer_details" (assign "customer_details") ;;;
  if_in state_dict "loan_details" (assign "loan_details") ;;;
  if_in state_dict "extracted_info" (assign "extracted_info") ;;;
  update_messages state_dict ;;;
  if_in state_dict "conversation_stage" (assign "conversation_stage") ;;;
  if_in state_dict "decision" (assign "decision") ;;;
  if_in state_dict "verification_status" (assign "verification_status") ;;;
  if_in state_dict "underwriting_result" (assign "underwriting_result") ;;;
  if_in state_dict "documentation_status" (assign "documentation_status") ;;;
  update_sanction_letter state_dict ;;;
  if_in state_dict "last_updated" (assign "last_updated").

(** A message [m] appended by [add_message] for the loaded message
    [src]: the role and the content of [src] under a timestamp of its
    own. *)
Definition restamped (src m : pyval) : Prop :=
  ∃ role content stamp,
    Py.getitem src "role" = Ok role ∧
    Py.getitem src "content" = Ok content ∧
    m = PDict (list_to_map [("role", role); ("content", content);
                            ("timestamp", PStr stamp)]).

(** A statement keeps an attribute when no run of it, with or without an
    exception, changes the attribute or the class of the object. *)
Definition keeps (name : string) (s : stmt) : Prop :=
  ∀ o w, attrs (s o w).1.2 !! name = attrs o !! name ∧
         has_add_message (s o w).1.2 = has_add_message o.

(** A statement never removes an attribute when every attribute the
    object has before a run, with or without an exception, it has after
    it. *)
Definition never_removes (s : stmt) : Prop :=
  ∀ o w name, is_Some (attrs o !! name) → is_Some (attrs (s o w).1.2 !! name).

(** [ensures pre s post]: a run of [s] that starts where [pre] holds and
    completes without an exception ends where [post] holds. *)
Definition ensures (pre : state_object → Prop) (s : stmt)
    (post : state_object → Prop) : Prop :=
  ∀ o w, pre o → (s o w).1.1 = None → post (s o w).1.2.

(** A statement is inert when no run of it, with or without an
    exception, changes the object or reads the clock. *)
Definition inert (s : stmt) : Prop :=
  ∀ o w, (s o w).1.2 = o ∧ (s o w).2 = w.

(** [_state_to_dict]: six attributes are read unconditionally, six
    more are copied when they exist and are truthy. *)
Definition _state_to_dict (o : state_object) : result pydict :=
  customer_details ← getattr o "customer_details";
  loan_details ← getattr o "loan_details";
  extracted_info ← getattr o "extracted_info";
  messages ← getattr o "messages";
  conversation_stage ← getattr o "conversation_stage";
  decision ← getattr o "decision";
  let add_if_set (name : string) (d : pydict) : pydict :=
    match attrs o !! name with
    | Some v => if Py.truthy v then <[name := v]> d else d
    | None => d
    end in
  mret
    (add_if_set "income_proof_verification"
       (add_if_set "document_uploads"
          (add_if_set "sanction_letter_id"
             (add_if_set "documentation_status"
                (add_if_set "underwriting_result"
                   (add_if_set "verification_status"
                      (list_to_map
                         [("customer_details", customer_details);
                          ("loan_details", loan_details);
                          ("extracted_info", extracted_info);
                          ("messages", messages);
                          ("conversation_stage", conversation_stage);
                          ("decision", decision)]))))))).

(** *** The state file

    The file at [state_file_path] is [None] while it does not exist
    and [Some text] otherwise.  [save_state] is given as the list of
    contents the file takes on, one per system call that changes it:
    [open(path, 'w')] empties the file, and the text produced by
    [json.dump] is in the file when the [with] block closes it.  (A
    text larger than the stream buffer reaches the file in several
    pieces; the list shows the fewest states there can be.)
    [makedirs] is the outcome of [os.makedirs].  Every exception is
    logged by the handler, so the method itself always returns. *)
Definition save_state (makedirs : result ()) (o : state_object) (w : world)
  : list (option string) * world :=
  match _state_to_dict o with
  | Raise _ => ([], w)
  | Ok state_dict =>
      let state_dict :=
        <["last_updated" := PStr (isoformat (now (clock_reads w)))]> state_dict in
      match makedirs with
      | Raise _ => ([], tick w)
      | Ok _ => ([Some ""; Some (json_dumps (PDict state_dict))], tick w)
      end
  end.

(** The file after the writes of a trace. *)
Definition file_after (file : option string) (trace : list (option string))
  : option string :=
  last (file :: trace) ≫= id.

(** What the specification asks of [save]: whoever reads the file while
    the call runs finds it as it was before the call or as it is after
    it. *)
Definition atomic_save (file : option string) (trace : list (option string))
  : Prop :=
  ∀ seen, seen ∈ trace → seen = file ∨ seen = file_after file trace.

(** [json.load]: the empty text is no JSON document. *)
Definition json_load (text : string) : result pyval :=
  if String.eqb text ""
  then Raise (Exn "JSONDecodeError" "Expecting value: line 1 column 1 (char 0)")
  else json_loads text.

(** [load_state].  [new_state] is the outcome of importing and
    calling the constructor of the module [conversation_state], which
    is used when no object is passed.  The handler returns [state] in
    whatever condition the exception left it. *)
Definition load_state (new_state : result state_object)
    (file : option string) (state : option state_object) (w : world)
  : option state_object * world :=
  match file with
  | None => (state, w)
  | Some text =>
      match json_load text with
      | Ok state_dict =>
          match state with
          | Some o =>
              let '(_, o', w') := _update_state_from_loaded state_dict o w in
              (Some o', w')
          | None =>
              match new_state with
              | Ok o =>
                  let '(_, o', w') := _update_state_from_loaded state_dict o w in
                  (Some o', w')
              | Raise _ => (None, w)
              end
          end
      | Raise _ => (state, w)
      end
  end.

(** The attributes [_state_to_dict] reads unconditionally, and those it
    copies when they exist and are truthy. *)
Definition required_attributes : list string :=
  ["customer_details"; "loan_details"; "extracted_info"; "messages";
   "conversation_stage"; "decision"].

Definition optional_attributes : list string :=
  ["verification_status"; "underwriting_result"; "documentation_status";
   "sanction_letter_id"; "document_uploads"; "income_proof_verification"].

(** The attributes [_update_state_from_dict] assigns to. *)
Definition merged_attributes : list string :=
  ["document_uploads"; "income_proof_verification"; "verification_status";
   "customer_details"; "loan_details"; "extracted_info"; "messages";
   "conversation_stage"; "decision"; "underwriting_result";
   "documentation_status"; "sanction_letter_id"; "last_updated"].

End Runtime.
End StateManager.

(** ** implementation/document_verification.py *)

Module DocumentVerification.

Definition document_types : list string :=
  ["salary_slip"; "bank_statement"; "income_tax_return"; "form_16";
   "business_financial_statement"].

Definition half : Q := 1 # 2.

(** [a >= 0.5] *)
Definition ge_half (a : Q) : bool := Qle_bool half a.

(** [max(a, b)] and [min(a, b)] of two floats: the first argument
    unless the second is strictly beyond it. *)
Definition py_max (a b : Q) : Q := if Qle_bool b a then a else b.
Definition py_min (a b : Q) : Q := if Qle_bool a b then a else b.

Section Runtime.
Context `{PyRuntime}.

(** [random.uniform(a, b)] is [a + (b - a) * random()]. *)
Definition uniform (a b : Q) (w : world) : Q * world :=
  ((a + (b - a) * random (rng_draws w))%Q, draw w).

Definition _analyze_document (doc_type : string) (customer_details : pydict)
    (w : world) : Q * world :=
  let '(base_confidence, w) := uniform (4 # 10) (9 # 10) w in
  let '(confidence_modifier, w) :=
    if String.eqb doc_type "income_tax_return" then uniform (1 # 10) (2 # 10) w
    else if String.eqb doc_type "salary_slip" then uniform (5 # 100) (15 # 100) w
    else if String.eqb doc_type "bank_statement" then uniform 0 (1 # 10) w
    else if String.eqb doc_type "form_16" then uniform (1 # 10) (2 # 10) w
    else uniform (- (1 # 10)) (1 # 10) w in
  (py_min (py_max (base_confidence + confidence_modifier) 0) 1, w).

(** The test both methods apply to a document type. *)
Definition awaits_verification (customer_details : pydict)
    (doc_type : string) : bool :=
  Py.truthy (Py.dict_get customer_details (doc_type +:+ "_uploaded") (PBool false))
  && negb (Py.truthy
             (Py.dict_get customer_details (doc_type +:+ "_verified") (PBool false))).

Definition _has_unverified_documents (state_data : pydict) : result bool :=
  match state_data !! "customer_details" with
  | None => Ok false
  | Some (PDict customer_details) =>
      Ok (existsb (awaits_verification customer_details) document_types)
  | Some v => Raise (Py.AttributeError v "get")
  end.

(** The variables of the loop in [_process_documents]; [scored] is
    what the loop reports to the log. *)
Record loop_state := LoopState {
  verification_results : pydict;
  overall_confidence : Q;
  documents_processed : nat;
  modified : bool;
  scored : list (string * Q);
  loop_world : world
}.

Definition process_one (customer_details : pydict) (acc : loop_state)
    (doc_type : string) : loop_state :=
  if awaits_verification customer_details doc_type
  then
    let '(confidence_score, w) :=
      _analyze_document doc_type customer_details (loop_world acc) in
    let results :=
      <[doc_type +:+ "_verification_time" :=
          PStr (isoformat (now (clock_reads w)))]>
        (<[doc_type +:+ "_confidence" := PFloat confidence_score]>
           (<[doc_type +:+ "_verified" := PBool (ge_half confidence_score)]>
              (verification_results acc))) in
    let results :=
      <[doc_type +:+ "_status" :=
          PStr (if ge_half confidence_score then "approved" else "rejected")]>
        results in
    LoopState results
              (overall_confidence acc + confidence_score)
              (S (documents_processed acc))
              true
              (scored acc ++ [(doc_type, confidence_score)])
              (tick w)
  else acc.

(** The keys the loop writes for a document type, and the keys written
    after the loop. *)
Definition result_keys (doc_type : string) : list string :=
  [doc_type +:+ "_verified"; doc_type +:+ "_confidence";
   doc_type +:+ "_verification_time"; doc_type +:+ "_status"].

Definition aggregate_keys : list string :=
  ["income_proof_confidence"; "income_proof"; "income_proof_verification_time"].

(** What holds of the loop variables once the document types [seen] have
    been visited: results exist exactly for the visited types that awaited
    verification, and each of those has one logged score in [0, 1] from
    which its flag, confidence and status were derived. *)
Record loop_invariant (customer_details : pydict) (seen : list string)
    (acc : loop_state) : Prop := {
  inv_keys : ∀ k, is_Some (verification_results acc !! k) →
    ∃ doc_type, doc_type ∈ seen ∧
                awaits_verification customer_details doc_type = true ∧
                k ∈ result_keys doc_type;
  inv_results : ∀ doc_type, doc_type ∈ seen →
    awaits_verification customer_details doc_type = true →
    ∃ score, (doc_type, score) ∈ scored acc ∧
             (0 <= score <= 1)%Q ∧
             verification_results acc !! (doc_type +:+ "_verified")
             = Some (PBool (ge_half score)) ∧
             verification_results acc !! (doc_type +:+ "_confidence")
             = Some (PFloat score) ∧
             verification_results acc !! (doc_type +:+ "_status")
             = Some (PStr (if ge_half score then "approved" else "rejected"));
  inv_log : ∀ doc_type score, (doc_type, score) ∈ scored acc →
    doc_type ∈ seen ∧ awaits_verification customer_details doc_type = true;
  inv_count : documents_processed acc = length (scored acc);
  inv_modified : modified acc = negb (Nat.eqb (length (scored acc)) 0)
}.

(** What a call of [_process_documents] leaves behind: the value it
    returns, [state_data] after the call, the dictionary dumped to the
    state file if the call wrote it, and the scores it logged. *)
Record cycle := Cycle {
  returned : bool;
  state_after : pydict;
  written : option pydict;
  log : list (string * Q)
}.

Definition _process_documents (state_data : pydict) (w : world)
  : result cycle * world :=
  match Py.dict_get state_data "customer_details" (PDict ∅) with
  | PDict customer_details =>
      let acc :=
        foldl (process_one customer_details)
              (LoopState ∅ 0 0 false [] w) document_types in
      let w := loop_world acc in
      let finish (results : pydict) (state_data : pydict) (w : world) :=
        let state_data :=
          <["customer_details" := PDict (results ∪ customer_details)]>
            state_data in
        (Ok (Cycle (modified acc) state_data
                   (if modified acc then Some state_data else None)
                   (scored acc)), w) in
      if decide (0 < documents_processed acc)%nat
      then
        let overall :=
          (overall_confidence acc / inject_Z (Z.of_nat (documents_processed acc)))%Q in
        let results :=
          <["income_proof_verification_time" :=
              PStr (isoformat (now (clock_reads w)))]>
            (<["income_proof" := PBool (ge_half overall)]>
               (<["income_proof_confidence" := PFloat overall]>
                  (verification_results acc))) in
        let w := tick w in
        let message : pydict :=
          list_to_map
            [("role", PStr "assistant");
             ("content",
              PStr (if ge_half overall
                    then "Your income proof documents have been verified successfully with an overall confidence score of "
                         +:+ format_2f overall +:+ "."
                    else "Your income proof documents could not be verified (confidence score: "
                         +:+ format_2f overall +:+
                         "). Please upload clearer documents or different proofs of income."))] in
        match Py.append (Py.dict_get state_data "messages" (PList [])) (PDict message) with
        | Ok messages => finish results (<["messages" := messages]> state_data) w
        | Raise e => (Raise e, w)
        end
      else finish (verification_results acc) state_data w
  | v => (Raise (Py.AttributeError v "get"), w)
  end.

(** *** Observing a cycle

    What one call of [_process_documents] on [state_data] shows from
    outside: the scores it logged, an entry of [customer_details] in the
    state it leaves, whether it wrote the state file, and the verifier's
    predicate evaluated on the state it leaves. *)
Definition scores_of_cycle (state_data : pydict) (w : world)
  : list (string * Q) :=
  match (_process_documents state_data w).1 with
  | Ok c => log c
  | Raise _ => []
  end.

Definition entry_after_cycle (state_data : pydict) (w : world) (key : string)
  : option pyval :=
  match (_process_documents state_data w).1 with
  | Ok c =>
      match state_after c !! "customer_details" with
      | Some (PDict merged) => merged !! key
      | _ => None
      end
  | Raise _ => None
  end.


Definition predicate_after_cycle (state_data : pydict) (w : world)
  : result bool :=
  c ← (_process_documents state_data w).1;
  _has_unverified_documents (state_after c).

(** The mean of the scores a cycle logged. *)
Definition total_score (scores : list (string * Q)) : Q :=
  foldl (fun sum entry => (sum + entry.2)%Q) 0%Q scores.

Definition mean_score (scores : list (string * Q)) : Q :=
  (total_score scores / inject_Z (Z.of_nat (length scores)))%Q.

(** *** [_update_verification_status] *)

(** [v is True] *)
Definition is_True (v : pyval) : bool :=
  match v with
  | PBool true => true
  | _ => false
  end.

Definition required_verifications : list string :=
  ["customer_verified"; "phone_verified"; "address_verified";
   "account_details_verified"].

(** The condition [status.get(k1, False) and ... and status.get(k4, False)]. *)
Definition all_verified (status : pyval) : result bool :=
  foldr (fun key (rest : result bool) =>
           v ← Py.get status key (PBool false);
           if Py.truthy v then rest else Ok false)
        (Ok true) required_verifications.

(** What a call of [_update_verification_status] leaves behind: the
    value it returns, [state_data] after the call, and the dictionary
    dumped to the state file if the call wrote it. *)
Record status_update := StatusUpdate {
  update_returned : bool;
  update_state : pydict;
  update_written : option pydict
}.

(** Only two steps can raise, [customer_details.get] and the first
    assignment into [verification_status]; both stand before anything
    has been changed. *)
Definition _update_verification_status (state_data : pydict) (w : world)
  : result status_update * world :=
  let customer_details := Py.dict_get state_data "customer_details" (PDict ∅) in
  let verification_status :=
    Py.dict_get state_data "verification_status" (PDict ∅) in
  let run : result (status_update * world) :=
    income_proof ← Py.get customer_details "income_proof" PNone;
    if is_True income_proof
    then
      status ← Py.setitem verification_status "income_proof_verified" (PBool true);
      confidence ← Py.get customer_details "income_proof_confidence" (PFloat 0);
      status ← Py.setitem status "income_proof_confidence" confidence;
      time ← Py.get customer_details "income_proof_verification_time" PNone;
      status ← Py.setitem status "income_proof_verification_time" time;
      complete ← all_verified status;
      completed ←
        (if (complete : bool)
         then
           status ← Py.setitem status "verified" (PBool true);
           status ← Py.setitem status "status" (PStr "completed");
           status ← Py.setitem status "completion_time"
                      (PStr (isoformat (now (clock_reads w))));
           mret (status, tick w)
         else mret (status, w));
      let state_data := <["verification_status" := completed.1]> state_data in
      mret (StatusUpdate true state_data (Some state_data), completed.2)
    else
      let state_data := <["verification_status" := verification_status]> state_data in
      mret (StatusUpdate false state_data None, w) in
  match run with
  | Ok (update, w') => (Ok update, w')
  | Raise e => (Raise e, w)
  end.

(** One pass of the body of [monitor_for_documents] on a state file
    that exists and parses to [state_data]: the dictionaries dumped to
    the state file, in order, and [state_data] as the pass leaves it.
    An exception ends the pass; the handler logs it. *)
Definition monitor_pass (state_data : pydict) (w : world)
  : list pydict * pydict * world :=
  let finish (writes : list pydict) (state_data : pydict) (w : world) :=
    match _update_verification_status state_data w with
    | (Ok update, w') =>
        (writes ++ option_list (update_written update), update_state update, w')
    | (Raise _, w') => (writes, state_data, w')
    end in
  match _has_unverified_documents state_data with
  | Raise _ => ([], state_data, w)
  | Ok false => finish [] state_data w
  | Ok true =>
      match _process_documents state_data w with
      | (Ok c, w') => finish (option_list (written c)) (state_after c) w'
      | (Raise _, w') => ([], state_data, w')
      end
  end.

End Runtime.
End DocumentVerification.

(** ** implementation/sanction_letter_trigger.py *)

Module SanctionLetterTrigger.

Definition required_customer_fields : list string :=
  ["customer_id"; "name"; "phone"; "address"; "pan";
   "account_number"; "ifsc_code"; "bank_name"].

Definition required_loan_fields : list string :=
  ["amount"; "tenure"; "purpose"; "interest_rate"; "emi"].

(** The first field of the list that [details.get(field)] finds missing
    or falsy, if any. *)
Definition all_fields_set (details : pyval) (fields : list string)
  : result bool :=
  foldr (fun field (rest : result bool) =>
           v ← Py.get details field PNone;
           if Py.truthy v then rest else Ok false)
        (Ok true) fields.

Definition _should_generate_sanction_letter (state_data : pydict)
  : result bool :=
  if Py.truthy (Py.dict_get state_data "sanction_letter_id" PNone)
  then Ok false
  else
    let verification_status :=
      Py.dict_get state_data "verification_status" (PDict ∅) in
    verified ← Py.get verification_status "verified" (PBool false);
    if negb (Py.truthy verified) then Ok false
    else
      income_proof_verified ←
        Py.get verification_status "income_proof_verified" (PBool false);
      too_low ←
        (if negb (Py.truthy income_proof_verified) then Ok true
         else confidence ←
                Py.get verification_status "income_proof_confidence" (PInt 0);
              Py.lt_float confidence (1 # 2));
      if (too_low : bool) then Ok false
      else
        confidence ←
          Py.get verification_status "income_proof_confidence" (PFloat 0);
        below ← Py.lt_float confidence (1 # 2);
        if (below : bool) then Ok false
        else
          let underwriting_result :=
            Py.dict_get state_data "underwriting_result" (PDict ∅) in
          decision ← Py.get underwriting_result "decision" PNone;
          if negb (existsb (Py.eq_str decision)
                     ["approved"; "conditionally_approved"])
          then Ok false
          else
            customer_ok ←
              all_fields_set
                (Py.dict_get state_data "customer_details" (PDict ∅))
                required_customer_fields;
            if negb customer_ok then Ok false
            else
              all_fields_set
                (Py.dict_get state_data "loan_details" (PDict ∅))
                required_loan_fields.

(** The conjunction the specification gives for the trigger, read on
    the dictionary [state_data], with the test of the income-proof
    confidence left open: "set" and "present" are Python truth, and a
    confidence is a number (a bool counts as 0 or 1). *)
Definition conditions_with (confidence_ok : pyfloat → bool)
    (state_data : pydict) : Prop :=
  Py.truthy (Py.dict_get state_data "sanction_letter_id" PNone) = false ∧
  (∃ status : pydict,
     Py.dict_get state_data "verification_status" (PDict ∅) = PDict status ∧
     Py.truthy (Py.dict_get status "verified" (PBool false)) = true ∧
     Py.truthy (Py.dict_get status "income_proof_verified" (PBool false)) = true ∧
     ∃ confidence : pyfloat,
       Py.as_number (Py.dict_get status "income_proof_confidence" (PInt 0))
       = Some confidence ∧
       confidence_ok confidence = true) ∧
  (∃ underwriting : pydict,
     Py.dict_get state_data "underwriting_result" (PDict ∅) = PDict underwriting ∧
     (Py.dict_get underwriting "decision" PNone = PStr "approved" ∨
      Py.dict_get underwriting "decision" PNone = PStr "conditionally_approved")) ∧
  (∃ customer : pydict,
     Py.dict_get state_data "customer_details" (PDict ∅) = PDict customer ∧
     ∀ field, field ∈ required_customer_fields →
              Py.truthy (Py.dict_get customer field PNone) = true) ∧
  (∃ loan : pydict,
     Py.dict_get state_data "loan_details" (PDict ∅) = PDict loan ∧
     ∀ field, field ∈ required_loan_fields →
              Py.truthy (Py.dict_get loan field PNone) = true).

(** The specification's conjunction: the confidence is at least 0.5. *)
Definition trigger_conditions (state_data : pydict) : Prop :=
  conditions_with (fun confidence => Py.float_ge confidence (1 # 2)) state_data.

Definition is_nan (x : pyfloat) : bool :=
  match x with
  | NaN => true
  | _ => false
  end.

(** The attributes of the state object that [_generate_sanction_letter]
    builds from [state_data] (its local class [ConversationState]). *)
Definition state_object_attributes : list string :=
  ["customer_details"; "loan_details"; "underwriting_result";
   "verification_status"; "documentation_status"; "sanction_letter_id"].

(** [SanctionLetterGenerator.process]
    (implementation/sanction_letter_generator.py) on a state object with
    the given attributes.  The method begins by reading
    [state.loan_details], [state.customer_details] and
    [state.underwriting_status]; [render] stands for the rest of it, which
    chooses and renders the letter and returns the [documentation_status]
    it leaves in the state. *)
Definition process (attributes : list string)
    (render : pydict → result pyval) (state_data : pydict) : result pyval :=
  match find (fun name => negb (bool_decide (name ∈ attributes)))
             ["loan_details"; "customer_details"; "underwriting_status"] with
  | Some name =>
      Raise (Exn "AttributeError"
               ("'ConversationState' object has no attribute '" +:+ name +:+ "'"))
  | None => render state_data
  end.

(** [_generate_sanction_letter]: [state_data] after the call and the
    dictionary dumped to the state file, if any.  The handler logs every
    exception. *)
Definition _generate_sanction_letter (render : pydict → result pyval)
    (state_data : pydict) : pydict * option pydict :=
  match process state_object_attributes render state_data with
  | Raise _ => (state_data, None)
  | Ok documentation_status =>
      match Py.get documentation_status "document_path" PNone with
      | Raise _ => (state_data, None)
      | Ok sanction_letter_id =>
          if Py.truthy sanction_letter_id
          then
            let state_data :=
              <["documentation_status" := documentation_status]>
                (<["sanction_letter_id" := sanction_letter_id]> state_data) in
            (state_data, Some state_data)
          else (state_data, None)
      end
  end.

(** One pass of the body of [monitor_for_trigger] on a state file that
    exists and parses to [state_data]: the dictionary dumped, if any. *)
Definition trigger_cycle (render : pydict → result pyval)
    (state_data : pydict) : option pydict :=
  match _should_generate_sanction_letter state_data with
  | Ok true => (_generate_sanction_letter render state_data).2
  | _ => None
  end.

End SanctionLetterTrigger.

(** ** implementation/sanction_letter_generator.py *)

Module SanctionLetterGenerator.
Import StateManager.

(** The three documents [process] can issue, each by a method of its own
    ([_generate_sanction_letter], [_generate_conditional_approval_letter],
    [_generate_rejection_letter]). *)
Inductive letter := sanction_letter | conditional_approval | rejection_letter.

Definition document_type (kind : letter) : string :=
  match kind with
  | sanction_letter => "sanction_letter"
  | conditional_approval => "conditional_approval"
  | rejection_letter => "rejection_letter"
  end.

Definition failure_reason (kind : letter) : string :=
  match kind with
  | sanction_letter => "Failed to generate sanction letter"
  | conditional_approval => "Failed to generate conditional approval letter"
  | rejection_letter => "Failed to generate rejection letter"
  end.

(** The underwriting status each letter is issued for. *)
Definition issued_for (kind : letter) : string :=
  match kind with
  | sanction_letter => "approved"
  | conditional_approval => "conditional_approval"
  | rejection_letter => "rejected"
  end.

(** [state.name or {}] *)
Definition attr_or_empty (o : state_object) (name : string) : result pyval :=
  v ← getattr o name;
  mret (if Py.truthy v then v else PDict ∅).

Section Runtime.
Context `{PyRuntime}.

(** [process].  [generate kind customer_id customer_details loan_details
    underwriting_status] stands for the three methods that lay out the
    PDF: each wraps its whole body in a handler and returns the path of
    the file or [None]. *)
Definition process
    (generate : letter → pyval → pyval → pyval → pyval → pyval)
    (o : state_object) : result state_object :=
  loan_details ← attr_or_empty o "loan_details";
  customer_details ← attr_or_empty o "customer_details";
  underwriting_status ← attr_or_empty o "underwriting_status";
  customer_id ← Py.get customer_details "customer_id" PNone;
  if negb (Py.truthy customer_id)
  then
    mret (setattr "documentation_status"
            (PDict (list_to_map [("status", PStr "error");
                                 ("reason", PStr "Customer ID not found")])) o)
  else
    loan_status ← Py.get underwriting_status "status" PNone;
    if negb (Py.truthy loan_status)
    then
      mret (setattr "documentation_status"
              (PDict (list_to_map
                        [("status", PStr "pending");
                         ("reason", PStr "Waiting for underwriting decision")])) o)
    else
      let issue (kind : letter) : state_object :=
        let pdf_path :=
          generate kind customer_id customer_details loan_details
                   underwriting_status in
        if Py.truthy pdf_path
        then
          setattr "documentation_status"
            (PDict (list_to_map [("status", PStr "completed");
                                 ("document_type", PStr (document_type kind));
                                 ("document_path", pdf_path)])) o
        else
          setattr "documentation_status"
            (PDict (list_to_map [("status", PStr "error");
                                 ("reason", PStr (failure_reason kind))])) o in
      if Py.eq_str loan_status "approved" then mret (issue sanction_letter)
      else if Py.eq_str loan_status "conditional_approval"
      then mret (issue conditional_approval)
      else if Py.eq_str loan_status "rejected" then mret (issue rejection_letter)
      else
        mret (setattr "documentation_status"
                (PDict (list_to_map
                          [("status", PStr "error");
                           ("reason",
                            PStr ("Unknown loan status: " +:+ py_str loan_status))])) o).

(** The state object [SanctionLetterTrigger._generate_sanction_letter]
    builds from [state_data] and hands to [process]. *)
Definition trigger_state (state_data : pydict) : state_object :=
  StateObject
    (list_to_map
       [("customer_details", Py.dict_get state_data "customer_details" (PDict ∅));
        ("loan_details", Py.dict_get state_data "loan_details" (PDict ∅));
        ("underwriting_result",
         Py.dict_get state_data "underwriting_result" (PDict ∅));
        ("verification_status",
         Py.dict_get state_data "verification_status" (PDict ∅));
        ("documentation_status", PDict ∅);
        ("sanction_letter_id", PNone)])
    true.

End Runtime.
End SanctionLetterGenerator.

(** ** Inputs for concrete runs *)

(** A conversation state with the fields the stage machine reads replaced. *)
Definition with_details `{PyRuntime} (customer loan verification letter : pyval)
    (d : MasterAgent.Decision) (st : MasterAgent.ConversationState)
  : MasterAgent.ConversationState :=
  {| MasterAgent.session_id := MasterAgent.session_id st;
     MasterAgent.start_time := MasterAgent.start_time st;
     MasterAgent.stage := MasterAgent.stage st;
     MasterAgent.customer_id := customer;
     MasterAgent.customer_name := MasterAgent.customer_name st;
     MasterAgent.customer_phone := MasterAgent.customer_phone st;
     MasterAgent.customer_details := MasterAgent.customer_details st;
     MasterAgent.loan_details := loan;
     MasterAgent.selected_offer := MasterAgent.selected_offer st;
     MasterAgent.verification_status := verification;
     MasterAgent.underwriting_result := MasterAgent.underwriting_result st;
     MasterAgent.decision := d;
     MasterAgent.sanction_letter_id := letter;
     MasterAgent.messages := MasterAgent.messages st;
     MasterAgent.errors := MasterAgent.errors st;
     MasterAgent.next_agent := MasterAgent.next_agent st;
     MasterAgent.api_retries := MasterAgent.api_retries st;
     MasterAgent.document_uploads := MasterAgent.document_uploads st;
     MasterAgent.gemini_history := MasterAgent.gemini_history st;
     MasterAgent.recursion_depth := MasterAgent.recursion_depth st |}.

(** A state object as the workers hold it, with every required attribute. *)
Definition sample_state_object : StateManager.state_object :=
  StateManager.StateObject
    (list_to_map
       [("session_id", PStr "S1");
        ("customer_details", PDict {[ "name" := PStr "Asha Rao" ]});
        ("loan_details", PDict {[ "amount" := PInt 500000 ]});
        ("extracted_info", PDict ∅);
        ("messages", PList []);
        ("conversation_stage", PStr "verification");
        ("decision", PStr "pending");
        ("verification_status", PDict {[ "customer_verified" := PBool true ]});
        ("documentation_status", PNone)])
    true.

(** The sample runtime with a parser that returns one fixed value. *)
Definition replaying_runtime (loaded : pyval) : PyRuntime := {|
  datetime := string;
  isoformat := fun t => t;
  fromisoformat := fun s => Some s;
  now := fun n => "T" +:+ nat_digits n;
  uuid4 := fun n => "U" +:+ nat_digits n;
  random := fun _ => 0%Q;
  py_str := fun v => match v with PStr s => s | _ => Py.type_name v end;
  py_repr := fun v => match v with PStr s => "'" +:+ s +:+ "'" | _ => Py.type_name v end;
  format_2f := fun _ => "0.00";
  json_dumps := fun v => "{" +:+ Py.type_name v +:+ "}";
  json_loads := fun _ => Ok loaded
|}.

(** * Properties *)

(** ** The conversation state and the stage machine *)

Section MasterAgentFacts.
Context `{PyRuntime}.
Import MasterAgent.

Lemma ConversationStage_of_value (s : ConversationStage) :
  ConversationStage_of (PStr (stage_value s)) = Ok s.
Proof. by destruct s. Qed.

Lemma Decision_of_value (d : Decision) :
  Decision_of (PStr (decision_value d)) = Ok d.
Proof. by destruct d. Qed.

Lemma set_stage_same (st : ConversationState) : set_stage (stage st) st = st.
Proof. by destruct st. Qed.

(** C10.  Serialization round-trips: if [d] is the dictionary [to_dict]
    makes of a state, [from_dict d] succeeds (given that the datetime
    library reads back its own ISO text), serializing the result gives
    [d] again, every serialized attribute is restored exactly, and the
    two attributes [to_dict] leaves out, [gemini_history] and
    [recursion_depth], are at their defaults. *)
Theorem to_dict_from_dict_roundtrip :
  (∀ t, fromisoformat (isoformat t) = Some t) →
  ∀ (d : pydict) (st : ConversationState) (w : world),
    d = to_dict st →
    ∃ st', from_dict d w = (Ok st', tick (draw w)) ∧
           to_dict st' = d ∧
           st' = {| session_id := session_id st; start_time := start_time st;
                    stage := stage st; customer_id := customer_id st;
                    customer_name := customer_name st;
                    customer_phone := customer_phone st;
                    customer_details := customer_details st;
                    loan_details := loan_details st;
                    selected_offer := selected_offer st;
                    verification_status := verification_status st;
                    underwriting_result := underwriting_result st;
                    decision := decision st;
                    sanction_letter_id := sanction_letter_id st;
                    messages := messages st; errors := errors st;
                    next_agent := next_agent st;
                    api_retries := api_retries st;
                    document_uploads := document_uploads st;
                    gemini_history := PList [];
                    recursion_depth := 0 |}.
Proof.
  intros Hiso d st w ->.
  eexists. split; [|split; [|reflexivity]]; [|reflexivity].
  unfold from_dict, Py.dict_get. cbn [__init__ start_time stage decision].
  change (to_dict st !! "start_time")
    with (Some (PStr (isoformat (start_time st)))).
  change (to_dict st !! "stage") with (Some (PStr (stage_value (stage st)))).
  change (to_dict st !! "decision")
    with (Some (PStr (decision_value (decision st)))).
  cbn [default from_option id].
  rewrite ConversationStage_of_value, Decision_of_value.
  unfold datetime_fromisoformat. rewrite Hiso.
  reflexivity.
Qed.

(** C4.  On a state object whose [loan_details] and
    [verification_status] are dictionaries, [_determine_next_step]
    returns normally, and the stage and the next node it sets are the
    ones the table of the specification gives for the stage and the five
    conditions; nothing else in the state changes. *)
Theorem stage_machine_follows_table
    (st : ConversationState) (loan verification : pydict) (w : world) :
  loan_details st = PDict loan →
  verification_status st = PDict verification →
  let next := transition_table (stage st) (conditions_of st loan verification) in
  let st' := set_next_agent (PStr next.2) (set_stage next.1 st) in
  _determine_next_step (AsState st) w
  = (Ok (node_output "Determined next step" (PStr next.2) st'), Some st', w).
Proof.
  intros Hloan Hver next st'. subst next st'.
  unfold _determine_next_step, determine_on, determine_try, stage_transition,
    conditions_of, transition_table, goto, stay.
  rewrite Hloan, Hver.
  cbn [Py.get customer_identified amount_and_tenure_known verification_complete
       underwriting_decision sanction_letter_set mbind result_bind].
  destruct (stage st) eqn:Hstage; rewrite <- ?Hstage.
  - destruct (Py.truthy (customer_id st)); cbn;
      rewrite <- ?Hstage, ?set_stage_same; done.
  - done.
  - destruct (Py.truthy (Py.dict_get loan "amount" PNone)) eqn:Ha; cbn;
      [destruct (Py.truthy (Py.dict_get loan "tenure" PNone)) eqn:Ht
      | rewrite Ha];
      cbn; rewrite <- ?Hstage, ?set_stage_same; done.
  - destruct (Py.truthy (Py.dict_get verification "verified" (PBool false)));
      cbn; rewrite <- ?Hstage, ?set_stage_same; done.
  - destruct (decision st) eqn:Hd; cbn;
      rewrite <- ?Hstage, ?set_stage_same; done.
  - destruct (Py.truthy (sanction_letter_id st)); cbn;
      rewrite <- ?Hstage, ?set_stage_same; done.
  - cbn. rewrite <- ?Hstage, ?set_stage_same; done.
Qed.

Lemma unknown_stage_not_found (s : string) :
  s ∉ stage_names →
  find (fun m => String.eqb (stage_value m) s) all_stages = None.
Proof.
  intros Hs. destruct (find _ all_stages) as [m|] eqn:Hfind; [|done].
  apply find_some in Hfind as [_ Heq%String.eqb_eq].
  exfalso. apply Hs. subst s. unfold stage_names.
  apply list_elem_of_fmap. exists m. split; [done|].
  destruct m; set_solver.
Qed.

(** C6.  What the code does on a state dictionary whose stage is a
    string outside the seven stage names: the conversion
    [ConversationState.from_dict], which stands before the [try],
    raises, so [_determine_next_step] raises instead of falling back to
    [generate_response].  The next node, [_route_to_agent], guards the
    same conversion and returns normally on the same dictionary. *)
Theorem unknown_stage_dict_raises (data : pydict) (s : string) (w : world) :
  data !! "stage" = Some (PStr s) →
  s ∉ stage_names →
  (∃ e, _determine_next_step (AsDict data) w = (Raise e, None, tick (draw w))) ∧
  (∃ out w', _route_to_agent (AsDict data) w = (Ok out, w')).
Proof.
  intros Hstage Hs. split.
  - unfold _determine_next_step, from_dict, Py.dict_get.
    cbn [__init__]. rewrite Hstage. cbn [default from_option id].
    destruct (datetime_fromisoformat _) as [t|e]; [|by eexists].
    cbn [mbind result_bind]. unfold ConversationStage_of.
    rewrite (unknown_stage_not_found s Hs). by eexists.
  - unfold _route_to_agent.
    destruct (from_dict data w) as [[st|e] w1]; cbn [__init__];
      (destruct (existsb _ valid_agents); by eexists _, _).
Qed.

(** *** The loop guard *)

Lemma stage_transition_depth (st st' : ConversationState) :
  stage_transition st = Ok st' → recursion_depth st' = recursion_depth st.
Proof.
  unfold stage_transition. intros Hstep.
  destruct (stage st); simplify_eq/=;
    try (by repeat case_match; simplify_eq/=).
  - destruct (Py.get (loan_details st) "amount" PNone) as [a|]; simplify_eq/=.
    destruct (Py.truthy a) eqn:Ha; simplify_eq/=.
    + destruct (Py.get (loan_details st) "tenure" PNone) as [t|]; simplify_eq/=.
      by destruct (Py.truthy t); simplify_eq/=.
    + rewrite Ha in Hstep. by simplify_eq/=.
  - destruct (Py.get (verification_status st) "verified" _) as [a|]; simplify_eq/=.
    by destruct (Py.truthy a); simplify_eq/=.
Qed.

Lemma determine_on_depth (st : ConversationState) (w : world) :
  recursion_depth (determine_on st w).1.2 = recursion_depth st.
Proof.
  unfold determine_on.
  destruct (determine_try st) as [st1|e] eqn:Htry.
  - unfold determine_try in Htry.
    destruct (stage_transition st) as [st0|e] eqn:Hstep; [|done].
    cbn [mbind result_bind] in Htry.
    apply stage_transition_depth in Hstep.
    by destruct (negb _); simplify_eq/=.
  - unfold add_error. cbn [errors stay set_next_agent].
    by destruct (errors st).
Qed.

Lemma from_dict_depth (data : pydict) (w w' : world) (st : ConversationState) :
  from_dict data w = (Ok st, w') → recursion_depth st = 0%Z.
Proof.
  unfold from_dict. cbn [__init__].
  destruct (datetime_fromisoformat _) as [t|]; [|done].
  destruct (ConversationStage_of _) as [s|]; [|done].
  destruct (Decision_of _) as [d|]; [|done].
  cbn. intros Heq.
  apply (f_equal (fun p => match p.1 with
                           | Ok x => recursion_depth x
                           | Raise _ => 0%Z
                           end)) in Heq.
  cbn in Heq. by rewrite <- Heq.
Qed.

Lemma add_message_depth role content st w st' w' :
  add_message role content st w = (Ok st', w') →
  recursion_depth st' = recursion_depth st.
Proof. unfold add_message. destruct (messages st); naive_solver. Qed.

Lemma graph_error_response_depth e st w :
  recursion_depth (graph_error_response e st w).1.2 = recursion_depth st.
Proof. unfold graph_error_response. by destruct (errors st). Qed.

Lemma process_message_depth graph msg st w :
  let st' := (process_message graph msg st w).1.2 in
  recursion_depth st' = recursion_depth st ∨ recursion_depth st' = 0%Z.
Proof.
  cbn zeta. unfold process_message.
  destruct (add_message (PStr "user") _ st w) as [[st0|e] w0] eqn:Hadd;
    [|by left].
  apply add_message_depth in Hadd.
  destruct (Py.get (loan_details st0) "amount" _) as [amount|e]; [|by left].
  destruct (graph _) as [out|e].
  2:{ left. by rewrite graph_error_response_depth. }
  match goal with
  | |- context [match Py.dict_get ?r "state" PNone with _ => _ end] =>
      set (rebuilt := match Py.dict_get r "state" PNone with
                      | PDict sd =>
                          match from_dict sd (tick w0) with
                          | (Ok st', w') => (st', w')
                          | (Raise _, w') => (st0, w')
                          end
                      | _ => (st0, tick w0)
                      end)
  end.
  assert (recursion_depth rebuilt.1 = recursion_depth st ∨
          recursion_depth rebuilt.1 = 0%Z) as Hre.
  { subst rebuilt. destruct (Py.dict_get _ "state" PNone); try by left.
    destruct (from_dict d (tick w0)) as [[st'|e'] w'] eqn:Hfd; [|by left].
    right. by eapply from_dict_depth. }
  destruct rebuilt as [st1 w2]. cbn [fst] in Hre.
  match goal with
  | |- context [add_message (PStr "assistant") ?c ?s2 w2] =>
      assert (recursion_depth s2 = recursion_depth st1) as Hguard
        by (by destruct (25 <? recursion_depth st1)%Z);
      destruct (add_message (PStr "assistant") c s2 w2)
        as [[st3|e3] w3] eqn:Hadd2
  end.
  - apply add_message_depth in Hadd2. cbn. congruence.
  - rewrite graph_error_response_depth. congruence.
Qed.

(** C2.  What the code does with the loop-guard counter: a pass of the
    stage machine leaves [recursion_depth] as it found it (and at 0 when
    the state came as a dictionary), and a whole call of
    [process_message] leaves it unchanged or at 0.  Nothing increments
    it, so from a fresh state the guard [recursion_depth > 25] never
    fires. *)
Theorem loop_guard_counter_never_advances :
  (∀ (state : node_input) (w : world),
     match (_determine_next_step state w).1.2, state with
     | Some st', AsState st => recursion_depth st' = recursion_depth st
     | Some st', AsDict _ => recursion_depth st' = 0%Z
     | None, _ => True
     end) ∧
  (∀ graph user_message (st : ConversationState) (w : world),
     let st' := (process_message graph user_message st w).1.2 in
     recursion_depth st' = recursion_depth st ∨ recursion_depth st' = 0%Z).
Proof.
  split; [|apply process_message_depth].
  intros [data|st] w; unfold _determine_next_step.
  - destruct (from_dict data w) as [[st|e] w1] eqn:Hfd; [|done].
    pose proof (determine_on_depth st w1) as Hd.
    destruct (determine_on st w1) as [[r st'] w']. cbn [fst snd] in *.
    rewrite Hd. by eapply from_dict_depth.
  - pose proof (determine_on_depth st w) as Hd.
    by destruct (determine_on st w) as [[r st'] w'].
Qed.

(** C3, as the code has it.  When the graph raises and the state's
    [messages] and [errors] are lists and its [loan_details] a
    dictionary, [process_message] returns a
    dictionary with the generic apology as response, the current stage,
    the next node and the state; its [decision] entry is the literal
    ["error"], while the decision inside the state (and in the returned
    snapshot of it) is the one held before the call. *)
Theorem internal_error_response
    (graph : pydict → result pyval) (user_message : string)
    (st : ConversationState) (w : world) (e : exn)
    (history log : list pyval) (loan : pydict) :
  messages st = PList history →
  errors st = PList log →
  loan_details st = PDict loan →
  graph {[ "message" := PStr user_message ]} = Raise e →
  ∃ out st' w',
    process_message graph user_message st w = (Ok out, st', w') ∧
    out !! "response" = Some (PStr apology) ∧
    out !! "stage" = Some (PStr (stage_value (stage st))) ∧
    out !! "decision" = Some (PStr "error") ∧
    out !! "next_agent" = Some (PStr "generate_response") ∧
    out !! "state" = Some (PDict (to_dict st')) ∧
    decision st' = decision st ∧
    to_dict st' !! "decision" = Some (PStr (decision_value (decision st))).
Proof.
  intros Hm He Hl Hg. unfold process_message, add_message.
  rewrite Hm. cbn [loan_details set_messages]. rewrite Hl, Hg.
  unfold graph_error_response. cbn [errors set_messages Py.get]. rewrite He.
  eexists _, _, _. split; [reflexivity|].
  repeat split; reflexivity.
Qed.

End MasterAgentFacts.

(** ** The sanction-letter trigger *)

Section SanctionFacts.
Import SanctionLetterTrigger.

Lemma all_fields_set_dict (d : pydict) (fields : list string) :
  all_fields_set (PDict d) fields
  = Ok (forallb (fun f => Py.truthy (Py.dict_get d f PNone)) fields).
Proof.
  induction fields as [|f fields IH]; [done|].
  unfold all_fields_set in *. cbn [foldr]. rewrite IH.
  cbn [forallb Py.get mbind result_bind].
  by destruct (Py.truthy _).
Qed.

Lemma all_fields_set_true (v : pyval) (f : string) (fields : list string) :
  all_fields_set v (f :: fields) = Ok true ↔
  ∃ d, v = PDict d ∧
       ∀ g, g ∈ f :: fields → Py.truthy (Py.dict_get d g PNone) = true.
Proof.
  split.
  - destruct v as [| | | | | |d]; try done.
    rewrite all_fields_set_dict. intros Heq.
    assert (forallb (fun g => Py.truthy (Py.dict_get d g PNone)) (f :: fields)
            = true) as Hall by congruence.
    exists d. split; [done|]. intros g Hg.
    eapply forallb_forall in Hall; [done|]. by apply list_elem_of_In.
  - intros (d & -> & Hall). rewrite all_fields_set_dict. f_equal.
    apply forallb_forall. intros g Hg. apply Hall. by apply list_elem_of_In.
Qed.

Lemma eq_str_true (v : pyval) (s : string) :
  Py.eq_str v s = true ↔ v = PStr s.
Proof.
  destruct v; cbn; try (split; [done|discriminate]).
  rewrite String.eqb_eq. naive_solver.
Qed.

Lemma lt_float_false (v : pyval) (c : Q) :
  Py.lt_float v c = Ok false ↔
  ∃ x, Py.as_number v = Some x ∧ negb (Py.float_lt x c) = true.
Proof.
  unfold Py.lt_float. destruct (Py.as_number v) as [x|].
  - split.
    + intros Heq. exists x. split; [done|].
      destruct (Py.float_lt x c); [discriminate|done].
    + intros (x' & [= <-] & Hnot). by destruct (Py.float_lt x c).
  - split; [done|]. by intros (x & ? & _).
Qed.

(** A float is not below [c] exactly when it is at least [c] or is
    [nan]. *)
Lemma not_below_ge_or_nan (x : pyfloat) (c : Q) :
  negb (Py.float_lt x c) = true ↔ Py.float_ge x c = true ∨ is_nan x = true.
Proof.
  destruct x as [q| | |]; cbn [Py.float_lt Py.float_ge is_nan negb].
  - rewrite negb_involutive. split; [by left|by intros [|]].
  - split; [by left|done].
  - split; [done|by intros [|]].
  - split; [by right|done].
Qed.


Lemma conditions_with_or (f g : pyfloat → bool) (state_data : pydict) :
  conditions_with (fun x => f x || g x) state_data ↔
  conditions_with f state_data ∨ conditions_with g state_data.
Proof.
  unfold conditions_with. split.
  - intros (Hid & (status & Hvs & Hv & Hipv & x & Hx & Hok) & Hrest).
    apply orb_true_iff in Hok as [Hok|Hok]; [left|right].
    all: split; [done|]; split; [|done].
    all: exists status; do 3 (split; [done|]); by exists x.
  - intros [(Hid & (status & Hvs & Hv & Hipv & x & Hx & Hok) & Hrest)
           |(Hid & (status & Hvs & Hv & Hipv & x & Hx & Hok) & Hrest)].
    all: split; [done|]; split; [|done].
    all: exists status; do 3 (split; [done|]); exists x; split; [done|].
    all: rewrite Hok; by rewrite ?orb_true_r.
Qed.

Lemma conditions_with_mono (f g : pyfloat → bool) (state_data : pydict) :
  (∀ x, f x = true → g x = true) →
  conditions_with f state_data → conditions_with g state_data.
Proof.
  intros Hfg (Hid & (status & Hvs & Hv & Hipv & x & Hx & Hok) & Hrest).
  split; [done|]. split; [|done].
  exists status. do 3 (split; [done|]). exists x. split; [done|]. by apply Hfg.
Qed.

Lemma should_generate_true (state_data : pydict) :
  _should_generate_sanction_letter state_data = Ok true →
  conditions_with (fun x => negb (Py.float_lt x (1 # 2))) state_data.
Proof.
  unfold _should_generate_sanction_letter, conditions_with.
  destruct (Py.truthy (Py.dict_get state_data "sanction_letter_id" PNone));
    [done|].
  destruct (Py.dict_get state_data "verification_status" (PDict ∅))
    as [| | | | | |status]; try done.
  cbn [Py.get mbind result_bind].
  destruct (Py.truthy (Py.dict_get status "verified" (PBool false))) eqn:Hv;
    [|done].
  destruct (Py.truthy (Py.dict_get status "income_proof_verified" (PBool false)))
    eqn:Hipv; [|done].
  cbn [negb].
  destruct (Py.lt_float (Py.dict_get status "income_proof_confidence" (PInt 0))
              (1 # 2)) as [[]|] eqn:Hlt; try done.
  cbn [mbind result_bind].
  destruct (Py.lt_float (Py.dict_get status "income_proof_confidence" (PFloat 0))
              (1 # 2)) as [[]|] eqn:Hlt'; try done.
  cbn [mbind result_bind].
  destruct (Py.dict_get state_data "underwriting_result" (PDict ∅))
    as [| | | | | |underwriting]; try done.
  cbn [Py.get mbind result_bind existsb].
  destruct (Py.eq_str (Py.dict_get underwriting "decision" PNone) "approved")
    eqn:Happ;
    [|destruct (Py.eq_str (Py.dict_get underwriting "decision" PNone)
                  "conditionally_approved") eqn:Hcond; [|done]].
  all: cbn [orb negb].
  all: destruct (all_fields_set
                   (Py.dict_get state_data "customer_details" (PDict ∅))
                   required_customer_fields) as [[]|] eqn:Hcust; try done.
  all: cbn [mbind result_bind negb]; intros Hloan.
  all: apply all_fields_set_true in Hcust as (customer & Hcd & Hcust).
  all: apply all_fields_set_true in Hloan as (loan & Hld & Hloan).
  all: apply lt_float_false in Hlt as (x & Hx & Hnot).
  all: split; [reflexivity|].
  all: split;
    [exists status; do 3 (split; [done|]); by exists x|].
  all: split;
    [|split; [by exists customer | by exists loan]].
  all: exists underwriting; split; [reflexivity|].
  - left. by apply eq_str_true.
  - right. by apply eq_str_true.
Qed.

Lemma should_generate_false_low_confidence (state_data status : pydict) q :
  Py.dict_get state_data "verification_status" (PDict ∅) = PDict status →
  Py.as_number (Py.dict_get status "income_proof_confidence" (PInt 0))
  = Some (Finite q) →
  (q < 1 # 2)%Q →
  _should_generate_sanction_letter state_data = Ok false.
Proof.
  intros Hvs Hq Hlt. unfold _should_generate_sanction_letter.
  destruct (Py.truthy (Py.dict_get state_data "sanction_letter_id" PNone));
    [done|].
  rewrite Hvs. cbn [Py.get mbind result_bind].
  destruct (Py.truthy (Py.dict_get status "verified" (PBool false)));
    [|done].
  destruct (Py.truthy (Py.dict_get status "income_proof_verified" (PBool false)));
    [|done].
  cbn [negb]. unfold Py.lt_float. rewrite Hq. cbn [Py.float_lt].
  assert (Qle_bool (1 # 2) q = false) as ->; [|done].
  destruct (Qle_bool (1 # 2) q) eqn:Hle; [|done].
  apply Qle_bool_iff in Hle. exfalso. by eapply Qlt_not_le.
Qed.

Lemma should_generate_conditions (state_data : pydict) :
  conditions_with (fun x => negb (Py.float_lt x (1 # 2))) state_data →
  _should_generate_sanction_letter state_data = Ok true.
Proof.
  intros (Hid & (status & Hvs & Hv & Hipv & x & Hx & Hnot) &
          (underwriting & Huw & Hdec) & (customer & Hcd & Hcust) &
          (loan & Hld & Hloan)).
  unfold _should_generate_sanction_letter.
  rewrite Hid, Hvs. cbn [Py.get mbind result_bind].
  rewrite Hv, Hipv. cbn [negb].
  assert (Py.lt_float (Py.dict_get status "income_proof_confidence" (PInt 0))
            (1 # 2) = Ok false) as Hfirst by (apply lt_float_false; by exists x).
  assert (Py.dict_get status "income_proof_confidence" (PFloat 0)
          = Py.dict_get status "income_proof_confidence" (PInt 0)) as Hsame.
  { unfold Py.dict_get in *.
    destruct (status !! "income_proof_confidence"); [done|].
    cbn in Hfirst. discriminate Hfirst. }
  rewrite Hsame, Hfirst.
  cbn [mbind result_bind]. rewrite Huw. cbn [Py.get mbind result_bind].
  assert (existsb (Py.eq_str (Py.dict_get underwriting "decision" PNone))
            ["approved"; "conditionally_approved"] = true) as ->.
  { destruct Hdec as [-> | ->]; reflexivity. }
  cbn [negb].
  assert (all_fields_set (Py.dict_get state_data "customer_details" (PDict ∅))
            required_customer_fields = Ok true) as ->
      by (apply all_fields_set_true; by exists customer).
  cbn [mbind result_bind negb].
  apply all_fields_set_true. by exists loan.
Qed.


(** X26.  [_should_generate_sanction_letter] returns [True] exactly when
    no sanction letter id is set, verification is complete, the income
    proof is verified, the underwriting decision is approved or
    conditionally approved, every required customer field and every
    required loan field is set, and the income-proof confidence is at
    least 0.5 or is [nan]; so on every state whose confidence is not
    [nan] it returns [True] exactly under the conjunction of the
    specification.  With an income-proof confidence of 0.3 it returns
    [False] whatever else the state holds. *)
Theorem sanction_trigger_characterised (state_data : pydict) :
  (_should_generate_sanction_letter state_data = Ok true ↔
   trigger_conditions state_data ∨ conditions_with is_nan state_data) ∧
  (∀ status : pydict,
     Py.dict_get state_data "verification_status" (PDict ∅) = PDict status →
     status !! "income_proof_confidence" = Some (PFloat (3 # 10)) →
     _should_generate_sanction_letter state_data = Ok false).
Proof.
  split.
  - unfold trigger_conditions. rewrite <- conditions_with_or. split.
    + intros Hready. apply should_generate_true in Hready.
      eapply conditions_with_mono; [|exact Hready].
      intros x. rewrite not_below_ge_or_nan. apply orb_true_iff.
    + intros Hcond. apply should_generate_conditions.
      eapply conditions_with_mono; [|exact Hcond].
      intros x. rewrite not_below_ge_or_nan. apply orb_true_iff.
  - intros status Hvs Hconf.
    apply (should_generate_false_low_confidence _ status (3 # 10)); [done| |done].
    unfold Py.dict_get. by rewrite Hconf.
Qed.
End SanctionFacts.

(** ** The merge of a loaded snapshot *)

Section StateManagerFacts.
Context `{PyRuntime}.
Import StateManager.

Lemma and_then_run (a b : stmt) (o : state_object) (w : world) :
  (a ;;; b) o w
  = match (a o w).1.1 with
    | None => b (a o w).1.2 (a o w).2
    | Some _ => a o w
    end.
Proof. unfold and_then. by destruct (a o w) as [[[e|] o1] w1]. Qed.

Lemma keeps_skip k : keeps k skip.
Proof. done. Qed.

Lemma keeps_raise k e : keeps k (raise e).
Proof. done. Qed.

Lemma keeps_assign k name v : name ≠ k → keeps k (assign name v).
Proof. intros Hne o w. split; [by apply lookup_insert_ne|done]. Qed.

Lemma keeps_and_then k a b : keeps k a → keeps k b → keeps k (a ;;; b).
Proof.
  intros Ha Hb o w. rewrite and_then_run.
  destruct (Ha o w) as [Ha1 Ha2].
  destruct (a o w) as [[[e|] o1] w1]; cbn [fst snd] in *; [done|].
  destruct (Hb o1 w1) as [Hb1 Hb2]. split; congruence.
Qed.

Lemma keeps_eval {A} k (r : result A) (f : A → stmt) :
  (∀ a, keeps k (f a)) → keeps k (eval r f).
Proof. intros Hf. destruct r; [apply Hf|apply keeps_raise]. Qed.

Lemma keeps_if_in k (state_dict : pydict) key body :
  (∀ v, keeps k (body v)) → keeps k (if_in state_dict key body).
Proof. intros Hb. unfold if_in. destruct (state_dict !! key); [apply Hb|done]. Qed.

Lemma keeps_if_hasattr k name body : keeps k body → keeps k (if_hasattr name body).
Proof.
  intros Hb o w. unfold if_hasattr. destruct (hasattr o name); [apply Hb|done].
Qed.

Lemma keeps_none_to_empty_dict k name :
  name ≠ k → keeps k (none_to_empty_dict name).
Proof.
  intros Hne o w. unfold none_to_empty_dict, getattr.
  destruct (attrs o !! name) as [[]|]; try done.
  by apply keeps_assign.
Qed.

Lemma keeps_assign_item k name key v :
  name ≠ k → keeps k (assign_item name key v).
Proof.
  intros Hne o w. unfold assign_item.
  apply keeps_eval. intros a. by apply keeps_assign.
Qed.

Lemma keeps_add_message k role content :
  k ≠ "messages" → keeps k (add_message role content).
Proof.
  intros Hne o w. unfold add_message.
  destruct (getattr o "messages") as [[]|]; try done.
  split; [by apply lookup_insert_ne|done].
Qed.

Lemma keeps_append_new_messages k loaded indices :
  k ≠ "messages" → keeps k (append_new_messages loaded indices).
Proof.
  intros Hne. induction indices as [|i indices IH]; [apply keeps_skip|].
  apply keeps_and_then; [|done].
  apply keeps_eval. intros rc. by apply keeps_add_message.
Qed.

Lemma keeps_merge_messages k loaded :
  k ≠ "messages" → keeps k (merge_messages loaded).
Proof.
  intros Hne o w. unfold merge_messages.
  destruct (attrs o !! "messages"); [|done].
  apply keeps_eval. intros [current_count loaded_count].
  case_decide; [|by apply keeps_assign].
  destruct (negb (has_add_message o));
    [by apply keeps_assign | by apply keeps_append_new_messages].
Qed.

Lemma keeps_merge_document_uploads k uploads :
  k ≠ "document_uploads" → keeps k (merge_document_uploads uploads).
Proof.
  intros Hne. unfold merge_document_uploads.
  apply (map_fold_weak_ind (fun s _ => keeps k s)); [apply keeps_skip|].
  intros i x m r _ Hr. apply keeps_and_then; [done|].
  by apply keeps_assign_item.
Qed.

Create HintDb keeps.
Hint Resolve keeps_skip keeps_raise keeps_assign keeps_and_then keeps_if_hasattr
  keeps_none_to_empty_dict keeps_assign_item keeps_merge_messages
  keeps_merge_document_uploads : keeps.
Hint Extern 1 (_ ≠ _) => discriminate : keeps.
Hint Extern 2 (keeps _ (if_in _ _ _)) => apply keeps_if_in; intros : keeps.
Hint Extern 2 (keeps _ (eval _ _)) => apply keeps_eval; intros : keeps.

Lemma keeps_update_document_uploads k state_dict :
  k ≠ "document_uploads" → keeps k (update_document_uploads state_dict).
Proof.
  intros Hne. unfold update_document_uploads.
  apply keeps_if_in. intros uploads. apply keeps_if_hasattr.
  apply keeps_and_then; [by apply keeps_none_to_empty_dict|].
  destruct uploads; auto with keeps.
Qed.

Lemma keeps_update_income_proof k state_dict :
  k ≠ "income_proof_verification" → k ≠ "verification_status" →
  keeps k (update_income_proof state_dict).
Proof. intros. unfold update_income_proof. auto 10 with keeps. Qed.

Lemma keeps_update_messages k state_dict :
  k ≠ "messages" → keeps k (update_messages state_dict).
Proof. intros. unfold update_messages. auto with keeps. Qed.

Lemma keeps_update_sanction_letter k state_dict :
  k ≠ "sanction_letter_id" → k ≠ "documentation_status" →
  keeps k (update_sanction_letter state_dict).
Proof. intros. unfold update_sanction_letter. auto 10 with keeps. Qed.


Lemma merge_document_uploads_run (uploads : pydict) :
  ∀ o w (current : pydict),
    attrs o !! "document_uploads" = Some (PDict current) →
    ∃ o', merge_document_uploads uploads o w = (None, o', w) ∧
          attrs o' !! "document_uploads" = Some (PDict (uploads ∪ current)).
Proof.
  unfold merge_document_uploads.
  apply (map_fold_weak_ind
           (fun (s : stmt) (m : pydict) =>
              ∀ o w (current : pydict),
                attrs o !! "document_uploads" = Some (PDict current) →
                ∃ o', s o w = (None, o', w) ∧
                      attrs o' !! "document_uploads" = Some (PDict (m ∪ current)))).
  - intros o w current Hcur. exists o. split; [done|].
    by rewrite (left_id_L ∅ (∪)).
  - intros doc_id doc_info m r Hfresh IH o w current Hcur.
    destruct (IH o w current Hcur) as (o1 & Hrun & Hdocs).
    rewrite and_then_run, Hrun. cbn [fst snd].
    unfold assign_item, getattr. rewrite Hdocs.
    cbn [mbind result_bind Py.setitem eval assign].
    eexists. split; [reflexivity|].
    cbn [attrs setattr]. rewrite lookup_insert_eq.
    by rewrite insert_union_l.
Qed.

Lemma update_document_uploads_run (state_dict : pydict) o w
    (loaded current : pydict) (held : pyval) :
  state_dict !! "document_uploads" = Some (PDict loaded) →
  attrs o !! "document_uploads" = Some held →
  held = PDict current ∨ (held = PNone ∧ current = ∅) →
  ∃ o', update_document_uploads state_dict o w = (None, o', w) ∧
        attrs o' !! "document_uploads" = Some (PDict (loaded ∪ current)).
Proof.
  intros Hloaded Hheld Hkind.
  unfold update_document_uploads, if_in, if_hasattr, hasattr.
  rewrite Hloaded, Hheld. rewrite bool_decide_eq_true_2 by eauto.
  rewrite and_then_run. unfold none_to_empty_dict. rewrite Hheld.
  destruct Hkind as [-> | [-> ->]]; cbn [skip assign fst snd].
  - by apply merge_document_uploads_run.
  - apply merge_document_uploads_run. cbn [attrs setattr].
    by rewrite lookup_insert_eq.
Qed.

Lemma append_new_messages_run (loaded : pyval) (indices : list nat) :
  ∀ o w (current : list pyval),
    attrs o !! "messages" = Some (PList current) →
    (append_new_messages loaded indices o w).1.1 = None →
    ∃ appended,
      attrs (append_new_messages loaded indices o w).1.2 !! "messages"
      = Some (PList (current ++ appended)) ∧
      Forall2 (fun i m => ∃ src, Py.index loaded i = Ok src ∧ restamped src m)
              indices appended.
Proof.
  induction indices as [|i indices IH]; intros o w current Hcur Hok.
  - exists []. split; [by rewrite (right_id_L [] (++))|constructor].
  - cbn [append_new_messages foldr] in *.
    fold (append_new_messages loaded indices) in *.
    rewrite and_then_run in Hok |- *.
    destruct (Py.index loaded i) as [src|] eqn:Hsrc;
      cbn [mbind result_bind mret result_ret eval raise fst snd] in *; [|done].
    destruct (Py.getitem src "role") as [role|] eqn:Hrole;
      cbn [mbind result_bind mret result_ret eval raise fst snd] in *; [|done].
    destruct (Py.getitem src "content") as [content|] eqn:Hcontent;
      cbn [mbind result_bind mret result_ret eval raise fst snd] in *; [|done].
    unfold add_message, getattr in *. rewrite Hcur in *.
    cbn [fst snd] in *.
    match goal with
    | |- context [setattr "messages" (PList (current ++ [?m])%list) o] =>
        destruct (IH (setattr "messages" (PList (current ++ [m])%list) o)
                     (tick w) (current ++ [m])%list) as (appended & Hmsgs & Hall);
        [by cbn [attrs setattr]; rewrite lookup_insert_eq | done |];
        exists (m :: appended)
    end.
    split; [by rewrite Hmsgs, <- (assoc_L (++))|].
    constructor; [|done].
    exists src. split; [done|]. by eexists _, _, _.
Qed.

Lemma restamped_suffix (loaded : list pyval) :
  ∀ (count : nat) (start : nat) (appended : list pyval),
    start + count = length loaded →
    Forall2 (fun i m => ∃ src, Py.index (PList loaded) i = Ok src ∧ restamped src m)
            (seq start count) appended →
    Forall2 restamped (drop start loaded) appended.
Proof.
  induction count as [|count IH]; intros start appended Hlen Hall.
  - apply Forall2_nil_inv_l in Hall as ->.
    rewrite drop_ge by lia. constructor.
  - cbn [seq] in Hall.
    apply Forall2_cons_inv_l in Hall as (m & rest & (src & Hsrc & Hm) & Hrest & ->).
    cbn [Py.index] in Hsrc.
    destruct (loaded !! start) as [x|] eqn:Hx; [|done].
    simplify_eq. erewrite drop_S by done.
    constructor; [done|]. apply IH; [lia|done].
Qed.

Lemma merge_messages_run (loaded current : list pyval) o w :
  attrs o !! "messages" = Some (PList current) →
  has_add_message o = true →
  (merge_messages (PList loaded) o w).1.1 = None →
  if decide (length current < length loaded)
  then ∃ appended,
         attrs (merge_messages (PList loaded) o w).1.2 !! "messages"
         = Some (PList (current ++ appended)) ∧
         Forall2 restamped (drop (length current) loaded) appended
  else attrs (merge_messages (PList loaded) o w).1.2 !! "messages"
       = Some (PList loaded).
Proof.
  intros Hcur Hclass. unfold merge_messages. rewrite Hcur, Hclass.
  assert ((if Py.truthy (PList current) then Py.len (PList current) else Ok 0%nat)
          = Ok (length current)) as -> by by destruct current.
  cbn [Py.len mbind result_bind mret result_ret eval negb].
  case_decide as Hlt.
  - intros Hok.
    destruct (append_new_messages_run (PList loaded) _ o w current Hcur Hok)
      as (appended & Hmsgs & Hall).
    exists appended. split; [done|].
    apply (restamped_suffix loaded (length loaded - length current)); [lia|done].
  - intros _. cbn [assign fst snd attrs setattr]. by rewrite lookup_insert_eq.
Qed.

Lemma if_in_Some (state_dict : pydict) key body v :
  state_dict !! key = Some v → if_in state_dict key body = body v.
Proof. intros Hv. unfold if_in. by rewrite Hv. Qed.

Lemma and_then_ok (a b : stmt) (k : string) o w :
  keeps k a →
  ((a ;;; b) o w).1.1 = None →
  ∃ o1 w1, (a ;;; b) o w = b o1 w1 ∧
           attrs o1 !! k = attrs o !! k ∧
           has_add_message o1 = has_add_message o.
Proof.
  intros Ha. rewrite and_then_run. destruct (Ha o w) as [Ha1 Ha2].
  destruct (a o w) as [[[e|] o1] w1]; cbn [fst snd] in *; [done|].
  intros _. by exists o1, w1.
Qed.

(** C1, as the code has it.  The merge takes every entry of the loaded
    [document_uploads] into the state's [document_uploads], whether or not
    a later step raises.  When it completes on a state with [add_message]:
    if the snapshot has more messages than the state, the state keeps its
    messages and gains one message per extra loaded message, with that
    message's role and content; otherwise the state's messages are
    replaced by the loaded ones. *)
Theorem merge_state_from_dict (state_dict : pydict) (o : state_object) (w : world) :
  let run := _update_state_from_dict state_dict o w in
  let o' := run.1.2 in
  (∀ loaded current : pydict,
     state_dict !! "document_uploads" = Some (PDict loaded) →
     attrs o !! "document_uploads" = Some (PDict current) →
     attrs o' !! "document_uploads" = Some (PDict (loaded ∪ current)) ∧
     dom loaded ⊆ dom (loaded ∪ current)) ∧
  (∀ loaded current : list pyval,
     state_dict !! "messages" = Some (PList loaded) →
     attrs o !! "messages" = Some (PList current) →
     has_add_message o = true →
     run.1.1 = None →
     if decide (length current < length loaded)
     then ∃ appended,
            attrs o' !! "messages" = Some (PList (current ++ appended)) ∧
            Forall2 restamped (drop (length current) loaded) appended
     else attrs o' !! "messages" = Some (PList loaded)).
Proof.
  cbn zeta. split.
  - intros loaded current Hloaded Hcur. split; [|set_solver].
    destruct (update_document_uploads_run state_dict o w loaded current _
                Hloaded Hcur) as (o1 & Hrun & Hdocs); [by left|].
    unfold _update_state_from_dict. rewrite and_then_run, Hrun. cbn [fst snd].
    rewrite <- Hdocs.
    match goal with |- attrs (?rest o1 w).1.2 !! _ = _ =>
      assert (keeps "document_uploads" rest) as Hrest
    end.
    { repeat (apply keeps_and_then; [auto with keeps|]).
      all: auto using keeps_update_income_proof, keeps_update_messages,
             keeps_update_sanction_letter with keeps. }
    by destruct (Hrest o1 w) as [-> _].
  - intros loaded current Hloaded Hcur Hclass.
    unfold _update_state_from_dict. intros Hok.
    apply (and_then_ok _ _ "messages") in Hok as Hstep;
      [|by apply keeps_update_document_uploads].
    destruct Hstep as (o1 & w1 & Heq & Hm1 & Hc1). rewrite Heq in Hok |- *.
    clear Heq. rewrite <- Hm1 in Hcur. rewrite <- Hc1 in Hclass. clear Hm1 Hc1.
    do 4 (
      apply (and_then_ok _ _ "messages") in Hok as Hstep;
        [|by auto using keeps_update_income_proof with keeps];
      let o2 := fresh "o" in let w2 := fresh "w" in
      let Heq := fresh "Heq" in let Hm := fresh "Hm" in let Hc := fresh "Hc" in
      destruct Hstep as (o2 & w2 & Heq & Hm & Hc); rewrite Heq in Hok |- *;
      clear Heq; rewrite <- Hm in Hcur; rewrite <- Hc in Hclass; clear Hm Hc).
    rewrite and_then_run in Hok |- *.
    unfold update_messages in *.
    rewrite (if_in_Some _ _ _ _ Hloaded) in *.
    match type of Hok with
    | context [merge_messages _ ?o' ?w'] =>
        pose proof (merge_messages_run loaded current o' w' Hcur Hclass) as Hmerge;
        destruct (merge_messages (PList loaded) o' w') as [[[e|] o5] w5]
    end; cbn [fst snd] in *; [done|].
    specialize (Hmerge eq_refl).
    match goal with |- context [attrs (?rest o5 w5).1.2] =>
      assert (keeps "messages" rest) as Hrest
    end.
    { repeat (apply keeps_and_then; [auto with keeps|]).
      all: auto using keeps_update_sanction_letter with keeps. }
    destruct (Hrest o5 w5) as [Hkeep _]. by rewrite Hkeep.
Qed.


(** C9, as the code has it.  [save_state] writes in place.  When the
    snapshot is built and the directory is there, the file is first
    emptied and then holds the complete snapshot with its [last_updated]
    stamp, so that a reader can find it empty in between: the save is
    atomic only if the file was empty before or the dump is empty.  The
    file is left alone exactly when the snapshot could not be built or
    the directory could not be created; the clock is read exactly when
    the snapshot was built.  A [load_state] that finds the emptied file
    returns the caller's state as it is. *)
Theorem save_state_truncates_then_writes
    (makedirs : result ()) (o : state_object) (w : world) :
  let trace := (save_state makedirs o w).1 in
  (∀ state_dict,
     _state_to_dict o = Ok state_dict → makedirs = Ok () →
     let dump :=
       json_dumps
         (PDict (<["last_updated" := PStr (isoformat (now (clock_reads w)))]>
                   state_dict)) in
     trace = [Some ""; Some dump] ∧
     (save_state makedirs o w).2 = tick w ∧
     ∀ file, file_after file trace = Some dump ∧
             (atomic_save file trace ↔ file = Some "" ∨ dump = "")) ∧
  (trace = [] ↔ (∃ e, _state_to_dict o = Raise e) ∨ (∃ e, makedirs = Raise e)) ∧
  ((save_state makedirs o w).2 = w ↔ ∃ e, _state_to_dict o = Raise e) ∧
  (∀ new_state state w',
     load_state new_state (Some "") state w' = (state, w')).
Proof.
  cbn zeta. split; [|split; [|split; [|done]]].
  - intros state_dict Hdict ->. unfold save_state. rewrite Hdict. cbn [fst snd].
    split; [done|]. split; [done|]. intros file. split; [done|]. split.
    + intros Hatomic. destruct (Hatomic (Some "")) as [Hold|Hnew].
      * apply list_elem_of_here.
      * by left.
      * right. cbn in Hnew. by injection Hnew.
    + intros Hcase seen Hseen.
      apply elem_of_cons in Hseen as [->|Hseen];
        [|apply elem_of_cons in Hseen as [->|Hseen];
          [by right|by apply elem_of_nil in Hseen]].
      destruct Hcase as [->|Hempty]; [by left|right]. cbn. by rewrite Hempty.
  - unfold save_state. destruct (_state_to_dict o) as [state_dict|e].
    + destruct makedirs as [[]|e]; cbn [fst].
      * split; [done|]. by intros [[e He]|[e He]].
      * split; [|done]. intros _. right. by exists e.
    + split; [|done]. intros _. left. by exists e.
  - unfold save_state. destruct (_state_to_dict o) as [state_dict|e].
    + split; [|by intros [e He]]. destruct w as [c r].
      destruct makedirs as [[]|e]; cbn; intros [= Hc]; lia.
    + split; [|done]. intros _. by exists e.
Qed.

End StateManagerFacts.

(** C1 fails as stated: a snapshot with fewer messages than the state
    shortens the state's messages. *)
Example merge_truncates_messages :
  let rt := sample_runtime 0 in
  let m1 := PDict (list_to_map [("role", PStr "user"); ("content", PStr "Hello")]) in
  let m2 := PDict (list_to_map [("role", PStr "user"); ("content", PStr "I need a loan")]) in
  let o := StateManager.StateObject
             (list_to_map [("messages", PList [m1; m2]);
                           ("document_uploads", PDict ∅)]) true in
  let state_dict : pydict := {[ "messages" := PList [m1] ]} in
  let run := StateManager._update_state_from_dict state_dict o (World 0 0) in
  run.1.1 = None ∧
  ∃ before after,
    StateManager.attrs o !! "messages" = Some (PList before) ∧
    StateManager.attrs run.1.2 !! "messages" = Some (PList after) ∧
    length after < length before.
Proof.
  cbn zeta. split; [by vm_compute|].
  eexists _, _. split; [reflexivity|]. split; [by vm_compute|]. cbn. lia.
Qed.

(** [merge_state_from_dict] at a state with one message and one upload
    and a snapshot with two messages and another upload. *)
Lemma merge_state_from_dict_witness :
  let rt := sample_runtime 0 in
  let m1 := PDict (list_to_map [("role", PStr "user"); ("content", PStr "Hello")]) in
  let m2 := PDict (list_to_map [("role", PStr "assistant");
                                ("content", PStr "Documents verified")]) in
  let current : pydict := {[ "doc_1" := PStr "salary_slip.pdf" ]} in
  let loaded : pydict := {[ "doc_2" := PStr "bank_statement.pdf" ]} in
  let o := StateManager.StateObject
             (list_to_map [("messages", PList [m1]);
                           ("document_uploads", PDict current)]) true in
  let state_dict : pydict :=
    list_to_map [("messages", PList [m1; m2]);
                 ("document_uploads", PDict loaded)] in
  let run := StateManager._update_state_from_dict state_dict o (World 0 0) in
  StateManager.attrs run.1.2 !! "document_uploads" = Some (PDict (loaded ∪ current)) ∧
  ∃ appended,
    StateManager.attrs run.1.2 !! "messages" = Some (PList ([m1] ++ appended)) ∧
    Forall2 StateManager.restamped (drop 1 [m1; m2]) appended.
Proof.
  intros rt m1 m2 current loaded o state_dict run.
  destruct (merge_state_from_dict state_dict o (World 0 0)) as [Hdocs Hmsgs].
  split.
  - apply (Hdocs loaded current); reflexivity.
  - apply (Hmsgs [m1; m2] [m1]); [reflexivity|reflexivity|reflexivity|].
    vm_compute. reflexivity.
Defined.

(** C9 fails as stated: during [save_state] the file is seen empty, which
    is neither its old nor its new content. *)
Example save_state_exposes_empty_file :
  let rt := sample_runtime 0 in
  let o := StateManager.StateObject
             (list_to_map [("customer_details", PDict ∅); ("loan_details", PDict ∅);
                           ("extracted_info", PDict ∅); ("messages", PList []);
                           ("conversation_stage", PStr "greeting");
                           ("decision", PStr "pending")]) true in
  ¬ StateManager.atomic_save (Some "{}")
      (StateManager.save_state (Ok ()) o (World 0 0)).1.
Proof.
  cbn zeta. intros Hatomic.
  destruct (Hatomic (Some "")) as [Hold | Hnew].
  - vm_compute. apply list_elem_of_here.
  - discriminate.
  - vm_compute in Hnew. discriminate.
Qed.

(** ** The document verifier *)

Section DocumentVerificationFacts.
Context `{PyRuntime}.
Import DocumentVerification.

Lemma clamp_range (x : Q) : (0 <= py_min (py_max x 0) 1 <= 1)%Q.
Proof.
  unfold py_min, py_max.
  destruct (Qle_bool 0 x) eqn:H0.
  - apply Qle_bool_iff in H0.
    destruct (Qle_bool x 1) eqn:H1; [by apply Qle_bool_iff in H1|].
    split; [discriminate|apply Qle_refl].
  - split; [apply Qle_refl|discriminate].
Qed.

Lemma _analyze_document_range doc_type customer_details w :
  (0 <= (_analyze_document doc_type customer_details w).1 <= 1)%Q.
Proof.
  unfold _analyze_document.
  destruct (uniform (4 # 10) (9 # 10) w) as [base w1].
  destruct (if String.eqb doc_type "income_tax_return" then _ else _)
    as [modifier w2].
  apply clamp_range.
Qed.

Lemma ge_half_iff (score : Q) : ge_half score = true ↔ (1 # 2 <= score)%Q.
Proof. apply Qle_bool_iff. Qed.

Lemma result_keys_NoDup :
  Forall (fun doc_type => NoDup (result_keys doc_type)) document_types.
Proof. compute_done. Qed.

Lemma result_keys_apart :
  Forall (fun a =>
            Forall (fun b => (a ≠ b →
                              Forall (fun k => k ∉ result_keys b) (result_keys a)))
                   document_types)
         document_types.
Proof. compute_done. Qed.

Lemma other_keys_apart :
  Forall (fun a =>
            Forall (fun k => (k ∉ result_keys a) ∧ k ≠ (a +:+ "_uploaded"))
                   aggregate_keys ∧
            Forall (fun b => b +:+ "_uploaded" ∉ result_keys a) document_types)
         document_types.
Proof. compute_done. Qed.

Lemma document_types_NoDup : NoDup document_types.
Proof. compute_done. Qed.

Lemma keys_apart (a b k : string) :
  a ∈ document_types → b ∈ document_types → a ≠ b →
  k ∈ result_keys a → k ∉ result_keys b.
Proof.
  intros Ha Hb Hne Hk.
  pose proof result_keys_apart as Hall.
  rewrite Forall_forall in Hall. specialize (Hall a Ha).
  rewrite Forall_forall in Hall. specialize (Hall b Hb Hne).
  rewrite Forall_forall in Hall. by apply Hall.
Qed.

Lemma aggregate_keys_apart (a k : string) :
  a ∈ document_types → k ∈ aggregate_keys →
  (k ∉ result_keys a) ∧ k ≠ (a +:+ "_uploaded").
Proof.
  intros Ha Hk. pose proof other_keys_apart as Hall.
  rewrite Forall_forall in Hall. destruct (Hall a Ha) as [Hagg _].
  rewrite Forall_forall in Hagg. by apply Hagg.
Qed.


Lemma result_keys_distinct (a : string) :
  a ∈ document_types →
  (a +:+ "_verified") ≠ (a +:+ "_confidence") ∧
  (a +:+ "_verified") ≠ (a +:+ "_verification_time") ∧
  (a +:+ "_verified") ≠ (a +:+ "_status") ∧
  (a +:+ "_confidence") ≠ (a +:+ "_verification_time") ∧
  (a +:+ "_confidence") ≠ (a +:+ "_status") ∧
  (a +:+ "_verification_time") ≠ (a +:+ "_status").
Proof.
  intros Ha. pose proof result_keys_NoDup as Hall.
  rewrite Forall_forall in Hall. specialize (Hall a Ha).
  unfold result_keys in Hall.
  rewrite !NoDup_cons in Hall. set_solver.
Qed.

(** The four entries the loop writes for [doc_type], on top of [results]. *)
Lemma lookup_results_other (doc_type k : string) (v1 v2 v3 v4 : pyval)
    (results : pydict) :
  k ∉ result_keys doc_type →
  (<[doc_type +:+ "_status" := v4]>
     (<[doc_type +:+ "_verification_time" := v3]>
        (<[doc_type +:+ "_confidence" := v2]>
           (<[doc_type +:+ "_verified" := v1]> results)))) !! k
  = results !! k.
Proof.
  intros Hk. unfold result_keys in Hk.
  rewrite !lookup_insert_ne; [done|set_solver..].
Qed.

Ltac in_left := apply elem_of_app; by left.
Ltac in_right := apply elem_of_app; right; by apply list_elem_of_singleton.
Ltac in_list := repeat first [apply list_elem_of_here | apply list_elem_of_further].

Lemma process_one_invariant (customer_details : pydict) (seen : list string)
    (acc : loop_state) (doc_type : string) :
  doc_type ∈ document_types →
  (∀ d, d ∈ seen → d ∈ document_types) →
  doc_type ∉ seen →
  loop_invariant customer_details seen acc →
  loop_invariant customer_details (seen ++ [doc_type])
    (process_one customer_details acc doc_type).
Proof.
  intros Hdt Hseen Hfresh [Hkeys Hres Hlog Hcount Hmod].
  unfold process_one.
  destruct (awaits_verification customer_details doc_type) eqn:Hawaits.
  - pose proof (_analyze_document_range doc_type customer_details (loop_world acc))
      as Hrange.
    destruct (_analyze_document doc_type customer_details (loop_world acc))
      as [score w1]. cbn [fst] in Hrange.
    destruct (result_keys_distinct doc_type Hdt) as (D1 & D2 & D3 & D4 & D5 & D6).
    split; cbn [verification_results scored documents_processed modified].
    + intros k Hk.
      destruct (decide (k ∈ result_keys doc_type)) as [Hin|Hout].
      * exists doc_type. split; [in_right|done].
      * rewrite lookup_results_other in Hk by done.
        destruct (Hkeys k Hk) as (d & Hd & Hd').
        exists d. split; [in_left|done].
    + intros d Hd Hd'. apply elem_of_app in Hd as [Hd|Hd%list_elem_of_singleton].
      * destruct (Hres d Hd Hd') as (s & Hs & Hs01 & Hv & Hc & Hst).
        exists s. split; [in_left|]. split; [done|].
        assert (d ≠ doc_type) as Hne by (intros ->; done).
        rewrite !lookup_results_other; [done|..];
          apply (keys_apart d doc_type); auto; unfold result_keys; in_list.
      * subst d. exists score. split; [in_right|]. split; [done|].
        rewrite lookup_insert_ne, lookup_insert_ne, lookup_insert_ne,
          lookup_insert_eq by done.
        rewrite (lookup_insert_ne _ (doc_type +:+ "_status")),
          (lookup_insert_ne _ (doc_type +:+ "_verification_time")),
          lookup_insert_eq by done.
        by rewrite lookup_insert_eq.
    + intros d s Hd. apply elem_of_app in Hd as [Hd|Hd%list_elem_of_singleton].
      * destruct (Hlog d s Hd). split; [in_left|done].
      * simplify_eq. split; [in_right|done].
    + rewrite length_app. cbn. lia.
    + rewrite length_app. cbn. by rewrite Nat.add_1_r.
  - split; try done.
    + intros k Hk. destruct (Hkeys k Hk) as (d & Hd & Hd').
      exists d. split; [in_left|done].
    + intros d Hd Hd'. apply elem_of_app in Hd as [Hd|Hd%list_elem_of_singleton].
      * by apply Hres.
      * congruence.
    + intros d s Hd. destruct (Hlog d s Hd). split; [in_left|done].
Qed.

Lemma process_loop_invariant (customer_details : pydict) :
  ∀ (todo seen : list string) (acc : loop_state),
    seen ++ todo = document_types →
    loop_invariant customer_details seen acc →
    loop_invariant customer_details (seen ++ todo)
      (foldl (process_one customer_details) acc todo).
Proof.
  induction todo as [|doc_type todo IH]; intros seen acc Hsplit Hinv.
  - by rewrite (right_id_L [] (++)).
  - cbn [foldl]. rewrite cons_middle, (assoc_L (++)).
    pose proof document_types_NoDup as Hnodup. rewrite <- Hsplit in Hnodup.
    apply NoDup_app in Hnodup as (_ & Hdisj & _).
    apply IH; [by rewrite <- (assoc_L (++)), <- cons_middle|].
    apply process_one_invariant; [| |set_solver|done].
    + rewrite <- Hsplit. set_solver.
    + intros d Hd. rewrite <- Hsplit. set_solver.
Qed.

Lemma initial_invariant (customer_details : pydict) (w : world) :
  loop_invariant customer_details [] (LoopState ∅ 0 0 false [] w).
Proof.
  split; cbn.
  - intros k [v Hv]. by rewrite lookup_empty in Hv.
  - intros d Hd. by apply not_elem_of_nil in Hd.
  - intros d s Hd. by apply not_elem_of_nil in Hd.
  - done.
  - done.
Qed.


(** The entries written after the loop, on top of [results]. *)
Lemma lookup_aggregate_other (k : string) (v1 v2 v3 : pyval) (results : pydict) :
  k ∉ aggregate_keys →
  (<["income_proof_verification_time" := v3]>
     (<["income_proof" := v2]>
        (<["income_proof_confidence" := v1]> results))) !! k
  = results !! k.
Proof.
  intros Hk. unfold aggregate_keys in Hk.
  rewrite !lookup_insert_ne; [done|set_solver..].
Qed.

(** What a completed call of [_process_documents] has done, in terms of
    the loop variables at the end of the loop. *)
Lemma process_documents_outcome (state_data customer_details : pydict)
    (w w' : world) (c : cycle) :
  state_data !! "customer_details" = Some (PDict customer_details) →
  _process_documents state_data w = (Ok c, w') →
  ∃ (acc : loop_state) (results : pydict),
    loop_invariant customer_details document_types acc ∧
    log c = scored acc ∧
    returned c = modified acc ∧
    written c = (if modified acc then Some (state_after c) else None) ∧
    state_after c !! "customer_details"
    = Some (PDict (results ∪ customer_details)) ∧
    (∀ k, k ∉ aggregate_keys → results !! k = verification_results acc !! k) ∧
    (scored acc = [] →
     results = verification_results acc ∧
     state_after c
     = <["customer_details" := PDict (results ∪ customer_details)]> state_data).
Proof.
  intros Hcd. unfold _process_documents, Py.dict_get. rewrite Hcd.
  cbn [default from_option id].
  pose proof (process_loop_invariant customer_details document_types []
                (LoopState ∅ 0 0 false [] w) eq_refl
                (initial_invariant customer_details w)) as Hinv.
  cbn [app] in Hinv.
  set (acc := foldl (process_one customer_details)
                    (LoopState ∅ 0 0 false [] w) document_types) in *.
  case_decide as Hcount.
  - destruct (Py.append _ _) as [messages|]; [|done].
    intros [= <- _]. eexists acc, _.
    split; [done|]. split; [done|]. split; [done|]. split; [done|].
    cbn [state_after]. split; [by rewrite lookup_insert_eq|].
    split; [intros k Hk; by apply lookup_aggregate_other|].
    intros Hnone. rewrite (inv_count _ _ _ Hinv), Hnone in Hcount.
    cbn in Hcount. lia.
  - intros [= <- _]. exists acc, (verification_results acc).
    split; [done|]. split; [done|]. split; [done|]. split; [done|].
    cbn [state_after]. split; [by rewrite lookup_insert_eq|]. done.
Qed.



Lemma result_key_not_aggregate (doc_type k : string) :
  doc_type ∈ document_types → k ∈ result_keys doc_type → k ∉ aggregate_keys.
Proof.
  intros Hdt Hk Hagg. by destruct (aggregate_keys_apart doc_type k).
Qed.



Lemma lookup_merged (results customer_details : pydict) (acc : loop_state)
    (k : string) (v : pyval) :
  (∀ k, k ∉ aggregate_keys → results !! k = verification_results acc !! k) →
  k ∉ aggregate_keys →
  verification_results acc !! k = Some v →
  (results ∪ customer_details) !! k = Some v.
Proof.
  intros Hres Hk Hv. apply lookup_union_Some_l. by rewrite Hres.
Qed.

Lemma lookup_unmerged (results customer_details : pydict) (acc : loop_state)
    (k : string) :
  (∀ k, k ∉ aggregate_keys → results !! k = verification_results acc !! k) →
  k ∉ aggregate_keys →
  verification_results acc !! k = None →
  (results ∪ customer_details) !! k = customer_details !! k.
Proof.
  intros Hres Hk Hv. apply lookup_union_r. by rewrite Hres.
Qed.

(** C8.  For every document type the verifier processes in a call, the
    score it logs lies in [0, 1], the stored confidence is that score, the
    stored [verified] flag is [score >= 0.5] and the stored status is
    approved exactly when the flag is set; a score of exactly 0.5 counts
    as verified. *)
Theorem verified_flag_is_score_at_least_half
    (state_data customer_details : pydict) (w w' : world) (c : cycle) :
  state_data !! "customer_details" = Some (PDict customer_details) →
  _process_documents state_data w = (Ok c, w') →
  (∃ merged : pydict,
     state_after c !! "customer_details" = Some (PDict merged) ∧
     ∀ doc_type,
       doc_type ∈ document_types →
       awaits_verification customer_details doc_type = true →
       ∃ score,
         (doc_type, score) ∈ log c ∧
         (0 <= score <= 1)%Q ∧
         merged !! (doc_type +:+ "_confidence") = Some (PFloat score) ∧
         merged !! (doc_type +:+ "_verified") = Some (PBool (ge_half score)) ∧
         merged !! (doc_type +:+ "_status")
         = Some (PStr (if ge_half score then "approved" else "rejected")) ∧
         (ge_half score = true ↔ (1 # 2 <= score)%Q)) ∧
  ge_half (1 # 2) = true.
Proof.
  intros Hcd Hrun. split; [|done].
  destruct (process_documents_outcome _ _ _ _ _ Hcd Hrun)
    as (acc & results & Hinv & Hlog & _ & _ & Hafter & Hres & _).
  eexists. split; [done|]. intros doc_type Hdt Hawaits.
  destruct (inv_results _ _ _ Hinv doc_type Hdt Hawaits)
    as (score & Hscore & Hrange & Hv & Hc & Hs).
  exists score. rewrite Hlog. split; [done|]. split; [done|].
  split; [|split; [|split; [|apply ge_half_iff]]];
    (eapply lookup_merged; [done| |done]);
    apply (result_key_not_aggregate doc_type); auto;
    unfold result_keys; in_list.
Qed.



End DocumentVerificationFacts.

(** ** Re-running the background workers *)

Section BackgroundWorkerFacts.
Context `{PyRuntime}.
Import DocumentVerification SanctionLetterTrigger.


(** X25.  The state object the trigger builds has no attribute
    [underwriting_status], so the generator raises before it renders
    anything: [_generate_sanction_letter] leaves the state dictionary as
    it is and a pass of the trigger dumps nothing, for every state. *)
Lemma trigger_never_dumps (render : pydict → result pyval) (state_data : pydict) :
  _generate_sanction_letter render state_data = (state_data, None) ∧
  trigger_cycle render state_data = None.
Proof.
  assert (_generate_sanction_letter render state_data = (state_data, None))
    as Hgen by reflexivity.
  split; [done|]. unfold trigger_cycle. rewrite Hgen.
  by destruct (_should_generate_sanction_letter state_data) as [[]|].
Qed.


End BackgroundWorkerFacts.

(** ** The theorems at concrete inputs *)

(** [to_dict_from_dict_roundtrip] at a fresh state. *)
Lemma to_dict_from_dict_roundtrip_witness :
  let rt := sample_runtime 0 in
  let st := (MasterAgent.__init__ (World 0 0)).1 in
  (∀ t, fromisoformat (isoformat t) = Some t) ∧
  ∃ st', MasterAgent.from_dict (MasterAgent.to_dict st) (World 1 1)
         = (Ok st', World 2 2) ∧
         MasterAgent.to_dict st' = MasterAgent.to_dict st ∧
         MasterAgent.gemini_history st' = PList [] ∧
         MasterAgent.recursion_depth st' = 0%Z.
Proof.
  intros rt st. split; [reflexivity|].
  destruct (@to_dict_from_dict_roundtrip rt (fun t => eq_refl)
              (MasterAgent.to_dict st) st (World 1 1) eq_refl)
    as (st' & Hfrom & Hto & Hst').
  exists st'. split; [exact Hfrom|]. split; [exact Hto|].
  rewrite Hst'. split; reflexivity.
Defined.

(** [stage_machine_follows_table] at the sales stage with amount 500000
    and tenure 36. *)
Lemma stage_machine_follows_table_witness :
  let rt := sample_runtime 0 in
  let loan : pydict :=
    list_to_map [("amount", PInt 500000); ("tenure", PInt 36)] in
  let st0 := (MasterAgent.__init__ (World 0 0)).1 in
  let st :=
    {| MasterAgent.session_id := MasterAgent.session_id st0;
       MasterAgent.start_time := MasterAgent.start_time st0;
       MasterAgent.stage := MasterAgent.SALES_EXPLORATION;
       MasterAgent.customer_id := PStr "CUST001";
       MasterAgent.customer_name := PNone;
       MasterAgent.customer_phone := PNone;
       MasterAgent.customer_details := MasterAgent.customer_details st0;
       MasterAgent.loan_details := PDict loan;
       MasterAgent.selected_offer := PDict ∅;
       MasterAgent.verification_status := PDict ∅;
       MasterAgent.underwriting_result := PDict ∅;
       MasterAgent.decision := MasterAgent.PENDING;
       MasterAgent.sanction_letter_id := PNone;
       MasterAgent.messages := PList [];
       MasterAgent.errors := PList [];
       MasterAgent.next_agent := PNone;
       MasterAgent.api_retries := PDict ∅;
       MasterAgent.document_uploads := PDict ∅;
       MasterAgent.gemini_history := PList [];
       MasterAgent.recursion_depth := 0 |} in
  let st' := MasterAgent.set_next_agent (PStr "verification_agent")
               (MasterAgent.set_stage MasterAgent.VERIFICATION st) in
  MasterAgent.loan_details st = PDict loan ∧
  MasterAgent.verification_status st = PDict ∅ ∧
  MasterAgent._determine_next_step (MasterAgent.AsState st) (World 1 1)
  = (Ok (MasterAgent.node_output "Determined next step"
           (PStr "verification_agent") st'), Some st', World 1 1).
Proof.
  intros rt loan st0 st st'. split; [reflexivity|]. split; [reflexivity|].
  exact (@stage_machine_follows_table rt st loan ∅ (World 1 1) eq_refl eq_refl).
Defined.

(** [unknown_stage_dict_raises] at the stage name the test scripts of the
    repository store. *)
Lemma unknown_stage_dict_raises_witness :
  let rt := sample_runtime 0 in
  let data : pydict := {[ "stage" := PStr "document_collection" ]} in
  data !! "stage" = Some (PStr "document_collection") ∧
  ("document_collection" ∉ MasterAgent.stage_names) ∧
  (∃ e, MasterAgent._determine_next_step (MasterAgent.AsDict data) (World 0 0)
        = (Raise e, None, World 1 1)) ∧
  (∃ out w', MasterAgent._route_to_agent (MasterAgent.AsDict data) (World 0 0)
             = (Ok out, w')).
Proof.
  intros rt data.
  assert ("document_collection" ∉ MasterAgent.stage_names) as Hunknown
    by (apply (bool_decide_unpack _); vm_compute; exact I).
  split; [reflexivity|]. split; [exact Hunknown|].
  exact (@unknown_stage_dict_raises rt data "document_collection" (World 0 0)
           eq_refl Hunknown).
Defined.

(** C3 fails as stated: after a failure of the graph the [decision] entry
    of the response is ["error"], not the decision the state holds. *)
Example internal_error_decision_field :
  let rt := sample_runtime 0 in
  let st := (MasterAgent.__init__ (World 0 0)).1 in
  ∃ out st' w',
    MasterAgent.process_message (fun _ => Raise (Exn "RuntimeError" "graph failed"))
      "Hello" st (World 1 1) = (Ok out, st', w') ∧
    out !! "decision" = Some (PStr "error") ∧
    out !! "decision"
    ≠ Some (PStr (MasterAgent.decision_value (MasterAgent.decision st))).
Proof.
  cbn zeta. eexists _, _, _. split; [reflexivity|]. split; [reflexivity|].
  vm_compute. discriminate.
Qed.

(** [internal_error_response] at a fresh state and a graph that raises. *)
Lemma internal_error_response_witness :
  let rt := sample_runtime 0 in
  let st := (MasterAgent.__init__ (World 0 0)).1 in
  let graph : pydict → result pyval :=
    fun _ => Raise (Exn "RuntimeError" "graph failed") in
  MasterAgent.messages st = PList [] ∧
  MasterAgent.errors st = PList [] ∧
  MasterAgent.loan_details st = PDict MasterAgent.initial_loan_details ∧
  graph {[ "message" := PStr "Hello" ]} = Raise (Exn "RuntimeError" "graph failed") ∧
  ∃ out st' w',
    MasterAgent.process_message graph "Hello" st (World 1 1) = (Ok out, st', w') ∧
    out !! "response" = Some (PStr MasterAgent.apology) ∧
    out !! "decision" = Some (PStr "error") ∧
    MasterAgent.decision st' = MasterAgent.PENDING.
Proof.
  intros rt st graph. do 4 (split; [reflexivity|]).
  destruct (@internal_error_response rt graph "Hello" st (World 1 1)
              (Exn "RuntimeError" "graph failed") [] []
              MasterAgent.initial_loan_details eq_refl eq_refl eq_refl eq_refl)
    as (out & st' & w' & Hrun & Hresp & _ & Hdec & _ & _ & Hkept & _).
  exists out, st', w'. split; [exact Hrun|]. split; [exact Hresp|].
  split; [exact Hdec|]. exact Hkept.
Defined.


(** [sanction_trigger_characterised] at a confidence of 0.8 and of 0.3. *)
Lemma sanction_trigger_characterised_witness :
  let status (confidence : Q) : pydict :=
    list_to_map [("verified", PBool true); ("income_proof_verified", PBool true);
                 ("income_proof_confidence", PFloat confidence)] in
  let customer : pydict :=
    list_to_map [("customer_id", PStr "CUST001"); ("name", PStr "Asha Rao");
                 ("phone", PStr "9876543210"); ("address", PStr "12 MG Road");
                 ("pan", PStr "ABCDE1234F"); ("account_number", PStr "001234567");
                 ("ifsc_code", PStr "HDFC0001234"); ("bank_name", PStr "HDFC")] in
  let loan : pydict :=
    list_to_map [("amount", PInt 500000); ("tenure", PInt 36);
                 ("purpose", PStr "home renovation");
                 ("interest_rate", PFloat (105 # 10)); ("emi", PInt 16251)] in
  let state_data (confidence : Q) : pydict :=
    list_to_map [("verification_status", PDict (status confidence));
                 ("underwriting_result", PDict {[ "decision" := PStr "approved" ]});
                 ("customer_details", PDict customer);
                 ("loan_details", PDict loan)] in
  SanctionLetterTrigger._should_generate_sanction_letter (state_data (8 # 10))
  = Ok true ∧
  (SanctionLetterTrigger.trigger_conditions (state_data (8 # 10)) ∨
   SanctionLetterTrigger.conditions_with SanctionLetterTrigger.is_nan
     (state_data (8 # 10))) ∧
  SanctionLetterTrigger._should_generate_sanction_letter (state_data (3 # 10))
  = Ok false.
Proof.
  intros status customer loan state_data.
  assert (SanctionLetterTrigger._should_generate_sanction_letter
            (state_data (8 # 10)) = Ok true) as Hready by (vm_compute; reflexivity).
  split; [exact Hready|]. split.
  - exact (proj1 (proj1 (sanction_trigger_characterised (state_data (8 # 10))))
             Hready).
  - exact (proj2 (sanction_trigger_characterised (state_data (3 # 10)))
             (status (3 # 10)) eq_refl eq_refl).
Defined.



(** [verified_flag_is_score_at_least_half] at a state with one uploaded
    bank statement. *)
Lemma verified_flag_is_score_at_least_half_witness :
  let rt := sample_runtime (1 # 6) in
  let customer : pydict := {[ "bank_statement_uploaded" := PBool true ]} in
  let state_data : pydict := {[ "customer_details" := PDict customer ]} in
  ∃ score,
    ("bank_statement", score)
      ∈ DocumentVerification.scores_of_cycle state_data (World 0 0) ∧
    (0 <= score <= 1)%Q ∧
    DocumentVerification.entry_after_cycle state_data (World 0 0)
      "bank_statement_confidence" = Some (PFloat score) ∧
    DocumentVerification.entry_after_cycle state_data (World 0 0)
      "bank_statement_verified"
    = Some (PBool (DocumentVerification.ge_half score)).
Proof.
  intros rt customer state_data.
  pose proof (eq_refl : DocumentVerification.scores_of_cycle state_data (World 0 0)
                        = DocumentVerification.scores_of_cycle state_data (World 0 0))
    as Hscores.
  unfold DocumentVerification.scores_of_cycle at 1 in Hscores.
  unfold DocumentVerification.scores_of_cycle,
    DocumentVerification.entry_after_cycle.
  destruct (DocumentVerification._process_documents state_data (World 0 0))
    as [[c|e] w'] eqn:Hrun; cbn [fst] in *.
  - destruct (@verified_flag_is_score_at_least_half rt state_data customer
                (World 0 0) w' c eq_refl Hrun)
      as [(merged & Hmerged & Hall) _].
    destruct (Hall "bank_statement") as (score & Hlog & Hrange & Hc & Hv & _).
    + apply (bool_decide_unpack _). vm_compute. exact I.
    + reflexivity.
    + exists score. rewrite Hmerged.
      split; [exact Hlog|]. split; [exact Hrange|]. split; [exact Hc|exact Hv].
  - vm_compute in Hscores. discriminate Hscores.
Defined.

(** A confidence of exactly 0.5 is stored as verified and approved: with
    random draws of 1/6 a bank statement is scored 0.5. *)
Example score_of_exactly_half_is_verified :
  let rt := sample_runtime (1 # 6) in
  let state_data : pydict :=
    {[ "customer_details" := PDict {[ "bank_statement_uploaded" := PBool true ]} ]} in
  prod_map id Qred <$> DocumentVerification.scores_of_cycle state_data (World 0 0)
  = [("bank_statement", 1 # 2)] ∧
  DocumentVerification.entry_after_cycle state_data (World 0 0)
    "bank_statement_verified" = Some (PBool true) ∧
  DocumentVerification.entry_after_cycle state_data (World 0 0)
    "bank_statement_status" = Some (PStr "approved") ∧
  DocumentVerification.predicate_after_cycle state_data (World 0 0) = Ok false.
Proof. cbn zeta. repeat split; vm_compute; reflexivity. Qed.

(** The scenario of the specification: the only uploaded document type is
    scored 0.3, so the income proof is not verified and the document stays
    unverified. *)
Example low_confidence_scenario :
  let rt := sample_runtime 0 in
  let state_data : pydict :=
    {[ "customer_details" :=
         PDict {[ "business_financial_statement_uploaded" := PBool true ]} ]} in
  prod_map id Qred <$> DocumentVerification.scores_of_cycle state_data (World 0 0)
  = [("business_financial_statement", 3 # 10)] ∧
  DocumentVerification.entry_after_cycle state_data (World 0 0) "income_proof"
  = Some (PBool false) ∧
  Qred <$> (DocumentVerification.entry_after_cycle state_data (World 0 0)
              "income_proof_confidence" ≫= Py.finite_value)
  = Some (3 # 10) ∧
  DocumentVerification.entry_after_cycle state_data (World 0 0)
    "business_financial_statement_verified" = Some (PBool false).
Proof. cbn zeta. repeat split; vm_compute; reflexivity. Qed.

(** * Further properties

    Properties of the same code beyond the statements of the
    specification: what the functions do at their edges, what they leave
    alone, and how they compose. *)

(** ** Inverting the result monad *)

Lemma Ok_inj {A} (x y : A) : Ok x = Ok y → x = y.
Proof. by intros [= ->]. Qed.

Lemma bind_Ok {A B} (m : result A) (f : A → result B) (b : B) :
  m ≫= f = Ok b → ∃ a, m = Ok a ∧ f a = Ok b.
Proof. destruct m as [a|e]; [by exists a|done]. Qed.

Lemma bind_Raise {A B} (m : result A) (f : A → result B) (e : exn) :
  m ≫= f = Raise e → m = Raise e ∨ ∃ a, m = Ok a ∧ f a = Raise e.
Proof.
  destruct m as [a|e']; cbn; [intros Hf; right; by exists a|intros [= ->]; by left].
Qed.

(** ** Routing, the stage machine and the driver *)

Section StageMachineProperties.
Context `{PyRuntime}.
Import MasterAgent.

(** X1.  [_route_to_agent] never raises, whether it is handed a
    dictionary or a state object: it returns a dictionary with an empty
    response whose [next_agent] is one of the six routing targets, and the
    state it returns carries that same [next_agent]. *)
Theorem route_to_agent_names_valid_agent (state : node_input) (w : world) :
  ∃ out w' agent st',
    _route_to_agent state w = (Ok out, w') ∧
    agent ∈ valid_agents ∧
    out !! "response" = Some (PStr "") ∧
    out !! "next_agent" = Some (PStr agent) ∧
    out !! "state" = Some (PDict (to_dict st')) ∧
    next_agent st' = PStr agent.
Proof.
  unfold _route_to_agent.
  set (converted := match state with
                    | AsDict data =>
                        match from_dict data w with
                        | (Ok st, w1) => (st, w1)
                        | (Raise _, w1) => __init__ w1
                        end
                    | AsState st => (st, w)
                    end).
  destruct converted as [state_obj w1].
  destruct (existsb (Py.eq_str (next_agent state_obj)) valid_agents) eqn:Hvalid.
  - apply existsb_exists in Hvalid as (agent & Hin%list_elem_of_In & Heq).
    apply eq_str_true in Heq.
    exists (node_output "" (next_agent state_obj) state_obj), w1, agent, state_obj.
    rewrite Heq. by repeat split.
  - eexists _, w1, "generate_response", (stay "generate_response" state_obj).
    split; [reflexivity|]. split; [unfold valid_agents; set_solver|].
    by repeat split.
Qed.

Lemma stage_transition_shape (st st' : ConversationState) :
  stage_transition st = Ok st' →
  ∃ (s : ConversationStage) (agent : string),
    st' = set_next_agent (PStr agent) (set_stage s st) ∧
    stage_index (stage st) ≤ stage_index s ≤ stage_index (stage st) + 2 ∧
    (stage st = CLOSURE → s = CLOSURE).
Proof.
  unfold stage_transition, goto, stay. intros Hstep.
  destruct (stage st) eqn:Hstage.
  - destruct (Py.truthy (customer_id st)); simplify_eq.
    + eexists _, _. split; [reflexivity|]. cbn. split; [lia|done].
    + exists GREETING, "generate_response". rewrite <- Hstage, set_stage_same.
      split; [done|]. rewrite Hstage. cbn. split; [lia|done].
  - simplify_eq. eexists _, _. split; [reflexivity|]. cbn. split; [lia|done].
  - destruct (Py.get (loan_details st) "amount" PNone) as [a|]; simplify_eq/=.
    assert (∀ both, (if Py.truthy both
                     then Ok (set_next_agent (PStr "verification_agent")
                                (set_stage VERIFICATION st))
                     else Ok (set_next_agent (PStr "sales_agent") st)) = Ok st' →
            ∃ s agent, st' = set_next_agent (PStr agent) (set_stage s st) ∧
                       2 ≤ stage_index s ≤ 4 ∧ (SALES_EXPLORATION = CLOSURE → s = CLOSURE))
      as Hboth.
    { intros both Hb. destruct (Py.truthy both); simplify_eq.
      - eexists _, _. split; [reflexivity|]. cbn. split; [lia|done].
      - exists SALES_EXPLORATION, "sales_agent". rewrite <- Hstage, set_stage_same.
        split; [done|]. rewrite Hstage. cbn. split; [lia|done]. }
    destruct (Py.truthy a).
    + destruct (Py.get (loan_details st) "tenure" PNone) as [t|]; simplify_eq/=.
      by apply (Hboth t).
    + by apply (Hboth a).
  - destruct (Py.get (verification_status st) "verified" _) as [a|]; simplify_eq/=.
    destruct (Py.truthy a); simplify_eq.
    + eexists _, _. split; [reflexivity|]. cbn. split; [lia|done].
    + exists VERIFICATION, "verification_agent". rewrite <- Hstage, set_stage_same.
      split; [done|]. rewrite Hstage. cbn. split; [lia|done].
  - repeat case_bool_decide; simplify_eq;
      first [ eexists _, _; split; [reflexivity|]; cbn; split; [lia|done]
            | exists UNDERWRITING, "underwriting_agent";
              rewrite <- Hstage, set_stage_same; split; [done|];
              rewrite Hstage; cbn; split; [lia|done] ].
  - destruct (Py.truthy (sanction_letter_id st)); simplify_eq.
    + eexists _, _. split; [reflexivity|]. cbn. split; [lia|done].
    + exists DOCUMENTATION, "sanction_letter_agent". rewrite <- Hstage, set_stage_same.
      split; [done|]. rewrite Hstage. cbn. split; [lia|done].
  - simplify_eq. exists CLOSURE, "end". rewrite <- Hstage, set_stage_same.
    split; [done|]. rewrite Hstage. cbn. split; [lia|done].
Qed.

(** X2.  A call of [_determine_next_step] on a state object never moves
    the conversation to an earlier stage: the stage stays or advances by at
    most two positions (underwriting to closure, on a rejection), closure
    is final, and the customer id, the customer and loan details, the
    verification status, the underwriting result, the decision, the
    sanction letter id and the messages are left as they were, whether the
    body ran through or the handler took over. *)
Theorem stage_never_moves_backward (st : ConversationState) (w : world) :
  ∃ st',
    (_determine_next_step (AsState st) w).1.2 = Some st' ∧
    stage_index (stage st) ≤ stage_index (stage st') ≤ stage_index (stage st) + 2 ∧
    (stage st = CLOSURE → stage st' = CLOSURE) ∧
    customer_id st' = customer_id st ∧
    customer_details st' = customer_details st ∧
    loan_details st' = loan_details st ∧
    verification_status st' = verification_status st ∧
    underwriting_result st' = underwriting_result st ∧
    decision st' = decision st ∧
    sanction_letter_id st' = sanction_letter_id st ∧
    messages st' = messages st.
Proof.
  unfold _determine_next_step.
  destruct (determine_on st w) as [[r st'] w'] eqn:Hrun. exists st'.
  split; [done|]. unfold determine_on, determine_try in Hrun.
  destruct (stage_transition st) as [st1|e] eqn:Hstep.
  - apply stage_transition_shape in Hstep as (s & agent & -> & Hidx & Hclosed).
    cbn [mbind result_bind] in Hrun.
    destruct (negb _); simplify_eq; by cbn.
  - cbn [mbind result_bind] in Hrun. unfold add_error, stay in Hrun.
    cbn [errors set_next_agent] in Hrun.
    destruct (errors st); simplify_eq; cbn; repeat split; try done; lia.
Qed.


(** X3.  When the read of [loan_details] (in sales exploration) or of
    [verification_status] (in verification) raises because the attribute
    is not a dictionary, [_determine_next_step] does not raise: the handler
    routes to [generate_response], appends one entry of type "exception"
    with the message of the exception to the error list, reads the clock
    once, leaves the stage where it was and returns the response
    "Error encountered: ...". *)
Theorem determine_next_step_logs_failed_read
    (st : ConversationState) (w : world) (e : exn) (log : list pyval) :
  (stage st = SALES_EXPLORATION ∧
   Py.get (loan_details st) "amount" PNone = Raise e) ∨
  (stage st = VERIFICATION ∧
   Py.get (verification_status st) "verified" (PBool false) = Raise e) →
  errors st = PList log →
  let entry : pydict :=
    list_to_map
      [("type", PStr "exception");
       ("message", PStr ("Error in _determine_next_step: " +:+ exn_msg e));
       ("agent", PNone);
       ("timestamp", PStr (isoformat (now (clock_reads w))))] in
  let st' := set_errors (PList (log ++ [PDict entry]))
               (set_next_agent (PStr "generate_response") st) in
  _determine_next_step (AsState st) w
  = (Ok (node_output ("Error encountered: " +:+ exn_msg e)
           (PStr "generate_response") st'),
     Some st', tick w) ∧
  stage st' = stage st.
Proof.
  intros Hread Hlog entry st'. split; [|done].
  assert (stage_transition st = Raise e) as Hstep.
  { unfold stage_transition. by destruct Hread as [[-> ->] | [-> ->]]. }
  unfold _determine_next_step, determine_on, determine_try. rewrite Hstep.
  cbn [mbind result_bind]. unfold add_error, stay.
  cbn [errors set_next_agent]. by rewrite Hlog.
Qed.

Lemma pass_follows_table (st : ConversationState) (loan verification : pydict)
    (w : world) :
  loan_details st = PDict loan →
  verification_status st = PDict verification →
  let next := transition_table (stage st) (conditions_of st loan verification) in
  let st' := set_next_agent (PStr next.2) (set_stage next.1 st) in
  _determine_next_step (AsState st) w
  = (Ok (node_output "Determined next step" (PStr next.2) st'), Some st', w).
Proof.
  intros Hloan Hver next st'. subst next st'.
  unfold _determine_next_step, determine_on, determine_try, stage_transition,
    conditions_of, transition_table, goto, stay.
  rewrite Hloan, Hver.
  cbn [Py.get customer_identified amount_and_tenure_known verification_complete
       underwriting_decision sanction_letter_set mbind result_bind].
  destruct (stage st) eqn:Hstage; rewrite <- ?Hstage.
  - destruct (Py.truthy (customer_id st)); cbn;
      rewrite <- ?Hstage, ?set_stage_same; done.
  - done.
  - destruct (Py.truthy (Py.dict_get loan "amount" PNone)) eqn:Ha; cbn;
      [destruct (Py.truthy (Py.dict_get loan "tenure" PNone)) eqn:Ht
      | rewrite Ha];
      cbn; rewrite <- ?Hstage, ?set_stage_same; done.
  - destruct (Py.truthy (Py.dict_get verification "verified" (PBool false)));
      cbn; rewrite <- ?Hstage, ?set_stage_same; done.
  - destruct (decision st) eqn:Hd; cbn;
      rewrite <- ?Hstage, ?set_stage_same; done.
  - destruct (Py.truthy (sanction_letter_id st)); cbn;
      rewrite <- ?Hstage, ?set_stage_same; done.
  - cbn. rewrite <- ?Hstage, ?set_stage_same; done.
Qed.

Lemma passes_step (n : nat) (st : ConversationState) (loan verification : pydict)
    (w : world) :
  loan_details st = PDict loan →
  verification_status st = PDict verification →
  let next := transition_table (stage st) (conditions_of st loan verification) in
  passes (S n) st w
  = passes n (set_next_agent (PStr next.2) (set_stage next.1 st)) w.
Proof.
  intros Hloan Hver next. cbn [passes].
  by rewrite (pass_follows_table st loan verification w Hloan Hver).
Qed.

Lemma set_again (a b : pyval) (s t : ConversationStage) (st : ConversationState) :
  set_next_agent a (set_stage s (set_next_agent b (set_stage t st)))
  = set_next_agent a (set_stage s st).
Proof. done. Qed.

Lemma passes_at_closure (n : nat) (st : ConversationState)
    (loan verification : pydict) (w : world) :
  loan_details st = PDict loan →
  verification_status st = PDict verification →
  passes n (set_next_agent (PStr "end") (set_stage CLOSURE st)) w
  = (set_next_agent (PStr "end") (set_stage CLOSURE st), w).
Proof.
  intros Hloan Hver. induction n as [|n IH]; [done|].
  rewrite (passes_step n _ loan verification) by done.
  cbn [stage set_next_agent set_stage transition_table fst snd].
  by rewrite set_again.
Qed.

(** X4.  Calls of [_determine_next_step] compose to the end of the
    conversation: on a state with a customer id, a loan amount and tenure,
    a completed verification and either an approval with a sanction letter
    id or a rejection (outside the documentation stage), seven or more
    consecutive calls from any stage end in stage closure with
    [next_agent] "end", with every other attribute untouched and the
    clock never read. *)
Theorem complete_application_reaches_closure
    (st : ConversationState) (loan verification : pydict) (w : world) (n : nat) :
  Py.truthy (customer_id st) = true →
  loan_details st = PDict loan →
  Py.truthy (Py.dict_get loan "amount" PNone) = true →
  Py.truthy (Py.dict_get loan "tenure" PNone) = true →
  verification_status st = PDict verification →
  Py.truthy (Py.dict_get verification "verified" (PBool false)) = true →
  (decision st = APPROVED ∧ Py.truthy (sanction_letter_id st) = true) ∨
  (decision st = REJECTED ∧ stage st ≠ DOCUMENTATION) →
  7 ≤ n →
  passes n st w = (set_next_agent (PStr "end") (set_stage CLOSURE st), w).
Proof.
  intros Hid Hloan Hamount Htenure Hver Hverified Hdecision Hn.
  assert (∀ a s, conditions_of (set_next_agent a (set_stage s st)) loan verification
                 = Conditions true true true (decision st)
                     (Py.truthy (sanction_letter_id st))) as Hcond.
  { intros a s. unfold conditions_of. cbn [customer_id decision sanction_letter_id
      set_next_agent set_stage]. by rewrite Hid, Hamount, Htenure, Hverified. }
  assert (conditions_of st loan verification
          = Conditions true true true (decision st)
              (Py.truthy (sanction_letter_id st))) as Hcond0.
  { unfold conditions_of. by rewrite Hid, Hamount, Htenure, Hverified. }
  replace n with (7 + (n - 7)) by lia. generalize (n - 7). clear n Hn. intros k.
  cbn [Nat.add].
  rewrite (passes_step _ st loan verification) by done. rewrite Hcond0.
  destruct Hdecision as [[Hd Hletter] | [Hd Hstage]]; rewrite Hd in *;
    try rewrite Hletter in *;
    destruct (stage st) eqn:Hs; try done;
    cbn [transition_table customer_identified amount_and_tenure_known
         verification_complete underwriting_decision sanction_letter_set fst snd];
    repeat (rewrite (passes_step _ _ loan verification) by done;
            rewrite Hcond, set_again;
            cbn [stage set_next_agent set_stage transition_table customer_identified
                 amount_and_tenure_known verification_complete
                 underwriting_decision sanction_letter_set fst snd]);
    destruct k; by rewrite ?(passes_at_closure _ st loan verification).
Qed.

Lemma from_dict_to_dict (st : ConversationState) (w : world) :
  (∀ t, fromisoformat (isoformat t) = Some t) →
  from_dict (to_dict st) w
  = (Ok {| session_id := session_id st; start_time := start_time st;
           stage := stage st; customer_id := customer_id st;
           customer_name := customer_name st;
           customer_phone := customer_phone st;
           customer_details := customer_details st;
           loan_details := loan_details st;
           selected_offer := selected_offer st;
           verification_status := verification_status st;
           underwriting_result := underwriting_result st;
           decision := decision st;
           sanction_letter_id := sanction_letter_id st;
           messages := messages st; errors := errors st;
           next_agent := next_agent st;
           api_retries := api_retries st;
           document_uploads := document_uploads st;
           gemini_history := PList [];
           recursion_depth := 0 |}, tick (draw w)).
Proof.
  intros Hiso.
  unfold from_dict, Py.dict_get. cbn [__init__ start_time stage decision].
  change (to_dict st !! "start_time")
    with (Some (PStr (isoformat (start_time st)))).
  change (to_dict st !! "stage") with (Some (PStr (stage_value (stage st)))).
  change (to_dict st !! "decision")
    with (Some (PStr (decision_value (decision st)))).
  cbn [default from_option id].
  rewrite ConversationStage_of_value, Decision_of_value.
  unfold datetime_fromisoformat. rewrite Hiso.
  reflexivity.
Qed.

Ltac known_key :=
  repeat first [apply list_elem_of_here | apply list_elem_of_further].

(** X5.  [from_dict] reads nineteen keys and nothing else: adding,
    changing or removing any other key of the dictionary (for one,
    "recursion_depth") does not change its result. *)
Theorem from_dict_reads_only_its_keys (data : pydict) (k : string) (v : pyval)
    (w : world) :
  k ∉ from_dict_keys →
  from_dict (<[k := v]> data) w = from_dict data w ∧
  from_dict (delete k data) w = from_dict data w.
Proof.
  intros Hk.
  assert (∀ key dflt, key ∈ from_dict_keys →
            Py.dict_get (<[k := v]> data) key dflt = Py.dict_get data key dflt)
    as Hins.
  { intros key dflt Hkey. unfold Py.dict_get.
    rewrite lookup_insert_ne; [done|]. by intros ->. }
  assert (∀ key dflt, key ∈ from_dict_keys →
            Py.dict_get (delete k data) key dflt = Py.dict_get data key dflt)
    as Hdel.
  { intros key dflt Hkey. unfold Py.dict_get.
    rewrite lookup_delete_ne; [done|]. by intros ->. }
  unfold from_dict. cbn [__init__].
  split.
  - rewrite !Hins by (unfold from_dict_keys; known_key). done.
  - rewrite !Hdel by (unfold from_dict_keys; known_key). done.
Qed.

(** X6.  On a dictionary that has none of the nineteen keys,
    [from_dict] returns a state equal to a freshly constructed one (given
    that the datetime library reads back its own ISO text), and uses one
    identifier and one reading of the clock. *)
Theorem from_dict_missing_keys_give_fresh_state (data : pydict) (w : world) :
  (∀ t, fromisoformat (isoformat t) = Some t) →
  (∀ k, k ∈ from_dict_keys → data !! k = None) →
  from_dict data w = (Ok (__init__ w).1, (__init__ w).2).
Proof.
  intros Hiso Hnone.
  assert (∀ key dflt, key ∈ from_dict_keys → Py.dict_get data key dflt = dflt)
    as Hget.
  { intros key dflt Hkey. unfold Py.dict_get. by rewrite Hnone. }
  unfold from_dict. cbn [__init__].
  rewrite !Hget by (unfold from_dict_keys; known_key).
  cbn [start_time stage decision].
  rewrite ConversationStage_of_value, Decision_of_value.
  unfold datetime_fromisoformat. rewrite Hiso. done.
Qed.


Lemma setdefault_lookup (k k' : string) (v : pyval) (d : pydict) :
  setdefault k v d !! k'
  = if decide (k = k') then Some (default v (d !! k)) else d !! k'.
Proof.
  unfold setdefault. destruct (d !! k) as [x|] eqn:Hk; case_decide; subst; cbn.
  - done.
  - done.
  - by rewrite lookup_insert_eq.
  - by rewrite lookup_insert_ne.
Qed.

Lemma to_dict_set_messages (m : pyval) (st : ConversationState) :
  to_dict (set_messages m st) = <["messages" := m]> (to_dict st).
Proof.
  apply map_eq. intros k. unfold to_dict.
  cbn [list_to_map foldr fst snd session_id start_time stage customer_id
       customer_name customer_phone customer_details loan_details selected_offer
       verification_status underwriting_result decision sanction_letter_id
       messages errors next_agent api_retries document_uploads set_messages].
  destruct (decide (k = "messages")) as [->|Hk].
  - rewrite lookup_insert_eq. reflexivity.
  - rewrite (lookup_insert_ne _ "messages" k) by done.
    repeat match goal with
           | |- <[?key := _]> _ !! k = <[?key := _]> _ !! k =>
               destruct (decide (k = key)) as [->|?];
               [try done; by rewrite !lookup_insert_eq
               |rewrite !(lookup_insert_ne _ key k) by done]
           end.
    done.
Qed.

Lemma graph_error_response_shape (e : exn) (st : ConversationState) (w : world)
    (out : pydict) (st' : ConversationState) (w' : world) :
  graph_error_response e st w = (Ok out, st', w') →
  out !! "response" = Some (PStr apology) ∧
  out !! "stage" = Some (PStr (stage_value (stage st'))) ∧
  out !! "decision" = Some (PStr "error") ∧
  out !! "next_agent" = Some (PStr "generate_response") ∧
  out !! "state" = Some (PDict (to_dict st')).
Proof.
  unfold graph_error_response. destruct (errors st); try done.
  intros [= <- <- <-]. by repeat split.
Qed.

(** X7.  Whatever the graph does, a call of [process_message] that
    returns yields a dictionary with a textual [response], the [stage] and
    the serialized [state] of the agent's state as the call leaves it, a
    [decision] that is that state's decision or the literal "error", and a
    [next_agent] that is never empty. *)
Theorem process_message_result_shape
    (graph : pydict → result pyval) (user_message : string)
    (st : ConversationState) (w : world)
    (out : pydict) (st' : ConversationState) (w' : world) :
  process_message graph user_message st w = (Ok out, st', w') →
  (∃ text, out !! "response" = Some (PStr text)) ∧
  out !! "stage" = Some (PStr (stage_value (stage st'))) ∧
  (out !! "decision" = Some (PStr (decision_value (decision st'))) ∨
   out !! "decision" = Some (PStr "error")) ∧
  (∃ agent, out !! "next_agent" = Some agent ∧ Py.truthy agent = true) ∧
  out !! "state" = Some (PDict (to_dict st')).
Proof.
  assert (∀ e st0 w0,
            graph_error_response e st0 w0 = (Ok out, st', w') →
            (∃ text, out !! "response" = Some (PStr text)) ∧
            out !! "stage" = Some (PStr (stage_value (stage st'))) ∧
            (out !! "decision" = Some (PStr (decision_value (decision st'))) ∨
             out !! "decision" = Some (PStr "error")) ∧
            (∃ agent, out !! "next_agent" = Some agent ∧ Py.truthy agent = true) ∧
            out !! "state" = Some (PDict (to_dict st'))) as Herr.
  { intros e st0 w0 Hrun.
    apply graph_error_response_shape in Hrun as (? & ? & ? & ? & ?).
    split; [by eexists|]. split; [done|]. split; [by right|].
    split; [by eexists|done]. }
  unfold process_message.
  destruct (add_message (PStr "user") _ st w) as [[st0|e] w0]; [|done].
  destruct (Py.get (loan_details st0) "amount" _) as [amount|e]; [|done].
  destruct (graph _) as [graph_out|e]; [|apply Herr].
  match goal with
  | |- context [match Py.dict_get ?r "state" PNone with _ => _ end] =>
      generalize (match Py.dict_get r "state" PNone with
                  | PDict sd =>
                      match from_dict sd (tick w0) with
                      | (Ok st', w') => (st', w')
                      | (Raise _, w') => (st0, w')
                      end
                  | _ => (st0, tick w0)
                  end);
      generalize (py_str (Py.dict_get r "response"
                            (PStr "Sorry, I didn’t catch that.")))
  end.
  intros response_text [st1 w2].
  match goal with
  | |- context [add_message (PStr "assistant") ?c ?s2 w2] =>
      destruct (add_message (PStr "assistant") c s2 w2) as [[st3|e3] w3]
  end; [|apply Herr].
  intros [= <- <- <-].
  split; [by eexists|]. split; [done|]. split; [by left|]. split; [|done].
  exists (or_else (next_agent st3) (PStr "generate_response")).
  split; [done|]. unfold or_else. by destruct (Py.truthy (next_agent st3)) eqn:Ht.
Qed.

(** X8.  When the graph returns a non-empty dictionary without a
    "state" entry, [process_message] keeps the history and appends exactly
    two messages, the user's and the assistant's reply (the graph's
    response, or "No valid response generated." when it gave none), each
    with its own timestamp.  The state is rebuilt from its own
    serialization on the way: every serialized attribute but the messages
    is as before, while [gemini_history] is emptied and [recursion_depth]
    is back at 0. *)
Theorem process_message_without_graph_state
    (graph : pydict → result pyval) (user_message : string)
    (st : ConversationState) (w : world)
    (history : list pyval) (loan reply : pydict) :
  (∀ t, fromisoformat (isoformat t) = Some t) →
  messages st = PList history →
  loan_details st = PDict loan →
  graph {[ "message" := PStr user_message ]} = Ok (PDict reply) →
  reply ≠ ∅ →
  reply !! "state" = None →
  let text :=
    py_str (Py.dict_get reply "response" (PStr "No valid response generated.")) in
  let said (role : string) (content : string) (reading : nat) : pyval :=
    PDict (list_to_map
             [("role", PStr role); ("content", PStr content);
              ("timestamp", PStr (isoformat (now reading)))]) in
  ∃ out st',
    process_message graph user_message st w
    = (Ok out, st', tick (tick (tick (draw (tick (tick w)))))) ∧
    out !! "response" = Some (PStr text) ∧
    messages st'
    = PList (history ++ [said "user" user_message (clock_reads w);
                         said "assistant" text (3 + clock_reads w)]) ∧
    to_dict st' = <["messages" := messages st']> (to_dict st) ∧
    gemini_history st' = PList [] ∧
    recursion_depth st' = 0%Z.
Proof.
  intros Hiso Hhistory Hloan Hgraph Hreply Hstate text said.
  unfold process_message, add_message. rewrite Hhistory.
  cbn [loan_details set_messages]. rewrite Hloan. cbn [Py.get].
  rewrite Hgraph.
  assert (Py.truthy (PDict reply) = true) as ->.
  { cbn. apply negb_true_iff, Nat.eqb_neq. by intros ?%map_size_empty_inv. }
  set (st0 := set_messages _ st).
  match goal with
  | |- context [Py.dict_get ?r "state" PNone] => set (result1 := r)
  end.
  assert (Py.dict_get result1 "state" PNone = PDict (to_dict st0)) as ->.
  { unfold Py.dict_get. subst result1.
    rewrite setdefault_lookup. cbn [decide].
    rewrite decide_True by done.
    rewrite !setdefault_lookup, !decide_False by done.
    by rewrite Hstate. }
  assert (Py.dict_get result1 "response" (PStr "Sorry, I didn’t catch that.")
          = Py.dict_get reply "response" (PStr "No valid response generated."))
    as ->.
  { unfold Py.dict_get. subst result1.
    rewrite !setdefault_lookup, !decide_False by done.
    rewrite decide_True by done.
    by destruct (reply !! "response"). }
  rewrite (from_dict_to_dict st0 _ Hiso).
  cbn [recursion_depth Z.ltb Z.compare messages set_messages].
  eexists _, _. split; [reflexivity|].
  split; [reflexivity|].
  split; [subst st0 said; cbn [messages set_messages];
          by rewrite <- (assoc_L (++))|].
  split; [|done].
  etrans; [apply to_dict_set_messages|]. cbn [messages set_messages].
  rewrite <- (insert_insert_eq (to_dict st) "messages" _ (messages st0)).
  reflexivity.
Qed.

End StageMachineProperties.

(** ** Merging, saving and loading *)

Section StateManagerProperties.
Context `{PyRuntime}.
Import StateManager.

Ltac solve_keeps :=
  repeat first
    [ apply keeps_update_document_uploads | apply keeps_update_income_proof
    | apply keeps_update_messages | apply keeps_update_sanction_letter
    | apply keeps_skip | apply keeps_raise | apply keeps_and_then
    | apply keeps_if_in; intros | apply keeps_if_hasattr
    | apply keeps_eval; intros
    | apply keeps_assign | apply keeps_none_to_empty_dict
    | apply keeps_assign_item | apply keeps_merge_messages
    | apply keeps_merge_document_uploads | discriminate ].

(** X9.  [_update_state_from_dict] assigns to thirteen attributes and
    to no other: any other attribute of the state object (for one,
    [session_id]) and its class are the same after the call, for every
    snapshot and whether or not the call raises. *)
Theorem merge_leaves_other_attributes
    (state_dict : pydict) (name : string) (o : state_object) (w : world) :
  name ∉ merged_attributes →
  let o' := (_update_state_from_dict state_dict o w).1.2 in
  attrs o' !! name = attrs o !! name ∧
  has_add_message o' = has_add_message o.
Proof.
  intros Hname. cbn zeta.
  assert (∀ k, k ∈ merged_attributes → k ≠ name) as Hne by (by intros k Hk ->).
  assert (keeps name (_update_state_from_dict state_dict)) as Hkeeps; [|apply Hkeeps].
  unfold _update_state_from_dict.
  repeat (apply keeps_and_then;
          [first [apply keeps_update_document_uploads
                 |apply keeps_update_income_proof
                 |apply keeps_update_messages
                 |apply keeps_update_sanction_letter
                 |apply keeps_if_in; intros; apply keeps_assign]|]);
  try (apply keeps_if_in; intros; apply keeps_assign);
  try (apply Hne || (apply not_eq_sym, Hne));
  unfold merged_attributes;
  repeat first [apply list_elem_of_here | apply list_elem_of_further].
Qed.

(** *** Completed runs *)

Lemma ensures_and_then (pre mid post : state_object → Prop) (a b : stmt) :
  ensures pre a mid → ensures mid b post → ensures pre (a ;;; b) post.
Proof.
  intros Ha Hb o w Hpre. rewrite and_then_run.
  specialize (Ha o w Hpre).
  destruct (a o w) as [[[e|] o1] w1]; cbn [fst snd] in *; [done|].
  intros Hok. apply Hb; [by apply Ha|done].
Qed.

Lemma ensures_consequence (pre pre' post post' : state_object → Prop) (s : stmt) :
  ensures pre s post →
  (∀ o, pre' o → pre o) → (∀ o, post o → post' o) →
  ensures pre' s post'.
Proof. intros Hs Hpre Hpost o w Ho Hok. by apply Hpost, Hs; [apply Hpre|]. Qed.

Lemma ensures_keeps (name : string) (x : option pyval) (s : stmt) :
  keeps name s →
  ensures (fun o => attrs o !! name = x) s (fun o => attrs o !! name = x).
Proof. intros Hs o w Ho _. destruct (Hs o w) as [-> _]. done. Qed.

Lemma ensures_after (pre post : state_object → Prop) (a b : stmt) :
  ensures (fun _ => True) b post → ensures pre (a ;;; b) post.
Proof.
  intros Hb. apply (ensures_and_then _ (fun _ => True)); [done|apply Hb].
Qed.

Lemma ensures_assign (pre : state_object → Prop) (name : string) (v : pyval) :
  ensures pre (assign name v) (fun o => attrs o !! name = Some v).
Proof. intros o w _ _. cbn. by rewrite lookup_insert_eq. Qed.

Lemma ensures_if_in (pre post : state_object → Prop) (state_dict : pydict)
    (key : string) (body : pyval → stmt) (v : pyval) :
  state_dict !! key = Some v →
  ensures pre (body v) post → ensures pre (if_in state_dict key body) post.
Proof. intros Hv. unfold if_in. by rewrite Hv. Qed.

Lemma ensures_then_keeps (pre : state_object → Prop) (name : string) (v : pyval)
    (a b : stmt) :
  ensures pre a (fun o => attrs o !! name = Some v) →
  keeps name b →
  ensures pre (a ;;; b) (fun o => attrs o !! name = Some v).
Proof.
  intros Ha Hb. eapply ensures_and_then; [apply Ha|by apply ensures_keeps].
Qed.

Ltac find_assignment Hv :=
  first
    [ apply (ensures_if_in _ _ _ _ _ _ Hv); apply ensures_assign
    | apply ensures_then_keeps;
      [ apply (ensures_if_in _ _ _ _ _ _ Hv);
        first [ apply ensures_assign
              | apply ensures_then_keeps; [apply ensures_assign|solve_keeps] ]
      | solve_keeps ]
    | apply ensures_after; find_assignment Hv ].

(** X10.  When [_update_state_from_dict] completes, each of ten
    attributes that the snapshot has a key for holds the snapshot's value:
    in particular a [verification_status] in the snapshot replaces the
    flags just derived from [income_proof_verification]. *)
Theorem merge_takes_snapshot_values
    (state_dict : pydict) (name : string) (v : pyval)
    (o : state_object) (w : world) :
  name ∈ ["income_proof_verification"; "customer_details"; "loan_details";
          "extracted_info"; "conversation_stage"; "decision";
          "verification_status"; "underwriting_result"; "sanction_letter_id";
          "last_updated"] →
  state_dict !! name = Some v →
  let run := _update_state_from_dict state_dict o w in
  run.1.1 = None →
  attrs run.1.2 !! name = Some v.
Proof.
  intros Hname Hv. cbn zeta.
  assert (ensures (fun _ => True) (_update_state_from_dict state_dict)
            (fun o => attrs o !! name = Some v)) as Hrun; [|by apply Hrun].
  unfold _update_state_from_dict, update_income_proof, update_sanction_letter.
  repeat (apply elem_of_cons in Hname as [->|Hname]);
    [find_assignment Hv..|by apply elem_of_nil in Hname].
Qed.


(** *** Attributes are never removed *)

Lemma never_removes_skip : never_removes skip.
Proof. by intros o w name Hname. Qed.

Lemma never_removes_raise e : never_removes (raise e).
Proof. by intros o w name Hname. Qed.

Lemma never_removes_assign name v : never_removes (assign name v).
Proof.
  intros o w k Hk. cbn. apply lookup_insert_is_Some.
  destruct (decide (name = k)); [by left|by right].
Qed.

Lemma never_removes_and_then a b :
  never_removes a → never_removes b → never_removes (a ;;; b).
Proof.
  intros Ha Hb o w k Hk. rewrite and_then_run. specialize (Ha o w k Hk).
  destruct (a o w) as [[[e|] o1] w1]; cbn [fst snd] in *; [done|].
  by apply Hb.
Qed.

Lemma never_removes_eval {A} (r : result A) (f : A → stmt) :
  (∀ a, never_removes (f a)) → never_removes (eval r f).
Proof. intros Hf. destruct r; [apply Hf|apply never_removes_raise]. Qed.

Lemma never_removes_if_in (state_dict : pydict) key body :
  (∀ v, never_removes (body v)) → never_removes (if_in state_dict key body).
Proof.
  intros Hb. unfold if_in.
  destruct (state_dict !! key); [apply Hb|apply never_removes_skip].
Qed.

Lemma never_removes_if_hasattr name body :
  never_removes body → never_removes (if_hasattr name body).
Proof.
  intros Hb o w. unfold if_hasattr.
  destruct (hasattr o name); [apply Hb|apply never_removes_skip].
Qed.

Lemma never_removes_none_to_empty_dict name :
  never_removes (none_to_empty_dict name).
Proof.
  intros o w. unfold none_to_empty_dict, getattr.
  destruct (attrs o !! name) as [[]|]; try apply never_removes_skip.
  - apply never_removes_assign.
  - done.
Qed.

Lemma never_removes_assign_item name key v :
  never_removes (assign_item name key v).
Proof.
  intros o w. unfold assign_item.
  apply never_removes_eval. intros a. apply never_removes_assign.
Qed.

Lemma never_removes_add_message role content :
  never_removes (add_message role content).
Proof.
  intros o w k Hk. unfold add_message.
  destruct (getattr o "messages") as [[]|]; try done.
  cbn. apply lookup_insert_is_Some.
  destruct (decide ("messages" = k)); [by left|by right].
Qed.

Lemma never_removes_append_new_messages loaded indices :
  never_removes (append_new_messages loaded indices).
Proof.
  induction indices as [|i indices IH]; [apply never_removes_skip|].
  apply never_removes_and_then; [|done].
  apply never_removes_eval. intros rc. apply never_removes_add_message.
Qed.

Lemma never_removes_merge_messages loaded : never_removes (merge_messages loaded).
Proof.
  intros o w. unfold merge_messages.
  destruct (attrs o !! "messages"); [|apply never_removes_skip].
  apply never_removes_eval. intros [current_count loaded_count].
  case_decide; [|apply never_removes_assign].
  destruct (negb (has_add_message o));
    [apply never_removes_assign | apply never_removes_append_new_messages].
Qed.

Lemma never_removes_merge_document_uploads uploads :
  never_removes (merge_document_uploads uploads).
Proof.
  unfold merge_document_uploads.
  apply (map_fold_weak_ind (fun s _ => never_removes s));
    [apply never_removes_skip|].
  intros i x m r _ Hr. apply never_removes_and_then; [done|].
  apply never_removes_assign_item.
Qed.

Ltac solve_never_removes :=
  repeat first
    [ apply never_removes_skip | apply never_removes_raise
    | apply never_removes_and_then | apply never_removes_if_in; intros
    | apply never_removes_if_hasattr | apply never_removes_eval; intros
    | apply never_removes_assign | apply never_removes_none_to_empty_dict
    | apply never_removes_assign_item | apply never_removes_merge_messages
    | apply never_removes_merge_document_uploads ].

Lemma never_removes_update_document_uploads state_dict :
  never_removes (update_document_uploads state_dict).
Proof.
  unfold update_document_uploads.
  apply never_removes_if_in. intros uploads. apply never_removes_if_hasattr.
  apply never_removes_and_then; [apply never_removes_none_to_empty_dict|].
  destruct uploads; solve_never_removes.
Qed.

(** X11.  [_update_state_from_dict] never removes an attribute: what
    [hasattr] finds before the call it finds after it, whether or not the
    call raises. *)
Theorem merge_never_removes_attribute
    (state_dict : pydict) (o : state_object) (w : world) (name : string) :
  is_Some (attrs o !! name) →
  is_Some (attrs (_update_state_from_dict state_dict o w).1.2 !! name).
Proof.
  revert o w name.
  change (never_removes (_update_state_from_dict state_dict)).
  unfold _update_state_from_dict, update_income_proof, update_messages,
    update_sanction_letter.
  apply never_removes_and_then; [apply never_removes_update_document_uploads|].
  solve_never_removes.
Qed.

Lemma ensures_never_removes (name : string) (s : stmt) :
  never_removes s →
  ensures (fun o => is_Some (attrs o !! name)) s
          (fun o => is_Some (attrs o !! name)).
Proof. intros Hs o w Ho _. by apply Hs. Qed.

Lemma update_sanction_letter_run (state_dict : pydict) (letter : pyval) :
  state_dict !! "sanction_letter_id" = Some letter →
  ensures (fun o => is_Some (attrs o !! "documentation_status"))
    (update_sanction_letter state_dict)
    (fun o => attrs o !! "sanction_letter_id" = Some letter ∧
              ∃ status : pydict,
                attrs o !! "documentation_status" = Some (PDict status) ∧
                status !! "status" = Some (PStr "completed") ∧
                status !! "document_path" = Some letter).
Proof.
  intros Hletter o w [held Hheld].
  unfold update_sanction_letter, if_in. rewrite Hletter.
  unfold and_then, if_hasattr, hasattr, none_to_empty_dict, assign_item,
    getattr.
  cbn [assign attrs setattr has_add_message].
  rewrite lookup_insert_ne by done. rewrite Hheld.
  rewrite bool_decide_eq_true_2 by by eexists.
  destruct held;
    repeat (progress (cbn [assign skip raise eval attrs setattr has_add_message
                           mbind result_bind Py.setitem fst snd];
                      rewrite ?lookup_insert_eq;
                      rewrite ?lookup_insert_ne by done;
                      rewrite ?Hheld));
    try done; intros _.
  all: split; [done|].
  all: eexists; split; [done|].
  all: split; [by rewrite lookup_insert_ne, lookup_insert_eq by done
              |by rewrite lookup_insert_eq].
Qed.

(** X12.  A sanction letter id in the snapshot completes the
    documentation: when the merge completes on a state object that has the
    attribute [documentation_status], the state holds the snapshot's
    [sanction_letter_id], and its [documentation_status] is a dictionary
    with status "completed" and that id as [document_path], whatever
    status the snapshot itself carried. *)
Theorem merge_sanction_letter_completes_documentation
    (state_dict : pydict) (letter : pyval) (o : state_object) (w : world) :
  state_dict !! "sanction_letter_id" = Some letter →
  is_Some (attrs o !! "documentation_status") →
  let run := _update_state_from_dict state_dict o w in
  run.1.1 = None →
  attrs run.1.2 !! "sanction_letter_id" = Some letter ∧
  ∃ status : pydict,
    attrs run.1.2 !! "documentation_status" = Some (PDict status) ∧
    status !! "status" = Some (PStr "completed") ∧
    status !! "document_path" = Some letter.
Proof.
  intros Hletter Hattr. cbn zeta.
  assert (ensures (fun o => is_Some (attrs o !! "documentation_status"))
            (_update_state_from_dict state_dict)
            (fun o => attrs o !! "sanction_letter_id" = Some letter ∧
                      ∃ status : pydict,
                        attrs o !! "documentation_status" = Some (PDict status) ∧
                        status !! "status" = Some (PStr "completed") ∧
                        status !! "document_path" = Some letter)) as Hrun;
    [|by apply Hrun].
  unfold _update_state_from_dict.
  eapply ensures_and_then;
    [apply ensures_never_removes, never_removes_update_document_uploads|].
  do 10 (eapply ensures_and_then;
         [apply ensures_never_removes;
          unfold update_income_proof, update_messages; solve_never_removes|]).
  eapply ensures_and_then; [by apply update_sanction_letter_run|].
  intros o1 w1 (Hid & status & Hdoc & Hstatus & Hpath) _.
  assert (keeps "sanction_letter_id"
            (if_in state_dict "last_updated" (assign "last_updated"))) as K1
    by solve_keeps.
  assert (keeps "documentation_status"
            (if_in state_dict "last_updated" (assign "last_updated"))) as K2
    by solve_keeps.
  destruct (K1 o1 w1) as [-> _]. destruct (K2 o1 w1) as [-> _].
  split; [done|]. by exists status.
Qed.


Lemma ensures_if_in_None (pre : state_object → Prop) (state_dict : pydict)
    (key : string) (body : pyval → stmt) :
  state_dict !! key = None → ensures pre (if_in state_dict key body) pre.
Proof. intros Hnone o w Ho _. unfold if_in. by rewrite Hnone. Qed.

Lemma update_income_proof_run (state_dict ipv status : pydict) :
  state_dict !! "income_proof_verification" = Some (PDict ipv) →
  ensures (fun o => attrs o !! "verification_status" = Some (PDict status))
    (update_income_proof state_dict)
    (fun o =>
       attrs o !! "verification_status"
       = Some (PDict
                 (<["income_proof_confidence" :=
                      Py.dict_get ipv "confidence_score" (PFloat 0)]>
                    (<["income_proof_verified" :=
                         PBool (Py.eq_str (Py.dict_get ipv "status" PNone)
                                  "verified")]> status)))).
Proof.
  intros Hipv o w Hheld.
  unfold update_income_proof, if_in. rewrite Hipv.
  unfold and_then, if_hasattr, hasattr, none_to_empty_dict, assign_item,
    getattr.
  cbn [assign attrs setattr has_add_message].
  rewrite lookup_insert_ne by done. rewrite Hheld.
  rewrite bool_decide_eq_true_2 by by eexists.
  repeat (progress (cbn [assign skip raise eval attrs setattr has_add_message
                         mbind result_bind Py.setitem Py.get fst snd];
                    rewrite ?lookup_insert_eq;
                    rewrite ?lookup_insert_ne by done;
                    rewrite ?Hheld)).
  done.
Qed.

(** X13.  An [income_proof_verification] in a snapshot without a
    [verification_status] sets two flags in the state's own verification
    status and keeps its other entries: [income_proof_verified] says
    whether the loaded status is "verified", [income_proof_confidence] is
    the loaded confidence score, 0.0 when there is none. *)
Theorem merge_income_proof_sets_status_flags
    (state_dict ipv status : pydict) (o : state_object) (w : world) :
  state_dict !! "income_proof_verification" = Some (PDict ipv) →
  state_dict !! "verification_status" = None →
  attrs o !! "verification_status" = Some (PDict status) →
  let run := _update_state_from_dict state_dict o w in
  run.1.1 = None →
  attrs run.1.2 !! "verification_status"
  = Some (PDict
            (<["income_proof_confidence" :=
                 Py.dict_get ipv "confidence_score" (PFloat 0)]>
               (<["income_proof_verified" :=
                    PBool (Py.eq_str (Py.dict_get ipv "status" PNone)
                             "verified")]> status))).
Proof.
  intros Hipv Hnone Hheld. cbn zeta.
  match goal with
  | |- _ → attrs _ !! _ = ?x =>
      assert (ensures (fun o => attrs o !! "verification_status"
                                = Some (PDict status))
                (_update_state_from_dict state_dict)
                (fun o => attrs o !! "verification_status" = x)) as Hrun
  end; [|by apply Hrun].
  unfold _update_state_from_dict.
  eapply ensures_and_then; [apply ensures_keeps; solve_keeps|].
  eapply ensures_and_then; [by apply (update_income_proof_run _ ipv)|].
  do 6 (eapply ensures_and_then; [apply ensures_keeps; solve_keeps|]).
  eapply ensures_and_then; [by apply ensures_if_in_None|].
  do 3 (eapply ensures_and_then; [apply ensures_keeps; solve_keeps|]).
  apply ensures_keeps; solve_keeps.
Qed.

(** *** The snapshot *)

Lemma lookup_add_if_set (o : state_object) (names : list string) (base : pydict)
    (k : string) :
  foldr (fun name (d : pydict) =>
           match attrs o !! name with
           | Some v => if Py.truthy v then <[name := v]> d else d
           | None => d
           end) base names !! k
  = if decide (k ∈ names)
    then match attrs o !! k with
         | Some v => if Py.truthy v then Some v else base !! k
         | None => base !! k
         end
    else base !! k.
Proof.
  induction names as [|name names IH]; cbn [foldr].
  - rewrite decide_False; [done|]. apply not_elem_of_nil.
  - destruct (decide (k = name)) as [->|Hne].
    + rewrite decide_True by apply list_elem_of_here.
      destruct (attrs o !! name) as [v|] eqn:Hv.
      * destruct (Py.truthy v) eqn:Ht; [by rewrite lookup_insert_eq|].
        rewrite IH. by case_decide.
      * rewrite IH. by case_decide.
    + assert (match attrs o !! name with
              | Some v =>
                  if Py.truthy v
                  then <[name := v]>
                         (foldr (fun name (d : pydict) =>
                                   match attrs o !! name with
                                   | Some v =>
                                       if Py.truthy v then <[name := v]> d else d
                                   | None => d
                                   end) base names)
                  else foldr (fun name (d : pydict) =>
                                match attrs o !! name with
                                | Some v =>
                                    if Py.truthy v then <[name := v]> d else d
                                | None => d
                                end) base names
              | None => foldr (fun name (d : pydict) =>
                                 match attrs o !! name with
                                 | Some v =>
                                     if Py.truthy v then <[name := v]> d else d
                                 | None => d
                                 end) base names
              end !! k
              = foldr (fun name (d : pydict) =>
                         match attrs o !! name with
                         | Some v => if Py.truthy v then <[name := v]> d else d
                         | None => d
                         end) base names !! k) as ->.
      { destruct (attrs o !! name) as [v|]; [|done].
        destruct (Py.truthy v); [by rewrite lookup_insert_ne|done]. }
      rewrite IH.
      destruct (decide (k ∈ names)) as [Hin|Hout].
      * rewrite decide_True; [done|]. by apply list_elem_of_further.
      * rewrite decide_False; [done|]. by intros [?|?]%elem_of_cons.
Qed.

Lemma lookup_add_if_set_reverse (o : state_object) (names : list string)
    (base : pydict) (k : string) :
  foldr (fun name (d : pydict) =>
           match attrs o !! name with
           | Some v => if Py.truthy v then <[name := v]> d else d
           | None => d
           end) base (reverse names) !! k
  = if decide (k ∈ names)
    then match attrs o !! k with
         | Some v => if Py.truthy v then Some v else base !! k
         | None => base !! k
         end
    else base !! k.
Proof.
  rewrite lookup_add_if_set.
  destruct (decide (k ∈ reverse names)) as [Hin|Hout].
  - rewrite decide_True; [done|]. by apply elem_of_reverse.
  - rewrite decide_False; [done|]. by rewrite <- elem_of_reverse.
Qed.

Lemma getattr_Raise (o : state_object) (name : string) (e : exn) :
  getattr o name = Raise e → exn_class e = "AttributeError".
Proof. unfold getattr. by destruct (attrs o !! name); intros [= <-]. Qed.

Lemma getattr_Ok (o : state_object) (name : string) (v : pyval) :
  getattr o name = Ok v → attrs o !! name = Some v.
Proof. unfold getattr. by destruct (attrs o !! name); intros [= ->]. Qed.

Lemma state_to_dict_unfold (o : state_object) :
  _state_to_dict o
  = (customer_details ← getattr o "customer_details";
     loan_details ← getattr o "loan_details";
     extracted_info ← getattr o "extracted_info";
     messages ← getattr o "messages";
     conversation_stage ← getattr o "conversation_stage";
     decision ← getattr o "decision";
     mret (foldr (fun name (d : pydict) =>
                    match attrs o !! name with
                    | Some v => if Py.truthy v then <[name := v]> d else d
                    | None => d
                    end)
                 (list_to_map
                    [("customer_details", customer_details);
                     ("loan_details", loan_details);
                     ("extracted_info", extracted_info);
                     ("messages", messages);
                     ("conversation_stage", conversation_stage);
                     ("decision", decision)])
                 (reverse optional_attributes))).
Proof. reflexivity. Qed.

Lemma state_to_dict_Ok (o : state_object) (d : pydict) :
  _state_to_dict o = Ok d →
  ∃ base : pydict,
    (∀ name, name ∈ required_attributes →
             is_Some (attrs o !! name) ∧ base !! name = attrs o !! name) ∧
    (∀ name, name ∉ required_attributes → base !! name = None) ∧
    ∀ k, d !! k
         = if decide (k ∈ optional_attributes)
           then match attrs o !! k with
                | Some v => if Py.truthy v then Some v else base !! k
                | None => base !! k
                end
           else base !! k.
Proof.
  rewrite state_to_dict_unfold. intros Hrun.
  apply bind_Ok in Hrun as (v1 & H1%getattr_Ok & Hrun).
  apply bind_Ok in Hrun as (v2 & H2%getattr_Ok & Hrun).
  apply bind_Ok in Hrun as (v3 & H3%getattr_Ok & Hrun).
  apply bind_Ok in Hrun as (v4 & H4%getattr_Ok & Hrun).
  apply bind_Ok in Hrun as (v5 & H5%getattr_Ok & Hrun).
  apply bind_Ok in Hrun as (v6 & H6%getattr_Ok & Hrun).
  apply (Ok_inj (A := pydict)) in Hrun. subst d.
  exists (list_to_map
            [("customer_details", v1); ("loan_details", v2);
             ("extracted_info", v3); ("messages", v4);
             ("conversation_stage", v5); ("decision", v6)]).
  split; [|split; [|intros k; apply lookup_add_if_set_reverse]].
  - intros name Hname.
    repeat (apply elem_of_cons in Hname as [->|Hname]);
      [| | | | | |by apply elem_of_nil in Hname].
    all: cbn [list_to_map foldr fst snd];
      repeat (rewrite lookup_insert_ne by discriminate);
      rewrite lookup_insert_eq.
    all: split; [by eexists|done].
  - intros name Hname. cbn [list_to_map foldr fst snd].
    assert (∀ k, k ∈ required_attributes → k ≠ name) as Hne by (by intros k Hk ->).
    rewrite !lookup_insert_ne
      by (apply Hne; unfold required_attributes;
          repeat first [apply list_elem_of_here | apply list_elem_of_further]).
    apply lookup_empty.
Qed.

Lemma state_to_dict_required (o : state_object) (d : pydict) (name : string) :
  _state_to_dict o = Ok d →
  name ∈ required_attributes →
  is_Some (attrs o !! name) ∧ d !! name = attrs o !! name.
Proof.
  intros Hd Hname.
  apply state_to_dict_Ok in Hd as (base & Hrequired & Hother & Hd).
  destruct (Hrequired name Hname) as [Hsome Hbase].
  split; [done|]. rewrite Hd, Hbase.
  rewrite decide_False; [done|].
  unfold required_attributes in Hname.
  repeat (apply elem_of_cons in Hname as [->|Hname]);
    [..|by apply elem_of_nil in Hname]; unfold optional_attributes;
    (let Hin := fresh "Hin" in
     intros Hin;
     repeat (apply elem_of_cons in Hin as [?|Hin]; [discriminate|]);
     by apply elem_of_nil in Hin).
Qed.

Ltac not_listed :=
  let Hin := fresh "Hin" in
  intros Hin;
  repeat (apply elem_of_cons in Hin as [?|Hin]; [discriminate|]);
  by apply elem_of_nil in Hin.

(** X14.  The dictionary [_state_to_dict] returns has the six required
    attributes with the values the state holds; each of the six optional
    attributes is in it exactly when the state has it with a truthy value
    (so an empty dictionary or [None] is left out); and it has no other
    key. *)
Theorem state_to_dict_contents (o : state_object) (d : pydict) :
  _state_to_dict o = Ok d →
  (∀ name, name ∈ required_attributes →
           is_Some (attrs o !! name) ∧ d !! name = attrs o !! name) ∧
  (∀ name, name ∈ optional_attributes →
           d !! name = match attrs o !! name with
                       | Some v => if Py.truthy v then Some v else None
                       | None => None
                       end) ∧
  (∀ name, name ∉ required_attributes ++ optional_attributes →
           d !! name = None).
Proof.
  intros Hrun.
  pose proof (state_to_dict_Ok _ _ Hrun) as (base & Hrequired & Hother & Hd).
  split; [|split].
  - intros name Hname. by apply state_to_dict_required.
  - intros name Hname. rewrite Hd, decide_True by done.
    rewrite Hother; [done|].
    unfold optional_attributes in Hname.
    repeat (apply elem_of_cons in Hname as [->|Hname]);
      [..|by apply elem_of_nil in Hname]; unfold required_attributes; not_listed.
  - intros name Hname. rewrite Hd.
    apply not_elem_of_app in Hname as [Hreq Hopt].
    rewrite decide_False by done. by apply Hother.
Qed.

(** X15.  When the state object lacks one of the six attributes that
    [_state_to_dict] reads unconditionally, [_state_to_dict] raises an
    [AttributeError], and [save_state], whose handler logs it, leaves the
    file untouched and does not read the clock. *)
Theorem save_state_needs_required_attributes
    (makedirs : result ()) (o : state_object) (w : world) (name : string) :
  name ∈ required_attributes →
  attrs o !! name = None →
  (∃ e, _state_to_dict o = Raise e ∧ exn_class e = "AttributeError") ∧
  save_state makedirs o w = ([], w).
Proof.
  intros Hname Hmissing.
  assert (∃ e, _state_to_dict o = Raise e ∧ exn_class e = "AttributeError")
    as (e & Hraise & Hclass).
  { destruct (_state_to_dict o) as [d|e] eqn:Hrun.
    - apply state_to_dict_Ok in Hrun as (base & Hrequired & _).
      destruct (Hrequired name Hname) as [[v Hv] _]. congruence.
    - exists e. split; [done|]. rewrite state_to_dict_unfold in Hrun.
      do 6 (apply bind_Raise in Hrun as [Hrun | (? & _ & Hrun)];
            [by apply getattr_Raise in Hrun|]).
      done. }
  split; [by exists e|]. unfold save_state. by rewrite Hraise.
Qed.

(** *** The merge as [load_state] runs it *)

Lemma and_then_ext (a a' b b' : stmt) :
  (∀ o w, a o w = a' o w) → (∀ o w, b o w = b' o w) →
  ∀ o w, (a ;;; b) o w = (a' ;;; b') o w.
Proof.
  intros Ha Hb o w. unfold and_then. rewrite Ha.
  destruct (a' o w) as [[[e|] o1] w1]; [done|apply Hb].
Qed.

Lemma if_in_loaded_dict (d : pydict) (key : string) (body : pyval → stmt) :
  if_in_loaded (PDict d) key body = if_in d key body.
Proof.
  unfold if_in_loaded, if_in. cbn [Py.contains Py.getitem eval].
  by destruct (d !! key).
Qed.

Lemma merge_loaded_messages_dict (d : pydict) (loaded : pyval)
    (o : state_object) (w : world) :
  d !! "messages" = Some loaded →
  merge_loaded_messages (PDict d) o w = merge_messages loaded o w.
Proof.
  intros Hloaded. unfold merge_loaded_messages, merge_messages.
  destruct (attrs o !! "messages") as [current|]; [|done].
  cbn [Py.getitem]. rewrite Hloaded.
  destruct (if Py.truthy current then Py.len current else Ok 0%nat)
    as [current_msg_count|e]; [|done].
  cbn [mbind result_bind].
  by destruct (Py.len loaded) as [loaded_count|e].
Qed.

(** On a dictionary the merge that [load_state] runs is
    [_update_state_from_dict]. *)
Lemma update_from_loaded_dict (d : pydict) (o : state_object) (w : world) :
  _update_state_from_loaded (PDict d) o w = _update_state_from_dict d o w.
Proof.
  unfold _update_state_from_loaded, _update_state_from_dict,
    update_document_uploads, update_income_proof, update_messages,
    update_sanction_letter.
  rewrite !if_in_loaded_dict. revert o w.
  apply and_then_ext.
  { intros o w. unfold if_in. cbn [Py.contains Py.getitem eval].
    by destruct (d !! "document_uploads"). }
  do 4 (apply and_then_ext; [done|]).
  apply and_then_ext; [|done].
  intros o w. unfold if_in. cbn [Py.contains eval].
  destruct (d !! "messages") as [loaded|] eqn:Hloaded; [|done].
  by apply merge_loaded_messages_dict.
Qed.


(** X16.  Saving and loading compose: after [save_state] on a new file
    the file holds the dump of the snapshot with its [last_updated] stamp,
    [load_state] into another state object runs the merge of that
    snapshot (given that the JSON library reads this dump back), and when
    the merge completes the loader's [customer_details], [loan_details],
    [extracted_info], [conversation_stage] and [decision] are those of the
    saved state and its [last_updated] is the stamp of the save. *)
Theorem save_then_load_restores_required_attributes
    (new_state : result state_object) (o o2 : state_object) (w w2 : world)
    (d : pydict) :
  _state_to_dict o = Ok d →
  let saved := <["last_updated" := PStr (isoformat (now (clock_reads w)))]> d in
  json_dumps (PDict saved) ≠ "" →
  json_loads (json_dumps (PDict saved)) = Ok (PDict saved) →
  let file := file_after None (save_state (Ok ()) o w).1 in
  let run := _update_state_from_dict saved o2 w2 in
  file = Some (json_dumps (PDict saved)) ∧
  load_state new_state file (Some o2) w2 = (Some run.1.2, run.2) ∧
  (run.1.1 = None →
   attrs run.1.2 !! "last_updated"
   = Some (PStr (isoformat (now (clock_reads w)))) ∧
   ∀ name, name ∈ ["customer_details"; "loan_details"; "extracted_info";
                    "conversation_stage"; "decision"] →
           attrs run.1.2 !! name = attrs o !! name).
Proof.
  intros Hd saved Hnonempty Hjson file run.
  assert (file = Some (json_dumps (PDict saved))) as Hfile.
  { subst file. unfold save_state. by rewrite Hd. }
  split; [done|]. split.
  - rewrite Hfile. unfold load_state, json_load.
    assert (String.eqb (json_dumps (PDict saved)) "" = false) as ->
      by (apply String.eqb_neq, Hnonempty).
    rewrite Hjson, update_from_loaded_dict. fold run.
    by destruct run as [[e o'] w'].
  - intros Hok.
    assert (∀ name v, saved !! name = Some v →
              ensures (fun _ => True) (_update_state_from_dict saved)
                (fun o => attrs o !! name = Some v) →
              attrs run.1.2 !! name = Some v) as Hmerge.
    { intros name v _ Hrun. by apply Hrun. }
    split.
    + assert (saved !! "last_updated"
              = Some (PStr (isoformat (now (clock_reads w))))) as Hv
        by apply lookup_insert_eq.
      apply (Hmerge _ _ Hv).
      unfold _update_state_from_dict, update_income_proof, update_sanction_letter.
      find_assignment Hv.
    + intros name Hname.
      assert (name ∈ required_attributes ∧ name ≠ "last_updated") as [Hreq Hne].
      { repeat (apply elem_of_cons in Hname as [->|Hname]);
          [..|by apply elem_of_nil in Hname];
          (split; [|done]); unfold required_attributes;
          repeat first [apply list_elem_of_here | apply list_elem_of_further]. }
      destruct (state_to_dict_required o d name Hd Hreq) as [[v Hattr] Hsaved].
      rewrite Hattr in Hsaved |- *.
      assert (saved !! name = Some v) as Hv
        by (subst saved; by rewrite lookup_insert_ne).
      apply (Hmerge _ _ Hv).
      unfold _update_state_from_dict, update_income_proof, update_sanction_letter.
      clear -Hname Hv.
      repeat (apply elem_of_cons in Hname as [->|Hname]);
        [find_assignment Hv..|by apply elem_of_nil in Hname].
Qed.

(** *** A state file that holds no object *)

Lemma inert_skip : inert skip.
Proof. done. Qed.

Lemma inert_raise (e : exn) : inert (raise e).
Proof. done. Qed.

Lemma inert_and_then (a b : stmt) : inert a → inert b → inert (a ;;; b).
Proof.
  intros Ha Hb o w. unfold and_then.
  destruct (Ha o w) as [Ho Hw].
  destruct (a o w) as [[[e|] o1] w1]; cbn in Ho, Hw; subst; [done|apply Hb].
Qed.

Lemma getitem_other (v : pyval) (key : string) :
  (∀ d, v ≠ PDict d) → ∃ e, Py.getitem v key = Raise e.
Proof.
  intros Hother. destruct v as [| | | | | |d]; cbn; eauto.
  by destruct (Hother d).
Qed.

Lemma inert_if_in_loaded (loaded : pyval) (key : string) (body : pyval → stmt) :
  (∀ d, loaded ≠ PDict d) → inert (if_in_loaded loaded key body).
Proof.
  intros Hother. unfold if_in_loaded.
  destruct (Py.contains loaded key) as [[]|e]; cbn [eval];
    [|apply inert_skip|apply inert_raise].
  destruct (getitem_other loaded key Hother) as [e ->]. apply inert_raise.
Qed.

Lemma inert_merge_loaded_messages (loaded : pyval) :
  (∀ d, loaded ≠ PDict d) → inert (merge_loaded_messages loaded).
Proof.
  intros Hother o w. unfold merge_loaded_messages.
  destruct (attrs o !! "messages") as [current|]; [|done].
  destruct (getitem_other loaded "messages" Hother) as [e ->].
  by destruct (if Py.truthy current then Py.len current else Ok 0%nat).
Qed.

Lemma update_from_loaded_other (loaded : pyval) (o : state_object) (w : world) :
  (∀ d, loaded ≠ PDict d) →
  let run := _update_state_from_loaded loaded o w in
  run.2 = w ∧
  (run.1.2 = o ∨
   attrs o !! "document_uploads" = Some PNone ∧
   Py.contains loaded "document_uploads" = Ok true ∧
   run.1.2 = setattr "document_uploads" (PDict ∅) o).
Proof.
  intros Hother. unfold _update_state_from_loaded.
  match goal with
  | |- context [and_then ?first ?rest] =>
      assert (inert rest) as Hrest; [|set (tail := rest) in *]
  end.
  { repeat (apply inert_and_then; [by apply inert_if_in_loaded|]).
    apply inert_and_then.
    { destruct (Py.contains loaded "messages") as [[]|e]; cbn [eval];
        [by apply inert_merge_loaded_messages|apply inert_skip|apply inert_raise]. }
    repeat (apply inert_and_then; [by apply inert_if_in_loaded|]).
    by apply inert_if_in_loaded. }
  cbn zeta. unfold and_then.
  destruct (Py.contains loaded "document_uploads") as [[]|e]; cbn [eval].
  - destruct (getitem_other loaded "document_uploads" Hother) as [e ->].
    unfold if_hasattr, hasattr, none_to_empty_dict. cbn beta.
    destruct (attrs o !! "document_uploads") as [v|] eqn:Hheld.
    + rewrite bool_decide_true by eauto.
      destruct v; cbn; try (split; [done|by left]).
      split; [done|]. by right.
    + rewrite bool_decide_false by (by intros [? ?]). cbn.
      destruct (Hrest o w) as [Ho Hw].
      destruct (tail o w) as [[e' o'] w']. cbn in Ho, Hw. subst.
      split; [done|by left].
  - cbn. destruct (Hrest o w) as [Ho Hw].
    destruct (tail o w) as [[e' o'] w']. cbn in Ho, Hw. subst.
    split; [done|by left].
  - cbn. split; [done|by left].
Qed.

(** X27.  When the state file holds a JSON document that is not an
    object, [load_state] still runs the merge on it and returns the
    caller's state object: the clock is not read, the class and every
    attribute other than [document_uploads] are as before, and
    [document_uploads] is as before too unless it was [None] and
    ["document_uploads" in state_dict] holds of the document (an element
    of the list, a substring of the string), in which case it has become
    the empty dictionary before the subscript raised. *)
Theorem load_state_other_document
    (new_state : result state_object) (text : string) (loaded : pyval)
    (o : state_object) (w : world) :
  json_load text = Ok loaded →
  (∀ d, loaded ≠ PDict d) →
  ∃ o',
    load_state new_state (Some text) (Some o) w = (Some o', w) ∧
    has_add_message o' = has_add_message o ∧
    (∀ name, name ≠ "document_uploads" → attrs o' !! name = attrs o !! name) ∧
    (attrs o' !! "document_uploads" = attrs o !! "document_uploads" ∨
     attrs o !! "document_uploads" = Some PNone ∧
     Py.contains loaded "document_uploads" = Ok true ∧
     attrs o' !! "document_uploads" = Some (PDict ∅)).
Proof.
  intros Hload Hother. unfold load_state. rewrite Hload.
  destruct (update_from_loaded_other loaded o w Hother) as [Hw Hcase].
  destruct (_update_state_from_loaded loaded o w) as [[e o'] w'].
  cbn [fst snd] in Hw, Hcase. subst w'. exists o'. split; [done|].
  destruct Hcase as [->|(Hnone & Hfound & ->)].
  - split; [done|]. split; [done|]. by left.
  - split; [done|]. split.
    + intros name Hname. cbn. by rewrite lookup_insert_ne.
    + right. split; [done|]. split; [done|]. cbn. by rewrite lookup_insert_eq.
Qed.

End StateManagerProperties.

(** ** The verifier's scores, aggregate and status *)

Section VerifierProperties.
Context `{PyRuntime}.
Import DocumentVerification.

Lemma uniform_range (a b : Q) (w : world) :
  (0 <= random (rng_draws w) <= 1)%Q → (a <= b)%Q →
  (a <= (uniform a b w).1 <= b)%Q ∧ (uniform a b w).2 = draw w.
Proof.
  intros [Hlo Hhi] Hab. unfold uniform. cbn [fst snd]. split; [|done].
  set (r := random (rng_draws w)) in *.
  split; nra.
Qed.

Lemma clamp_at_least (lo x : Q) :
  (0 <= lo <= 1)%Q → (lo <= x)%Q → (lo <= py_min (py_max x 0) 1)%Q.
Proof.
  intros [H0 H1] Hx. unfold py_min, py_max.
  assert (Qle_bool 0 x = true) as -> by (apply Qle_bool_iff; lra).
  destruct (Qle_bool x 1); [done|lra].
Qed.

(** X17.  With draws of [random.random()] in [0, 1],
    [_analyze_document] draws twice and scores every document between 0.3
    and 1; a bank statement scores at least 0.4, a salary slip at least
    0.45, and an income tax return or a Form 16 at least 0.5, so these two
    are never rejected. *)
Theorem analyze_document_type_bounds
    (doc_type : string) (customer_details : pydict) (w : world) :
  (∀ n, (0 <= random n <= 1)%Q) →
  let score := (_analyze_document doc_type customer_details w).1 in
  (_analyze_document doc_type customer_details w).2 = draw (draw w) ∧
  (3 # 10 <= score <= 1)%Q ∧
  (doc_type = "bank_statement" → (4 # 10 <= score)%Q) ∧
  (doc_type = "salary_slip" → (45 # 100 <= score)%Q) ∧
  (doc_type = "income_tax_return" ∨ doc_type = "form_16" →
   (1 # 2 <= score)%Q ∧ ge_half score = true).
Proof.
  intros Hrandom. cbn zeta. unfold _analyze_document.
  destruct (uniform_range (4 # 10) (9 # 10) w (Hrandom _)) as [Hbase Hw1];
    [lra|].
  destruct (uniform (4 # 10) (9 # 10) w) as [base w1]. cbn [fst snd] in *.
  subst w1.
  assert (∀ a b, (a <= b)%Q →
            (a <= (uniform a b (draw w)).1 <= b)%Q ∧
            (uniform a b (draw w)).2 = draw (draw w)) as Hmod
    by (intros a b Hab; by apply uniform_range).
  assert (∀ modifier : Q * world,
            (- (1 # 10) <= modifier.1 <= 2 # 10)%Q →
            (3 # 10 <= py_min (py_max (base + modifier.1) 0) 1 <= 1)%Q) as Hall.
  { intros modifier Hm. split; [|apply clamp_range].
    apply clamp_at_least; lra. }
  destruct (String.eqb doc_type "income_tax_return") eqn:Hitr;
    [|destruct (String.eqb doc_type "salary_slip") eqn:Hslip;
      [|destruct (String.eqb doc_type "bank_statement") eqn:Hbank;
        [|destruct (String.eqb doc_type "form_16") eqn:Hform]]].
  all: repeat match goal with
         | Heq : String.eqb _ _ = true |- _ => apply String.eqb_eq in Heq
         | Heq : String.eqb _ _ = false |- _ => apply String.eqb_neq in Heq
         end.
  all: match goal with
       | |- context [uniform ?a ?b (draw ?w0)] =>
           destruct (Hmod a b) as [Hm Hw2]; [lra|];
           destruct (uniform a b (draw w0)) as [modifier w2]
       end; cbn [fst snd] in *; subst w2.
  all: split; [done|].
  all: split; [apply (Hall (modifier, draw (draw w))); cbn; lra|].
  all: split; [intros ->; try done; apply clamp_at_least; lra|].
  all: split; [intros ->; try done; apply clamp_at_least; lra|].
  all: intros [-> | ->]; try done.
  all: assert (1 # 2 <= py_min (py_max (base + modifier) 0) 1)%Q as Hhalf
         by (apply clamp_at_least; lra).
  all: split; [done|by apply Qle_bool_iff].
Qed.


(** *** The aggregate of a cycle *)

Lemma total_score_snoc (scores : list (string * Q)) (entry : string * Q) :
  total_score (scores ++ [entry]) = (total_score scores + entry.2)%Q.
Proof. unfold total_score. by rewrite foldl_app. Qed.

Lemma process_one_totals (customer_details : pydict) (acc : loop_state)
    (doc_type : string) :
  overall_confidence acc = total_score (scored acc) →
  documents_processed acc = length (scored acc) →
  Forall (fun entry => (0 <= entry.2 <= 1)%Q) (scored acc) →
  let acc' := process_one customer_details acc doc_type in
  overall_confidence acc' = total_score (scored acc') ∧
  documents_processed acc' = length (scored acc') ∧
  Forall (fun entry => (0 <= entry.2 <= 1)%Q) (scored acc').
Proof.
  intros Htotal Hcount Hrange. cbn zeta. unfold process_one.
  destruct (awaits_verification customer_details doc_type); [|done].
  pose proof (_analyze_document_range doc_type customer_details (loop_world acc))
    as Hscore.
  destruct (_analyze_document doc_type customer_details (loop_world acc))
    as [score w1].
  cbn [overall_confidence scored documents_processed fst] in *.
  rewrite total_score_snoc, Htotal, length_app, Hcount. cbn [snd length].
  split; [done|]. split; [lia|].
  apply Forall_app. split; [done|]. by apply Forall_singleton.
Qed.

Lemma process_loop_totals (customer_details : pydict) (todo : list string) :
  ∀ acc : loop_state,
    overall_confidence acc = total_score (scored acc) →
    documents_processed acc = length (scored acc) →
    Forall (fun entry => (0 <= entry.2 <= 1)%Q) (scored acc) →
    let acc' := foldl (process_one customer_details) acc todo in
    overall_confidence acc' = total_score (scored acc') ∧
    documents_processed acc' = length (scored acc') ∧
    Forall (fun entry => (0 <= entry.2 <= 1)%Q) (scored acc').
Proof.
  induction todo as [|doc_type todo IH]; intros acc Htotal Hcount Hrange;
    [done|].
  cbn [foldl].
  destruct (process_one_totals customer_details acc doc_type Htotal Hcount Hrange)
    as (Ht & Hc & Hr).
  by apply IH.
Qed.

Lemma total_score_range (scores : list (string * Q)) :
  Forall (fun entry => (0 <= entry.2 <= 1)%Q) scores →
  (0 <= total_score scores <= inject_Z (Z.of_nat (length scores)))%Q.
Proof.
  induction scores as [|entry scores IH] using rev_ind; intros Hrange.
  - split; apply Qle_refl.
  - apply Forall_app in Hrange as [Hscores Hentry].
    rewrite Forall_singleton in Hentry.
    specialize (IH Hscores). rewrite total_score_snoc, length_app.
    cbn [length]. rewrite Nat.add_1_r, Nat2Z.inj_succ. unfold Z.succ.
    rewrite inject_Z_plus. change (inject_Z 1) with 1%Q.
    set (n := inject_Z (Z.of_nat (length scores))) in *.
    set (t := total_score scores) in *. clearbody n t. lra.
Qed.

Lemma mean_score_range (scores : list (string * Q)) :
  scores ≠ [] →
  Forall (fun entry => (0 <= entry.2 <= 1)%Q) scores →
  (0 <= mean_score scores <= 1)%Q.
Proof.
  intros Hsome Hrange. apply total_score_range in Hrange as [Hlo Hhi].
  unfold mean_score.
  assert (0 < inject_Z (Z.of_nat (length scores)))%Q as Hpos.
  { change 0%Q with (inject_Z 0). rewrite <- Zlt_Qlt.
    destruct scores; [done|]. cbn [length]. lia. }
  split.
  - apply Qle_shift_div_l; [done|]. lra.
  - apply Qle_shift_div_r; [done|]. lra.
Qed.

(** What a call that scored at least one document has done. *)
Lemma process_documents_scored (state_data customer_details : pydict)
    (w w' : world) (c : cycle) :
  state_data !! "customer_details" = Some (PDict customer_details) →
  _process_documents state_data w = (Ok c, w') →
  log c ≠ [] →
  ∃ (results : pydict) (history : list pyval) (text stamp : string),
    Forall (fun entry => (0 <= entry.2 <= 1)%Q) (log c) ∧
    Py.dict_get state_data "messages" (PList []) = PList history ∧
    state_after c
    = <["customer_details" :=
          PDict (<["income_proof_verification_time" := PStr stamp]>
                   (<["income_proof" := PBool (ge_half (mean_score (log c)))]>
                      (<["income_proof_confidence" :=
                           PFloat (mean_score (log c))]> results))
                 ∪ customer_details)]>
        (<["messages" :=
             PList (history ++
                    [PDict (list_to_map [("role", PStr "assistant");
                                         ("content", PStr text)])])]>
           state_data) ∧
    returned c = true ∧
    written c = Some (state_after c).
Proof.
  intros Hcd. unfold _process_documents, Py.dict_get. rewrite Hcd.
  cbn [default from_option id].
  destruct (process_loop_totals customer_details document_types
              (LoopState ∅ 0 0 false [] w) eq_refl eq_refl (Forall_nil_2 _))
    as (Htotal & Hcount & Hrange).
  pose proof (process_loop_invariant customer_details document_types []
                (LoopState ∅ 0 0 false [] w) eq_refl
                (initial_invariant customer_details w)) as Hinv.
  cbn [app] in Hinv.
  set (acc := foldl (process_one customer_details)
                    (LoopState ∅ 0 0 false [] w) document_types) in *.
  case_decide as Hprocessed.
  - destruct (state_data !! "messages") as [messages|] eqn:Hmessages;
      cbn [default from_option id Py.append];
      [destruct messages as [| | | | |history|]; try done|].
    all: intros [= <- _] Hlog; cbn [log state_after returned written] in *.
    all: unfold mean_score; rewrite <- Htotal, <- Hcount.
    all: rewrite (inv_modified _ _ _ Hinv).
    all: destruct (scored acc) as [|entry rest] eqn:Hscored; [done|].
    all: cbn [length Nat.eqb negb].
    all: eexists _, _, _, _; split; [done|]; split; [reflexivity|].
    all: split; [reflexivity|done].
  - intros [= <- _] Hlog. cbn [log] in Hlog.
    rewrite Hcount in Hprocessed. destruct (scored acc); [done|].
    cbn in Hprocessed. lia.
Qed.

(** X18.  A call of [_process_documents] that scores at least one
    document returns [True], writes the state it leaves, and stores as
    [income_proof_confidence] the mean of the scores it logged, a number
    in [0, 1]; the stored [income_proof] flag is set exactly when that mean
    is at least 0.5. *)
Theorem income_proof_confidence_is_mean
    (state_data customer_details : pydict) (w w' : world) (c : cycle) :
  state_data !! "customer_details" = Some (PDict customer_details) →
  _process_documents state_data w = (Ok c, w') →
  log c ≠ [] →
  let mean := mean_score (log c) in
  (0 <= mean <= 1)%Q ∧
  returned c = true ∧
  written c = Some (state_after c) ∧
  ∃ merged : pydict,
    state_after c !! "customer_details" = Some (PDict merged) ∧
    merged !! "income_proof_confidence" = Some (PFloat mean) ∧
    merged !! "income_proof" = Some (PBool (ge_half mean)) ∧
    (merged !! "income_proof" = Some (PBool true) ↔ (1 # 2 <= mean)%Q).
Proof.
  intros Hcd Hrun Hlog mean.
  destruct (process_documents_scored _ _ _ _ _ Hcd Hrun Hlog)
    as (results & history & text & stamp & Hrange & _ & Hafter & Hret & Hwritten).
  split; [by apply mean_score_range|]. split; [done|]. split; [done|].
  rewrite Hafter. eexists. split; [by rewrite lookup_insert_eq|].
  match goal with
  | |- _ ∧ ?m !! "income_proof" = _ ∧ _ =>
      assert (m !! "income_proof" = Some (PBool (ge_half mean))) as Hflag
  end.
  { apply lookup_union_Some_l.
    rewrite lookup_insert_ne by done. apply lookup_insert_eq. }
  split; [|split; [done|]].
  - apply lookup_union_Some_l.
    rewrite !lookup_insert_ne by done. apply lookup_insert_eq.
  - rewrite Hflag, <- ge_half_iff. split; [by intros [= ->]|by intros ->].
Qed.

(** X19.  [_process_documents] changes two entries of the state and no
    other: [customer_details], and [messages], which is untouched when no
    document was scored and otherwise gains exactly one message at its
    end, of role "assistant" and without a timestamp. *)
Theorem process_documents_appends_one_message
    (state_data customer_details : pydict) (w w' : world) (c : cycle) :
  state_data !! "customer_details" = Some (PDict customer_details) →
  _process_documents state_data w = (Ok c, w') →
  (∀ key, key ≠ "customer_details" → key ≠ "messages" →
          state_after c !! key = state_data !! key) ∧
  (log c = [] → state_after c !! "messages" = state_data !! "messages") ∧
  (log c ≠ [] →
   ∃ (history : list pyval) (text : string),
     Py.dict_get state_data "messages" (PList []) = PList history ∧
     state_after c !! "messages"
     = Some (PList (history ++
                    [PDict (list_to_map [("role", PStr "assistant");
                                         ("content", PStr text)])]))).
Proof.
  intros Hcd Hrun.
  destruct (decide (log c = [])) as [Hnone|Hsome].
  - destruct (process_documents_outcome _ _ _ _ _ Hcd Hrun)
      as (acc & results & _ & Hlog & _ & _ & _ & _ & Hquiet).
    rewrite Hlog in Hnone. destruct (Hquiet Hnone) as [_ ->].
    split; [|split; [|intros Hsome; by rewrite Hlog in Hsome]].
    + intros key Hkey _. by rewrite lookup_insert_ne.
    + intros _. by rewrite lookup_insert_ne.
  - destruct (process_documents_scored _ _ _ _ _ Hcd Hrun Hsome)
      as (results & history & text & stamp & _ & Hhistory & -> & _).
    split; [|split; [done|]].
    + intros key Hkey Hkey'. by rewrite !lookup_insert_ne.
    + intros _. exists history, text. split; [done|].
      by rewrite lookup_insert_ne, lookup_insert_eq.
Qed.

(** X20.  When a document awaits verification and the [messages] entry
    of the state is not a list, [_process_documents] raises the
    [AttributeError] of the failed [append], and the pass of
    the monitor ends there: nothing is written and the state is as it
    was. *)
Theorem process_documents_needs_message_list
    (state_data : pydict) (messages : pyval) (w : world) :
  _has_unverified_documents state_data = Ok true →
  state_data !! "messages" = Some messages →
  (∀ history, messages ≠ PList history) →
  ∃ e w',
    _process_documents state_data w = (Raise e, w') ∧
    e = Py.AttributeError messages "append" ∧
    monitor_pass state_data w = ([], state_data, w').
Proof.
  intros Hpending Hmessages Hkind.
  unfold monitor_pass. rewrite Hpending.
  unfold _has_unverified_documents in Hpending.
  destruct (state_data !! "customer_details") as [held|] eqn:Hcd; [|done].
  destruct held as [| | | | | |customer_details]; try done.
  assert (existsb (awaits_verification customer_details) document_types = true)
    as Hsome by congruence.
  apply existsb_exists in Hsome as (doc_type & Hdt%list_elem_of_In & Hawaits).
  unfold _process_documents, Py.dict_get. rewrite Hcd, Hmessages.
  cbn [default from_option id].
  pose proof (process_loop_invariant customer_details document_types []
                (LoopState ∅ 0 0 false [] w) eq_refl
                (initial_invariant customer_details w)) as Hinv.
  cbn [app] in Hinv.
  set (acc := foldl (process_one customer_details)
                    (LoopState ∅ 0 0 false [] w) document_types) in *.
  destruct (inv_results _ _ _ Hinv doc_type Hdt Hawaits) as (score & Hin & _).
  rewrite decide_True.
  - destruct messages; try by eexists _, _.
    by destruct (Hkind l).
  - rewrite (inv_count _ _ _ Hinv). destruct (scored acc); [|cbn; lia].
    by apply not_elem_of_nil in Hin.
Qed.


(** *** The overall verification status *)

Lemma all_verified_dict (status : pydict) :
  all_verified (PDict status)
  = Ok (forallb (fun key => Py.truthy (Py.dict_get status key (PBool false)))
          required_verifications).
Proof.
  unfold all_verified.
  induction required_verifications as [|key keys IH]; [done|].
  cbn [foldr]. rewrite IH. cbn [forallb Py.get mbind result_bind].
  by destruct (Py.truthy _).
Qed.

Lemma update_verification_status_run
    (state_data customer_details status : pydict) (w : world) :
  Py.dict_get state_data "customer_details" (PDict ∅) = PDict customer_details →
  Py.dict_get state_data "verification_status" (PDict ∅) = PDict status →
  _update_verification_status state_data w
  = if is_True (Py.dict_get customer_details "income_proof" PNone)
    then
      let status1 : pydict :=
        <["income_proof_verification_time" :=
            Py.dict_get customer_details "income_proof_verification_time" PNone]>
          (<["income_proof_confidence" :=
               Py.dict_get customer_details "income_proof_confidence" (PFloat 0)]>
             (<["income_proof_verified" := PBool true]> status)) in
      if forallb (fun key => Py.truthy (Py.dict_get status key (PBool false)))
           required_verifications
      then
        let state_data' :=
          <["verification_status" :=
              PDict (<["completion_time" :=
                         PStr (isoformat (now (clock_reads w)))]>
                       (<["status" := PStr "completed"]>
                          (<["verified" := PBool true]> status1)))]>
            state_data in
        (Ok (StatusUpdate true state_data' (Some state_data')), tick w)
      else
        let state_data' := <["verification_status" := PDict status1]> state_data in
        (Ok (StatusUpdate true state_data' (Some state_data')), w)
    else
      (Ok (StatusUpdate false (<["verification_status" := PDict status]> state_data)
             None), w).
Proof.
  intros Hcd Hstatus. unfold _update_verification_status.
  rewrite Hcd, Hstatus. cbn [Py.get mbind result_bind].
  destruct (is_True _); [|done].
  cbn [Py.setitem mbind result_bind]. rewrite all_verified_dict.
  cbn [mbind result_bind].
  assert (forallb
            (fun key =>
               Py.truthy
                 (Py.dict_get
                    (<["income_proof_verification_time" :=
                         Py.dict_get customer_details
                           "income_proof_verification_time" PNone]>
                       (<["income_proof_confidence" :=
                            Py.dict_get customer_details "income_proof_confidence"
                              (PFloat 0)]>
                          (<["income_proof_verified" := PBool true]> status)))
                    key (PBool false)))
            required_verifications
          = forallb (fun key => Py.truthy (Py.dict_get status key (PBool false)))
              required_verifications) as ->.
  { unfold required_verifications, Py.dict_get. cbn [forallb].
    by rewrite !lookup_insert_ne by done. }
  by destruct (forallb _ _).
Qed.

(** X21.  On a state whose customer details and verification status
    are dictionaries, [_update_verification_status] returns whether
    [income_proof] is [True], and writes the state exactly then.  It
    touches at most six entries of the verification status; without an
    income proof it changes none; with one it sets
    [income_proof_verified] and copies the confidence, and it sets
    [verified] exactly when the customer, phone, address and account
    verifications are all set, reading the clock only then. *)
Theorem update_verification_status_effect
    (state_data customer_details status : pydict) (w : world) :
  Py.dict_get state_data "customer_details" (PDict ∅) = PDict customer_details →
  Py.dict_get state_data "verification_status" (PDict ∅) = PDict status →
  let income_proof :=
    is_True (Py.dict_get customer_details "income_proof" PNone) in
  let complete :=
    forallb (fun key => Py.truthy (Py.dict_get status key (PBool false)))
      required_verifications in
  ∃ (status' : pydict) (update : status_update),
    _update_verification_status state_data w
    = (Ok update, if income_proof && complete then tick w else w) ∧
    update_state update = <["verification_status" := PDict status']> state_data ∧
    update_returned update = income_proof ∧
    update_written update
    = (if income_proof then Some (update_state update) else None) ∧
    (∀ key, key ∉ ["income_proof_verified"; "income_proof_confidence";
                   "income_proof_verification_time"; "verified"; "status";
                   "completion_time"] →
            status' !! key = status !! key) ∧
    (income_proof = false → status' = status) ∧
    (income_proof = true →
     status' !! "income_proof_verified" = Some (PBool true) ∧
     status' !! "income_proof_confidence"
     = Some (Py.dict_get customer_details "income_proof_confidence" (PFloat 0)) ∧
     status' !! "verified"
     = (if complete then Some (PBool true) else status !! "verified")).
Proof.
  intros Hcd Hstatus income_proof complete.
  rewrite (update_verification_status_run _ _ _ _ Hcd Hstatus).
  fold income_proof complete.
  destruct income_proof; [destruct complete|]; cbn [andb].
  - eexists _, _. split; [reflexivity|]. split; [reflexivity|].
    split; [done|]. split; [done|]. split; [|split; [done|]].
    + intros key Hkey. rewrite !lookup_insert_ne; [done|set_solver..].
    + intros _. split; [|split].
      * rewrite !lookup_insert_ne by done. apply lookup_insert_eq.
      * rewrite !lookup_insert_ne by done. apply lookup_insert_eq.
      * rewrite !lookup_insert_ne by done. apply lookup_insert_eq.
  - eexists _, _. split; [reflexivity|]. split; [reflexivity|].
    split; [done|]. split; [done|]. split; [|split; [done|]].
    + intros key Hkey. rewrite !lookup_insert_ne; [done|set_solver..].
    + intros _. split; [|split].
      * rewrite !lookup_insert_ne by done. apply lookup_insert_eq.
      * rewrite !lookup_insert_ne by done. apply lookup_insert_eq.
      * by rewrite !lookup_insert_ne by done.
  - exists status. eexists. split; [reflexivity|]. split; [reflexivity|].
    by repeat split.
Qed.


(** *** A pass of the monitor *)

Lemma process_documents_returns (state_data customer_details : pydict)
    (history : list pyval) (w : world) :
  state_data !! "customer_details" = Some (PDict customer_details) →
  Py.dict_get state_data "messages" (PList []) = PList history →
  ∃ c w', _process_documents state_data w = (Ok c, w').
Proof.
  intros Hcd Hmessages. unfold _process_documents.
  rewrite Hmessages. unfold Py.dict_get. rewrite Hcd.
  cbn [default from_option id Py.append].
  case_decide; by eexists _, _.
Qed.

Lemma pending_document_is_scored (state_data customer_details : pydict)
    (w w' : world) (c : cycle) :
  state_data !! "customer_details" = Some (PDict customer_details) →
  _has_unverified_documents state_data = Ok true →
  _process_documents state_data w = (Ok c, w') →
  log c ≠ [].
Proof.
  intros Hcd Hpending Hrun.
  unfold _has_unverified_documents in Hpending. rewrite Hcd in Hpending.
  assert (existsb (awaits_verification customer_details) document_types = true)
    as Hsome by congruence.
  apply existsb_exists in Hsome as (doc_type & Hdt%list_elem_of_In & Hawaits).
  destruct (process_documents_outcome _ _ _ _ _ Hcd Hrun)
    as (acc & results & Hinv & Hlog & _).
  destruct (inv_results _ _ _ Hinv doc_type Hdt Hawaits) as (score & Hin & _).
  rewrite Hlog. intros Hnone. rewrite Hnone in Hin.
  by apply not_elem_of_nil in Hin.
Qed.

(** X22.  A pass of [monitor_for_documents] on a state with a document
    awaiting verification scores at least one document.  If the mean of
    the scores is at least 0.5, the state it leaves has
    [income_proof_verified] set and the mean as [income_proof_confidence]
    in its verification status, and the file has been written twice, last
    with that state; otherwise the verification status is as before and
    the file has been written once. *)
Theorem monitor_pass_publishes_income_proof
    (state_data customer_details status : pydict) (history : list pyval)
    (w : world) :
  state_data !! "customer_details" = Some (PDict customer_details) →
  Py.dict_get state_data "verification_status" (PDict ∅) = PDict status →
  Py.dict_get state_data "messages" (PList []) = PList history →
  _has_unverified_documents state_data = Ok true →
  let scores := scores_of_cycle state_data w in
  let writes := (monitor_pass state_data w).1.1 in
  let final := (monitor_pass state_data w).1.2 in
  scores ≠ [] ∧
  ∃ status' : pydict,
    final !! "verification_status" = Some (PDict status') ∧
    if ge_half (mean_score scores)
    then status' !! "income_proof_verified" = Some (PBool true) ∧
         status' !! "income_proof_confidence" = Some (PFloat (mean_score scores)) ∧
         length writes = 2 ∧
         last writes = Some final
    else status' = status ∧ length writes = 1.
Proof.
  intros Hcd Hstatus Hmessages Hpending scores writes final.
  destruct (process_documents_returns _ _ _ w Hcd Hmessages) as (c & w' & Hrun).
  pose proof (pending_document_is_scored _ _ _ _ _ Hcd Hpending Hrun) as Hlog.
  assert (scores = log c) as Hscores
    by (subst scores; unfold scores_of_cycle; by rewrite Hrun).
  split; [by rewrite Hscores|].
  destruct (process_documents_scored _ _ _ _ _ Hcd Hrun Hlog)
    as (results & history' & text & stamp & _ & _ & Hafter & _ & Hwritten).
  destruct (monitor_pass state_data w) as [[writes' final'] w''] eqn:Hpass.
  subst writes final. cbn [fst snd].
  unfold monitor_pass in Hpass. rewrite Hpending, Hrun, Hwritten in Hpass.
  rewrite <- Hscores in Hafter.
  set (mean := mean_score scores) in *.
  set (merged := <["income_proof_verification_time" := PStr stamp]>
                   (<["income_proof" := PBool (ge_half mean)]>
                      (<["income_proof_confidence" := PFloat mean]> results))
                 ∪ customer_details) in *.
  assert (Py.dict_get (state_after c) "customer_details" (PDict ∅) = PDict merged)
    as Hcd'.
  { unfold Py.dict_get. by rewrite Hafter, lookup_insert_eq. }
  assert (Py.dict_get (state_after c) "verification_status" (PDict ∅)
          = PDict status) as Hstatus'.
  { unfold Py.dict_get in *. by rewrite Hafter, !lookup_insert_ne. }
  assert (is_True (Py.dict_get merged "income_proof" PNone) = ge_half mean)
    as Hflag.
  { unfold Py.dict_get. subst merged.
    erewrite lookup_union_Some_l;
      [|rewrite lookup_insert_ne by done; apply lookup_insert_eq].
    by destruct (ge_half mean). }
  assert (Py.dict_get merged "income_proof_confidence" (PFloat 0) = PFloat mean)
    as Hconf.
  { unfold Py.dict_get. subst merged.
    erewrite lookup_union_Some_l;
      [done|rewrite !lookup_insert_ne by done; apply lookup_insert_eq]. }
  rewrite (update_verification_status_run _ _ _ _ Hcd' Hstatus') in Hpass.
  rewrite Hflag, Hconf in Hpass.
  destruct (ge_half mean).
  - cbn zeta in Hpass.
    destruct (forallb _ _);
      cbn [fst snd update_state update_written option_list app] in Hpass;
      injection Hpass as <- <- <-.
    all: eexists; split; [by rewrite lookup_insert_eq|].
    all: split; [rewrite !lookup_insert_ne by done; apply lookup_insert_eq|].
    all: split; [rewrite !lookup_insert_ne by done; apply lookup_insert_eq|].
    all: done.
  - cbn [fst snd update_state update_written option_list app] in Hpass.
    injection Hpass as <- <- <-.
    exists status. split; [by rewrite lookup_insert_eq|]. done.
Qed.

End VerifierProperties.

(** ** The letter generator *)

Section GeneratorProperties.
Context `{PyRuntime}.
Import StateManager SanctionLetterGenerator.

(** X23.  When [SanctionLetterGenerator.process] returns, it has changed
    the attribute [documentation_status] and nothing else; the status it
    records is "error", "pending" or "completed"; a [document_path] is
    recorded exactly with "completed", and then the underwriting status was
    "approved", "conditional_approval" or "rejected", the document type is
    the matching letter, and the path is the truthy result of that
    letter's generator. *)
Theorem generator_documents_its_outcome
    (generate : letter → pyval → pyval → pyval → pyval → pyval)
    (o o' : state_object) :
  process generate o = Ok o' →
  (∀ name, name ≠ "documentation_status" → attrs o' !! name = attrs o !! name) ∧
  has_add_message o' = has_add_message o ∧
  ∃ (status : pydict) (outcome : string),
    attrs o' !! "documentation_status" = Some (PDict status) ∧
    status !! "status" = Some (PStr outcome) ∧
    outcome ∈ ["error"; "pending"; "completed"] ∧
    (is_Some (status !! "document_path") ↔ outcome = "completed") ∧
    (outcome = "completed" →
     ∃ (kind : letter) (customer_id customer_details loan_details : pyval)
       (underwriting_status : pydict),
       attr_or_empty o "underwriting_status" = Ok (PDict underwriting_status) ∧
       underwriting_status !! "status" = Some (PStr (issued_for kind)) ∧
       status !! "document_type" = Some (PStr (document_type kind)) ∧
       status !! "document_path"
       = Some (generate kind customer_id customer_details loan_details
                 (PDict underwriting_status)) ∧
       Py.truthy (generate kind customer_id customer_details loan_details
                    (PDict underwriting_status)) = true).
Proof.
  intros Hrun. pattern o'.
  match goal with |- ?P o' => set (documented := P) end.
  assert (∀ outcome reason : string,
            outcome ∈ ["error"; "pending"] →
            documented
              (setattr "documentation_status"
                 (PDict (list_to_map [("status", PStr outcome);
                                      ("reason", PStr reason)])) o))
    as Hfailed.
  { intros outcome reason Houtcome. subst documented.
    cbn [attrs setattr has_add_message].
    split; [intros name Hname; by rewrite lookup_insert_ne|]. split; [done|].
    eexists _, outcome. split; [by rewrite lookup_insert_eq|].
    split; [reflexivity|]. split; [set_solver|].
    assert (outcome ≠ "completed") as Hne by set_solver.
    split; [|done]. split; [|done].
    intros [path Hpath]. exfalso. revert Hpath.
    cbn [list_to_map foldr fst snd].
    by rewrite !lookup_insert_ne, lookup_empty by done. }
  unfold process in Hrun.
  apply bind_Ok in Hrun as (loan_details & _ & Hrun).
  apply bind_Ok in Hrun as (customer_details & _ & Hrun).
  apply bind_Ok in Hrun as (underwriting_status & Hus & Hrun).
  apply bind_Ok in Hrun as (customer_id & _ & Hrun).
  destruct (Py.truthy customer_id) eqn:Hid; cbn [negb] in Hrun;
    [|injection Hrun as <-; apply Hfailed; set_solver].
  apply bind_Ok in Hrun as (loan_status & Hstatus & Hrun).
  destruct (Py.truthy loan_status) eqn:Hls; cbn [negb] in Hrun;
    [|injection Hrun as <-; apply Hfailed; set_solver].
  destruct underwriting_status as [| | | | | |underwriting]; try done.
  cbn [Py.get] in Hstatus. injection Hstatus as Hstatus.
  unfold Py.dict_get in Hstatus.
  assert (∀ kind,
            Py.eq_str loan_status (issued_for kind) = true →
            documented
              (let pdf_path :=
                 generate kind customer_id customer_details loan_details
                   (PDict underwriting) in
               if Py.truthy pdf_path
               then setattr "documentation_status"
                      (PDict (list_to_map
                                [("status", PStr "completed");
                                 ("document_type", PStr (document_type kind));
                                 ("document_path", pdf_path)])) o
               else setattr "documentation_status"
                      (PDict (list_to_map
                                [("status", PStr "error");
                                 ("reason", PStr (failure_reason kind))])) o))
    as Hissued.
  { intros kind Hkind. cbn zeta.
    destruct (Py.truthy (generate kind _ _ _ _)) eqn:Hpath;
      [|apply Hfailed; set_solver].
    subst documented. cbn [attrs setattr has_add_message].
    split; [intros name Hname; by rewrite lookup_insert_ne|]. split; [done|].
    eexists _, "completed". split; [by rewrite lookup_insert_eq|].
    split; [reflexivity|]. split; [set_solver|].
    split; [split; [done|by eexists]|]. intros _.
    exists kind, customer_id, customer_details, loan_details, underwriting.
    split; [done|]. split; [|by repeat split].
    apply eq_str_true in Hkind. rewrite Hkind in Hstatus.
    destruct (underwriting !! "status"); cbn in Hstatus; by simplify_eq. }
  destruct (Py.eq_str loan_status "approved") eqn:Happroved;
    [injection Hrun as <-; by apply (Hissued sanction_letter)|].
  destruct (Py.eq_str loan_status "conditional_approval") eqn:Hconditional;
    [injection Hrun as <-; by apply (Hissued conditional_approval)|].
  destruct (Py.eq_str loan_status "rejected") eqn:Hrejected;
    [injection Hrun as <-; by apply (Hissued rejection_letter)|].
  injection Hrun as <-. apply Hfailed. set_solver.
Qed.

(** X24.  [SanctionLetterGenerator.process] raises an [AttributeError]
    on a state object without [loan_details], [customer_details] or
    [underwriting_status]; the state object the trigger builds has no
    [underwriting_status], so [process] raises on it for every state
    dictionary, before any letter is generated. *)
Theorem generator_needs_underwriting_status
    (generate : letter → pyval → pyval → pyval → pyval → pyval)
    (render : pydict → result pyval) :
  (∀ (o : state_object) (name : string),
     name ∈ ["loan_details"; "customer_details"; "underwriting_status"] →
     attrs o !! name = None →
     ∃ e, process generate o = Raise e ∧ exn_class e = "AttributeError") ∧
  (∀ state_data : pydict,
     let e := Exn "AttributeError"
                "'ConversationState' object has no attribute 'underwriting_status'" in
     process generate (trigger_state state_data) = Raise e ∧
     SanctionLetterTrigger.process SanctionLetterTrigger.state_object_attributes
       render state_data = Raise e).
Proof.
  split.
  - intros o name Hname Hmissing. unfold process, attr_or_empty, getattr.
    repeat (apply elem_of_cons in Hname as [->|Hname]);
      [| | |by apply elem_of_nil in Hname].
    all: rewrite Hmissing.
    all: repeat (match goal with
                 | |- context [attrs ?o0 !! ?k] => destruct (attrs o0 !! k)
                 end; cbn [mbind result_bind mret result_ret]).
    all: by eexists.
  - intros state_data. cbn zeta. split; reflexivity.
Qed.

End GeneratorProperties.

(** ** The verifier and the trigger on one state *)

Section VerifierAndTrigger.
Context `{PyRuntime}.
Import DocumentVerification.

(** The entries of the state that the trigger's predicate reads. *)
Lemma should_generate_reads (a b : pydict) :
  Py.dict_get a "sanction_letter_id" PNone
  = Py.dict_get b "sanction_letter_id" PNone →
  Py.dict_get a "verification_status" (PDict ∅)
  = Py.dict_get b "verification_status" (PDict ∅) →
  Py.dict_get a "underwriting_result" (PDict ∅)
  = Py.dict_get b "underwriting_result" (PDict ∅) →
  SanctionLetterTrigger.all_fields_set
    (Py.dict_get a "customer_details" (PDict ∅))
    SanctionLetterTrigger.required_customer_fields
  = SanctionLetterTrigger.all_fields_set
      (Py.dict_get b "customer_details" (PDict ∅))
      SanctionLetterTrigger.required_customer_fields →
  Py.dict_get a "loan_details" (PDict ∅)
  = Py.dict_get b "loan_details" (PDict ∅) →
  SanctionLetterTrigger._should_generate_sanction_letter a
  = SanctionLetterTrigger._should_generate_sanction_letter b.
Proof.
  intros Hid Hstatus Hunderwriting Hcustomer Hloan.
  unfold SanctionLetterTrigger._should_generate_sanction_letter.
  by rewrite Hid, Hstatus, Hunderwriting, Hcustomer, Hloan.
Qed.

Lemma forallb_agree {A} (f g : A → bool) (l : list A) :
  (∀ x, x ∈ l → f x = g x) → forallb f l = forallb g l.
Proof.
  induction l as [|x l IH]; [done|]. intros Hfg. cbn [forallb].
  rewrite (Hfg x) by apply list_elem_of_here.
  rewrite IH; [done|]. intros y Hy. by apply Hfg, list_elem_of_further.
Qed.

(** No required customer field is a key the verifier writes. *)
Lemma required_field_not_result (field doc_type : string) :
  field ∈ SanctionLetterTrigger.required_customer_fields →
  doc_type ∈ document_types →
  (field ∉ result_keys doc_type) ∧ (field ∉ aggregate_keys).
Proof.
  intros Hfield Hdt.
  unfold SanctionLetterTrigger.required_customer_fields in Hfield.
  unfold document_types in Hdt. unfold result_keys, aggregate_keys.
  repeat (apply elem_of_cons in Hfield as [->|Hfield]);
    [..|by apply elem_of_nil in Hfield].
  all: repeat (apply elem_of_cons in Hdt as [->|Hdt]);
    [..|by apply elem_of_nil in Hdt].
  all: split; intros Hin.
  all: repeat (apply elem_of_cons in Hin as [Hin|Hin]; [discriminate Hin|]).
  all: by apply elem_of_nil in Hin.
Qed.

(** X28.  The verifier records a failed income proof in
    [customer_details] only, and the trigger reads [verification_status]:
    after a pass of [monitor_for_documents] that scored a document with a
    mean below 0.5, [customer_details] holds [income_proof] [False] and
    that mean as [income_proof_confidence], the verification status is
    the one the pass found, and [_should_generate_sanction_letter]
    returns on the state after the pass what it returned before it.  A
    verification status that allowed the letter before a low score still
    allows it after. *)
Theorem low_score_keeps_trigger_verdict
    (state_data customer_details status : pydict) (history : list pyval)
    (w : world) :
  state_data !! "customer_details" = Some (PDict customer_details) →
  Py.dict_get state_data "verification_status" (PDict ∅) = PDict status →
  Py.dict_get state_data "messages" (PList []) = PList history →
  _has_unverified_documents state_data = Ok true →
  let mean := mean_score (scores_of_cycle state_data w) in
  ge_half mean = false →
  let final := (monitor_pass state_data w).1.2 in
  (∃ merged : pydict,
     final !! "customer_details" = Some (PDict merged) ∧
     merged !! "income_proof" = Some (PBool false) ∧
     merged !! "income_proof_confidence" = Some (PFloat mean)) ∧
  final !! "verification_status" = Some (PDict status) ∧
  SanctionLetterTrigger._should_generate_sanction_letter final
  = SanctionLetterTrigger._should_generate_sanction_letter state_data.
Proof.
  intros Hcd Hstatus Hmessages Hpending mean Hlow final.
  destruct (process_documents_returns _ _ _ w Hcd Hmessages) as (c & w' & Hrun).
  pose proof (pending_document_is_scored _ _ _ _ _ Hcd Hpending Hrun) as Hlog.
  assert (scores_of_cycle state_data w = log c) as Hscores
    by (unfold scores_of_cycle; by rewrite Hrun).
  destruct (process_documents_scored _ _ _ _ _ Hcd Hrun Hlog)
    as (results & history' & text & stamp & _ & _ & Hafter & _ & Hwritten).
  destruct (process_documents_outcome _ _ _ _ _ Hcd Hrun)
    as (acc & results' & Hinv & _ & _ & _ & Hcd'' & Hresults & _).
  rewrite <- Hscores in Hafter. fold mean in Hafter. rewrite Hlow in Hafter.
  set (merged := <["income_proof_verification_time" := PStr stamp]>
                   (<["income_proof" := PBool false]>
                      (<["income_proof_confidence" := PFloat mean]> results))
                 ∪ customer_details) in *.
  assert (merged = results' ∪ customer_details) as Hmerged.
  { rewrite Hafter, lookup_insert_eq in Hcd''. by injection Hcd''. }
  assert (Py.dict_get (state_after c) "customer_details" (PDict ∅) = PDict merged)
    as Hcd'.
  { unfold Py.dict_get. by rewrite Hafter, lookup_insert_eq. }
  assert (Py.dict_get (state_after c) "verification_status" (PDict ∅)
          = PDict status) as Hstatus'.
  { unfold Py.dict_get in *. by rewrite Hafter, !lookup_insert_ne. }
  assert (merged !! "income_proof" = Some (PBool false)) as Hflag.
  { subst merged. apply lookup_union_Some_l.
    rewrite lookup_insert_ne by done. apply lookup_insert_eq. }
  assert (final = <["verification_status" := PDict status]> (state_after c))
    as Hfinal.
  { subst final. unfold monitor_pass. rewrite Hpending, Hrun, Hwritten.
    rewrite (update_verification_status_run _ _ _ _ Hcd' Hstatus').
    unfold Py.dict_get at 1. by rewrite Hflag. }
  split; [|split].
  - exists merged. rewrite Hfinal, lookup_insert_ne by done.
    rewrite Hafter, lookup_insert_eq. split; [done|]. split; [done|].
    unfold merged. apply lookup_union_Some_l.
    rewrite !lookup_insert_ne by done. apply lookup_insert_eq.
  - rewrite Hfinal. apply lookup_insert_eq.
  - apply should_generate_reads; unfold Py.dict_get; rewrite Hfinal.
    + by rewrite lookup_insert_ne, Hafter, !lookup_insert_ne.
    + rewrite lookup_insert_eq. unfold Py.dict_get in Hstatus. by rewrite Hstatus.
    + by rewrite lookup_insert_ne, Hafter, !lookup_insert_ne.
    + rewrite lookup_insert_ne by done. rewrite Hafter, lookup_insert_eq, Hcd.
      cbn [default from_option id].
      rewrite !all_fields_set_dict. f_equal.
      apply forallb_agree. intros field Hfield.
      unfold Py.dict_get. rewrite Hmerged. f_equal. f_equal.
      destruct (verification_results acc !! field) as [v|] eqn:Hv.
      * destruct (inv_keys _ _ _ Hinv field (mk_is_Some _ _ Hv))
          as (doc_type & Hdt & _ & Hkey).
        by destruct (required_field_not_result field doc_type Hfield Hdt).
      * apply (lookup_unmerged _ _ acc); [done| |done].
        apply (required_field_not_result field "salary_slip" Hfield).
        apply list_elem_of_here.
    + by rewrite lookup_insert_ne, Hafter, !lookup_insert_ne.
Qed.

End VerifierAndTrigger.

(** ** The further theorems at concrete inputs *)

(** [determine_next_step_logs_failed_read] at a state in sales exploration
    whose [loan_details] is [None]. *)
Lemma determine_next_step_logs_failed_read_witness :
  let rt := sample_runtime 0 in
  let st :=
    with_details (PStr "CUST001") PNone (PDict ∅) PNone MasterAgent.PENDING
      (MasterAgent.set_stage MasterAgent.SALES_EXPLORATION
         (MasterAgent.__init__ (World 0 0)).1) in
  Py.get (MasterAgent.loan_details st) "amount" PNone
  = Raise (Py.AttributeError PNone "get") ∧
  ∃ out st',
    MasterAgent._determine_next_step (MasterAgent.AsState st) (World 1 1)
    = (Ok out, Some st', World 2 1) ∧
    out !! "next_agent" = Some (PStr "generate_response") ∧
    MasterAgent.stage st' = MasterAgent.SALES_EXPLORATION.
Proof.
  intros rt st. split; [reflexivity|].
  destruct (@determine_next_step_logs_failed_read rt st (World 1 1)
              (Py.AttributeError PNone "get") []
              (or_introl (conj eq_refl eq_refl)) eq_refl) as [Hrun Hstage].
  eexists _, _. split; [exact Hrun|]. split; [reflexivity|exact Hstage].
Defined.

(** [complete_application_reaches_closure] at an approved application
    that holds its sanction letter, from the greeting stage. *)
Lemma complete_application_reaches_closure_witness :
  let rt := sample_runtime 0 in
  let loan : pydict := list_to_map [("amount", PInt 500000); ("tenure", PInt 36)] in
  let verification : pydict := {[ "verified" := PBool true ]} in
  let st :=
    with_details (PStr "CUST001") (PDict loan) (PDict verification)
      (PStr "output/sanction_letter.pdf") MasterAgent.APPROVED
      (MasterAgent.__init__ (World 0 0)).1 in
  MasterAgent.stage st = MasterAgent.GREETING ∧
  MasterAgent.stage (MasterAgent.passes 7 st (World 1 1)).1 = MasterAgent.CLOSURE ∧
  MasterAgent.next_agent (MasterAgent.passes 7 st (World 1 1)).1 = PStr "end".
Proof.
  intros rt loan verification st. split; [reflexivity|].
  rewrite (@complete_application_reaches_closure rt st loan verification
             (World 1 1) 7 eq_refl eq_refl eq_refl eq_refl eq_refl eq_refl
             (or_introl (conj eq_refl eq_refl)) (le_n 7)).
  split; reflexivity.
Defined.

(** [from_dict_reads_only_its_keys] at the key "recursion_depth". *)
Lemma from_dict_reads_only_its_keys_witness :
  let rt := sample_runtime 0 in
  let data : pydict := {[ "stage" := PStr "verification" ]} in
  ("recursion_depth" ∉ MasterAgent.from_dict_keys) ∧
  MasterAgent.from_dict (<["recursion_depth" := PInt 30]> data) (World 0 0)
  = MasterAgent.from_dict data (World 0 0).
Proof.
  intros rt data.
  assert ("recursion_depth" ∉ MasterAgent.from_dict_keys) as Hkey
    by (apply (bool_decide_unpack _); vm_compute; exact I).
  split; [exact Hkey|].
  exact (proj1 (@from_dict_reads_only_its_keys rt data "recursion_depth" (PInt 30)
                  (World 0 0) Hkey)).
Defined.

(** [from_dict_missing_keys_give_fresh_state] at the dictionary the graph
    is invoked with. *)
Lemma from_dict_missing_keys_give_fresh_state_witness :
  let rt := sample_runtime 0 in
  let data : pydict := {[ "message" := PStr "Hello" ]} in
  MasterAgent.from_dict data (World 3 2)
  = (Ok (MasterAgent.__init__ (World 3 2)).1, World 4 3).
Proof.
  intros rt data.
  apply (@from_dict_missing_keys_give_fresh_state rt data (World 3 2)).
  - reflexivity.
  - intros k Hk. apply lookup_singleton_ne. intros <-. revert Hk.
    apply (bool_decide_unpack _). vm_compute. exact I.
Defined.

(** [process_message_result_shape] at a fresh state and a graph that
    answers without a state. *)
Lemma process_message_result_shape_witness :
  let rt := sample_runtime 0 in
  let graph : pydict → result pyval :=
    fun _ => Ok (PDict {[ "response" := PStr "Welcome to Tata Capital" ]}) in
  let st := (MasterAgent.__init__ (World 0 0)).1 in
  ∃ out st' w',
    MasterAgent.process_message graph "Hello" st (World 1 1) = (Ok out, st', w') ∧
    out !! "stage" = Some (PStr (MasterAgent.stage_value (MasterAgent.stage st'))) ∧
    out !! "state" = Some (PDict (MasterAgent.to_dict st')) ∧
    ∃ agent, out !! "next_agent" = Some agent ∧ Py.truthy agent = true.
Proof.
  intros rt graph st.
  assert (∃ out st' w',
            MasterAgent.process_message graph "Hello" st (World 1 1)
            = (Ok out, st', w')) as (out & st' & w' & Hrun)
    by (eexists _, _, _; reflexivity).
  destruct (@process_message_result_shape rt graph "Hello" st (World 1 1)
              out st' w' Hrun) as (_ & Hstage & _ & Hagent & Hstate).
  exists out, st', w'. split; [exact Hrun|]. split; [exact Hstage|].
  split; [exact Hstate|exact Hagent].
Defined.

(** [process_message_without_graph_state] at a fresh state. *)
Lemma process_message_without_graph_state_witness :
  let rt := sample_runtime 0 in
  let reply : pydict := {[ "response" := PStr "Welcome to Tata Capital" ]} in
  let graph : pydict → result pyval := fun _ => Ok (PDict reply) in
  let st := (MasterAgent.__init__ (World 0 0)).1 in
  ∃ out st',
    MasterAgent.process_message graph "Hello" st (World 1 1)
    = (Ok out, st', World 6 2) ∧
    out !! "response" = Some (PStr "Welcome to Tata Capital") ∧
    ∃ first second,
      MasterAgent.messages st' = PList [PDict first; PDict second] ∧
      first !! "content" = Some (PStr "Hello") ∧
      second !! "content" = Some (PStr "Welcome to Tata Capital").
Proof.
  intros rt reply graph st.
  destruct (@process_message_without_graph_state rt graph "Hello" st (World 1 1)
              [] MasterAgent.initial_loan_details reply
              (fun t => eq_refl) eq_refl eq_refl eq_refl)
    as (out & st' & Hrun & Hresponse & Hmessages & _).
  - apply (bool_decide_unpack _). vm_compute. exact I.
  - reflexivity.
  - exists out, st'. split; [exact Hrun|]. split; [exact Hresponse|].
    eexists _, _. split; [exact Hmessages|]. split; reflexivity.
Defined.

(** [merge_leaves_other_attributes] at the attribute [session_id]. *)
Lemma merge_leaves_other_attributes_witness :
  let rt := sample_runtime 0 in
  let snapshot : pydict :=
    list_to_map [("decision", PStr "approved"); ("session_id", PStr "S2")] in
  let run := StateManager._update_state_from_dict snapshot sample_state_object
               (World 0 0) in
  ("session_id" ∉ StateManager.merged_attributes) ∧
  StateManager.attrs run.1.2 !! "session_id" = Some (PStr "S1").
Proof.
  intros rt snapshot run.
  assert ("session_id" ∉ StateManager.merged_attributes) as Hname
    by (apply (bool_decide_unpack _); vm_compute; exact I).
  split; [exact Hname|].
  exact (proj1 (@merge_leaves_other_attributes rt snapshot "session_id"
                  sample_state_object (World 0 0) Hname)).
Defined.

(** [merge_takes_snapshot_values] at the attribute [decision]. *)
Lemma merge_takes_snapshot_values_witness :
  let rt := sample_runtime 0 in
  let snapshot : pydict :=
    list_to_map [("decision", PStr "approved"); ("session_id", PStr "S2")] in
  let run := StateManager._update_state_from_dict snapshot sample_state_object
               (World 0 0) in
  run.1.1 = None ∧
  StateManager.attrs run.1.2 !! "decision" = Some (PStr "approved").
Proof.
  intros rt snapshot run.
  assert (run.1.1 = None) as Hok by (vm_compute; reflexivity).
  split; [exact Hok|].
  apply (@merge_takes_snapshot_values rt snapshot "decision" (PStr "approved")
           sample_state_object (World 0 0)).
  - apply (bool_decide_unpack _). vm_compute. exact I.
  - reflexivity.
  - exact Hok.
Defined.

(** [merge_never_removes_attribute] at a snapshot on which the merge
    raises. *)
Lemma merge_never_removes_attribute_witness :
  let rt := sample_runtime 0 in
  let snapshot : pydict := {[ "messages" := PNone ]} in
  let run := StateManager._update_state_from_dict snapshot sample_state_object
               (World 0 0) in
  is_Some (run.1.1) ∧
  is_Some (StateManager.attrs run.1.2 !! "session_id").
Proof.
  intros rt snapshot run. split.
  - apply (bool_decide_unpack _). vm_compute. exact I.
  - apply (@merge_never_removes_attribute rt snapshot sample_state_object
             (World 0 0) "session_id").
    apply (bool_decide_unpack _). vm_compute. exact I.
Defined.

(** [merge_sanction_letter_completes_documentation] at a snapshot that
    carries a sanction letter id. *)
Lemma merge_sanction_letter_completes_documentation_witness :
  let rt := sample_runtime 0 in
  let letter := PStr "output/sanction_letter_CUST001.pdf" in
  let snapshot : pydict := {[ "sanction_letter_id" := letter ]} in
  let run := StateManager._update_state_from_dict snapshot sample_state_object
               (World 0 0) in
  StateManager.attrs sample_state_object !! "documentation_status" = Some PNone ∧
  ∃ status : pydict,
    StateManager.attrs run.1.2 !! "documentation_status" = Some (PDict status) ∧
    status !! "status" = Some (PStr "completed") ∧
    status !! "document_path" = Some letter.
Proof.
  intros rt letter snapshot run. split; [reflexivity|].
  refine (proj2 (@merge_sanction_letter_completes_documentation rt snapshot letter
                   sample_state_object (World 0 0) eq_refl _ _)).
  - apply (bool_decide_unpack _). vm_compute. exact I.
  - vm_compute. reflexivity.
Defined.

(** [merge_income_proof_sets_status_flags] at a verified income proof
    with a confidence of 0.8. *)
Lemma merge_income_proof_sets_status_flags_witness :
  let rt := sample_runtime 0 in
  let ipv : pydict :=
    list_to_map [("status", PStr "verified"); ("confidence_score", PFloat (8 # 10))] in
  let snapshot : pydict := {[ "income_proof_verification" := PDict ipv ]} in
  let run := StateManager._update_state_from_dict snapshot sample_state_object
               (World 0 0) in
  ∃ status : pydict,
    StateManager.attrs run.1.2 !! "verification_status" = Some (PDict status) ∧
    status !! "income_proof_verified" = Some (PBool true) ∧
    status !! "income_proof_confidence" = Some (PFloat (8 # 10)) ∧
    status !! "customer_verified" = Some (PBool true).
Proof.
  intros rt ipv snapshot run.
  eexists. split.
  - apply (@merge_income_proof_sets_status_flags rt snapshot ipv
             {[ "customer_verified" := PBool true ]} sample_state_object
             (World 0 0)); [reflexivity|reflexivity|reflexivity|].
    vm_compute. reflexivity.
  - split; [reflexivity|]. split; reflexivity.
Defined.

(** [state_to_dict_contents] at a state whose [documentation_status] is
    [None]. *)
Lemma state_to_dict_contents_witness :
  ∃ d : pydict,
    StateManager._state_to_dict sample_state_object = Ok d ∧
    d !! "decision" = Some (PStr "pending") ∧
    d !! "documentation_status" = None ∧
    d !! "session_id" = None.
Proof.
  assert (∃ d, StateManager._state_to_dict sample_state_object = Ok d)
    as [d Hd] by (eexists; reflexivity).
  destruct (state_to_dict_contents sample_state_object d Hd)
    as (Hrequired & Hoptional & Hother).
  exists d. split; [exact Hd|]. split; [|split].
  - refine (eq_trans (proj2 (Hrequired "decision" _)) eq_refl).
    apply (bool_decide_unpack _). vm_compute. exact I.
  - refine (eq_trans (Hoptional "documentation_status" _) eq_refl).
    apply (bool_decide_unpack _). vm_compute. exact I.
  - apply Hother. apply (bool_decide_unpack _). vm_compute. exact I.
Defined.

(** [save_state_needs_required_attributes] at an object with the
    attributes of the master agent's [ConversationState], which has no
    [extracted_info]. *)
Lemma save_state_needs_required_attributes_witness :
  let rt := sample_runtime 0 in
  let o :=
    StateManager.StateObject
      (list_to_map
         [("session_id", PStr "S1"); ("start_time", PStr "T");
          ("stage", PStr "greeting"); ("customer_id", PNone);
          ("customer_name", PNone); ("customer_phone", PNone);
          ("customer_details", PDict MasterAgent.initial_customer_details);
          ("loan_details", PDict MasterAgent.initial_loan_details);
          ("selected_offer", PDict ∅); ("verification_status", PDict ∅);
          ("underwriting_result", PDict ∅); ("decision", PStr "pending");
          ("sanction_letter_id", PNone); ("messages", PList []);
          ("errors", PList []); ("next_agent", PNone); ("api_retries", PDict ∅);
          ("document_uploads", PDict ∅); ("gemini_history", PList []);
          ("recursion_depth", PInt 0)])
      true in
  StateManager.attrs o !! "extracted_info" = None ∧
  StateManager.save_state (Ok ()) o (World 1 1) = ([], World 1 1).
Proof.
  intros rt o.
  assert (StateManager.attrs o !! "extracted_info" = None) as Hmissing
    by reflexivity.
  split; [exact Hmissing|].
  refine (proj2 (@save_state_needs_required_attributes rt (Ok ()) o (World 1 1)
                   "extracted_info" _ Hmissing)).
  apply (bool_decide_unpack _). vm_compute. exact I.
Defined.

(** [save_then_load_restores_required_attributes] at a runtime whose JSON
    parser yields the saved snapshot. *)
Lemma save_then_load_restores_required_attributes_witness :
  let snapshot : pydict :=
    match StateManager._state_to_dict sample_state_object with
    | Ok d => d
    | Raise _ => ∅
    end in
  let rt := replaying_runtime (PDict (<["last_updated" := PStr "T"]> snapshot)) in
  let loader :=
    StateManager.StateObject
      (list_to_map [("messages", PList []); ("decision", PStr "approved")]) true in
  let file :=
    StateManager.file_after None
      (StateManager.save_state (Ok ()) sample_state_object (World 0 0)).1 in
  file = Some "{dict}" ∧
  ∃ o', (StateManager.load_state (Raise (Exn "ImportError" "conversation_state"))
           file (Some loader) (World 1 0)).1 = Some o' ∧
        StateManager.attrs o' !! "decision" = Some (PStr "pending") ∧
        StateManager.attrs o' !! "conversation_stage" = Some (PStr "verification").
Proof.
  intros snapshot rt loader file.
  destruct (@save_then_load_restores_required_attributes rt
              (Raise (Exn "ImportError" "conversation_state"))
              sample_state_object loader (World 0 0) (World 1 0) snapshot eq_refl)
    as (Hfile & Hload & Hrestored).
  - discriminate.
  - reflexivity.
  - split; [exact Hfile|].
    eexists. split; [exact (f_equal fst Hload)|].
    destruct Hrestored as [_ Hrestored]; [vm_compute; reflexivity|].
    split.
    + refine (eq_trans (Hrestored "decision" _) eq_refl).
      apply (bool_decide_unpack _). vm_compute. exact I.
    + refine (eq_trans (Hrestored "conversation_stage" _) eq_refl).
      apply (bool_decide_unpack _). vm_compute. exact I.
Defined.

(** [analyze_document_type_bounds] at a Form 16, with random draws of 0.5. *)
Lemma analyze_document_type_bounds_witness :
  let rt := sample_runtime (1 # 2) in
  let score := (DocumentVerification._analyze_document "form_16" ∅ (World 0 0)).1 in
  (∀ n, (0 <= random n <= 1)%Q) ∧
  (1 # 2 <= score)%Q ∧
  DocumentVerification.ge_half score = true.
Proof.
  intros rt score.
  assert (∀ n, (0 <= random n <= 1)%Q) as Hrandom
    by (intros n; split; apply Qle_bool_iff; reflexivity).
  split; [exact Hrandom|].
  destruct (@analyze_document_type_bounds rt "form_16" ∅ (World 0 0) Hrandom)
    as (_ & _ & _ & _ & Hform).
  apply Hform. right. reflexivity.
Defined.

(** [income_proof_confidence_is_mean] at a state with one uploaded bank
    statement. *)
Lemma income_proof_confidence_is_mean_witness :
  let rt := sample_runtime (1 # 2) in
  let state_data : pydict :=
    {[ "customer_details" := PDict {[ "bank_statement_uploaded" := PBool true ]} ]} in
  let mean :=
    DocumentVerification.mean_score
      (DocumentVerification.scores_of_cycle state_data (World 0 0)) in
  (0 <= mean <= 1)%Q ∧
  DocumentVerification.entry_after_cycle state_data (World 0 0)
    "income_proof_confidence" = Some (PFloat mean) ∧
  DocumentVerification.entry_after_cycle state_data (World 0 0) "income_proof"
  = Some (PBool (DocumentVerification.ge_half mean)).
Proof.
  intros rt state_data mean.
  pose proof (eq_refl : DocumentVerification.scores_of_cycle state_data (World 0 0)
                        = DocumentVerification.scores_of_cycle state_data (World 0 0))
    as Hscores.
  unfold DocumentVerification.scores_of_cycle at 1 in Hscores.
  subst mean. unfold DocumentVerification.entry_after_cycle.
  destruct (DocumentVerification._process_documents state_data (World 0 0))
    as [[c|e] w'] eqn:Hrun; cbn [fst] in *.
  - rewrite <- Hscores.
    destruct (@income_proof_confidence_is_mean rt state_data
                {[ "bank_statement_uploaded" := PBool true ]}
                (World 0 0) w' c eq_refl Hrun)
      as (Hrange & _ & _ & merged & Hmerged & Hconfidence & Hflag & _).
    + rewrite Hscores. vm_compute. discriminate.
    + rewrite Hmerged. split; [exact Hrange|]. split; [exact Hconfidence|exact Hflag].
  - vm_compute in Hscores. discriminate Hscores.
Defined.

(** [process_documents_appends_one_message] at a state with one message
    and one uploaded bank statement. *)
Lemma process_documents_appends_one_message_witness :
  let rt := sample_runtime (1 # 2) in
  let hello : pyval :=
    PDict (list_to_map [("role", PStr "user"); ("content", PStr "Hello")]) in
  let state_data : pydict :=
    list_to_map
      [("customer_details", PDict {[ "bank_statement_uploaded" := PBool true ]});
       ("messages", PList [hello]); ("session_id", PStr "S1")] in
  ∃ c w',
    DocumentVerification._process_documents state_data (World 0 0) = (Ok c, w') ∧
    DocumentVerification.state_after c !! "session_id" = Some (PStr "S1") ∧
    ∃ text,
      DocumentVerification.state_after c !! "messages"
      = Some (PList [hello;
                     PDict (list_to_map [("role", PStr "assistant");
                                         ("content", PStr text)])]).
Proof.
  intros rt hello state_data.
  pose proof (eq_refl : DocumentVerification.scores_of_cycle state_data (World 0 0)
                        = DocumentVerification.scores_of_cycle state_data (World 0 0))
    as Hscores.
  unfold DocumentVerification.scores_of_cycle at 1 in Hscores.
  destruct (DocumentVerification._process_documents state_data (World 0 0))
    as [[c|e] w'] eqn:Hrun; cbn [fst] in *.
  - exists c, w'. split; [reflexivity|].
    destruct (@process_documents_appends_one_message rt state_data
                {[ "bank_statement_uploaded" := PBool true ]}
                (World 0 0) w' c eq_refl Hrun) as (Hframe & _ & Hmessages).
    split; [exact (Hframe "session_id" ltac:(discriminate) ltac:(discriminate))|].
    destruct Hmessages as (history & text & Hhistory & Hafter).
    + rewrite Hscores. vm_compute. discriminate.
    + exists text. injection Hhistory as <-. exact Hafter.
  - vm_compute in Hscores. discriminate Hscores.
Defined.

(** [process_documents_needs_message_list] at a state whose [messages]
    entry is [None]. *)
Lemma process_documents_needs_message_list_witness :
  let rt := sample_runtime (1 # 2) in
  let state_data : pydict :=
    list_to_map
      [("customer_details", PDict {[ "bank_statement_uploaded" := PBool true ]});
       ("messages", PNone)] in
  DocumentVerification._has_unverified_documents state_data = Ok true ∧
  (DocumentVerification.monitor_pass state_data (World 0 0)).1 = ([], state_data).
Proof.
  intros rt state_data.
  assert (DocumentVerification._has_unverified_documents state_data = Ok true)
    as Hpending by (vm_compute; reflexivity).
  split; [exact Hpending|].
  destruct (@process_documents_needs_message_list rt state_data PNone (World 0 0)
              Hpending eq_refl ltac:(discriminate))
    as (e & w' & _ & _ & Hpass).
  exact (f_equal fst Hpass).
Defined.

(** [update_verification_status_effect] at a state with a verified income
    proof and the four other verifications done. *)
Lemma update_verification_status_effect_witness :
  let rt := sample_runtime 0 in
  let customer : pydict :=
    list_to_map [("income_proof", PBool true);
                 ("income_proof_confidence", PFloat (8 # 10))] in
  let status : pydict :=
    list_to_map [("customer_verified", PBool true); ("phone_verified", PBool true);
                 ("address_verified", PBool true);
                 ("account_details_verified", PBool true)] in
  let state_data : pydict :=
    list_to_map [("customer_details", PDict customer);
                 ("verification_status", PDict status)] in
  ∃ (status' : pydict) (update : DocumentVerification.status_update),
    DocumentVerification._update_verification_status state_data (World 0 0)
    = (Ok update, World 1 0) ∧
    DocumentVerification.update_returned update = true ∧
    DocumentVerification.update_state update !! "verification_status"
    = Some (PDict status') ∧
    status' !! "verified" = Some (PBool true) ∧
    status' !! "income_proof_confidence" = Some (PFloat (8 # 10)) ∧
    status' !! "phone_verified" = Some (PBool true).
Proof.
  intros rt customer status state_data.
  destruct (@update_verification_status_effect rt state_data customer status
              (World 0 0) eq_refl eq_refl)
    as (status' & update & Hrun & Hstate & Hreturned & _ & Hframe & _ & Hset).
  exists status', update. split; [exact Hrun|]. split; [exact Hreturned|].
  split; [rewrite Hstate; apply lookup_insert_eq|].
  destruct (Hset eq_refl) as (_ & Hconfidence & Hverified).
  split; [exact Hverified|]. split; [exact Hconfidence|].
  refine (eq_trans (Hframe "phone_verified" _) eq_refl).
  apply (bool_decide_unpack _). vm_compute. exact I.
Defined.

(** [monitor_pass_publishes_income_proof] at a state with one uploaded
    bank statement, with random draws of 0.5. *)
Lemma monitor_pass_publishes_income_proof_witness :
  let rt := sample_runtime (1 # 2) in
  let state_data : pydict :=
    {[ "customer_details" := PDict {[ "bank_statement_uploaded" := PBool true ]} ]} in
  let pass := DocumentVerification.monitor_pass state_data (World 0 0) in
  DocumentVerification._has_unverified_documents state_data = Ok true ∧
  length pass.1.1 = 2 ∧
  ∃ status' : pydict,
    pass.1.2 !! "verification_status" = Some (PDict status') ∧
    status' !! "income_proof_verified" = Some (PBool true).
Proof.
  intros rt state_data pass.
  assert (DocumentVerification._has_unverified_documents state_data = Ok true)
    as Hpending by (vm_compute; reflexivity).
  split; [exact Hpending|].
  destruct (@monitor_pass_publishes_income_proof rt state_data
              {[ "bank_statement_uploaded" := PBool true ]} ∅ [] (World 0 0)
              eq_refl eq_refl eq_refl Hpending)
    as (_ & status' & Hfinal & Hcase).
  assert (DocumentVerification.ge_half
            (DocumentVerification.mean_score
               (DocumentVerification.scores_of_cycle state_data (World 0 0)))
          = true) as Hmean by (vm_compute; reflexivity).
  rewrite Hmean in Hcase. destruct Hcase as (Hverified & _ & Hwrites & _).
  split; [exact Hwrites|]. exists status'. split; [exact Hfinal|exact Hverified].
Defined.

(** [generator_documents_its_outcome] at an approved application. *)
Lemma generator_documents_its_outcome_witness :
  let rt := sample_runtime 0 in
  let generate : SanctionLetterGenerator.letter → pyval → pyval → pyval → pyval → pyval :=
    fun kind _ _ _ _ =>
      PStr ("output/" +:+ SanctionLetterGenerator.document_type kind +:+ "_CUST001.pdf") in
  let o :=
    StateManager.StateObject
      (list_to_map
         [("loan_details", PDict {[ "amount" := PInt 500000 ]});
          ("customer_details", PDict {[ "customer_id" := PStr "CUST001" ]});
          ("underwriting_status", PDict {[ "status" := PStr "approved" ]})])
      true in
  ∃ (o' : StateManager.state_object) (status : pydict),
    SanctionLetterGenerator.process generate o = Ok o' ∧
    StateManager.attrs o' !! "customer_details"
    = Some (PDict {[ "customer_id" := PStr "CUST001" ]}) ∧
    StateManager.attrs o' !! "documentation_status" = Some (PDict status) ∧
    status !! "document_path" = Some (PStr "output/sanction_letter_CUST001.pdf").
Proof.
  intros rt generate o.
  assert (∃ o', SanctionLetterGenerator.process generate o = Ok o')
    as [o' Hrun] by (eexists; reflexivity).
  destruct (@generator_documents_its_outcome rt generate o o' Hrun)
    as (Hframe & _ & _).
  exists o'. eexists. split; [exact Hrun|].
  split; [exact (Hframe "customer_details" ltac:(discriminate))|].
  apply (Ok_inj _ _) in Hrun. rewrite <- Hrun. split; reflexivity.
Defined.

(** [load_state_other_document] at a state file that holds the list
    [["document_uploads"]] and a state whose [document_uploads] is
    [None]. *)
Lemma load_state_other_document_witness :
  let loaded := PList [PStr "document_uploads"] in
  let rt := replaying_runtime loaded in
  let text := json_dumps loaded in
  let o := StateManager.setattr "document_uploads" PNone sample_state_object in
  StateManager.json_load text = Ok loaded ∧
  ∃ o',
    StateManager.load_state (Raise (Exn "ImportError" "conversation_state"))
      (Some text) (Some o) (World 0 0) = (Some o', World 0 0) ∧
    StateManager.attrs o' !! "session_id" = Some (PStr "S1") ∧
    StateManager.attrs o' !! "document_uploads" = Some (PDict ∅).
Proof.
  intros loaded rt text o. split; [reflexivity|].
  destruct (@load_state_other_document rt
              (Raise (Exn "ImportError" "conversation_state")) text loaded o
              (World 0 0) eq_refl ltac:(discriminate))
    as (o' & Hrun & _ & Hframe & Hcase).
  exists o'. split; [exact Hrun|]. split.
  - exact (eq_trans (Hframe "session_id" ltac:(discriminate)) eq_refl).
  - destruct Hcase as [Hsame|(_ & _ & Hnew)]; [|exact Hnew].
    assert (StateManager.load_state (Raise (Exn "ImportError" "conversation_state"))
              (Some text) (Some o) (World 0 0)
            = (Some (StateManager.setattr "document_uploads" (PDict ∅) o),
               World 0 0)) as Hcomputed by reflexivity.
    rewrite Hcomputed in Hrun. injection Hrun as <-. reflexivity.
Defined.

(** [low_score_keeps_trigger_verdict] at a state whose verification
    status allows the letter and whose newly uploaded business financial
    statement is scored 0.3. *)
Lemma low_score_keeps_trigger_verdict_witness :
  let rt := sample_runtime 0 in
  let status : pydict :=
    list_to_map [("verified", PBool true); ("income_proof_verified", PBool true);
                 ("income_proof_confidence", PFloat (8 # 10))] in
  let customer : pydict :=
    list_to_map [("customer_id", PStr "CUST001"); ("name", PStr "Asha Rao");
                 ("phone", PStr "9876543210"); ("address", PStr "12 MG Road");
                 ("pan", PStr "ABCDE1234F"); ("account_number", PStr "001234567");
                 ("ifsc_code", PStr "HDFC0001234"); ("bank_name", PStr "HDFC");
                 ("business_financial_statement_uploaded", PBool true)] in
  let loan : pydict :=
    list_to_map [("amount", PInt 500000); ("tenure", PInt 36);
                 ("purpose", PStr "home renovation");
                 ("interest_rate", PFloat (105 # 10)); ("emi", PInt 16251)] in
  let state_data : pydict :=
    list_to_map [("verification_status", PDict status);
                 ("underwriting_result", PDict {[ "decision" := PStr "approved" ]});
                 ("customer_details", PDict customer);
                 ("loan_details", PDict loan)] in
  let final := (DocumentVerification.monitor_pass state_data (World 0 0)).1.2 in
  DocumentVerification.ge_half
    (DocumentVerification.mean_score
       (DocumentVerification.scores_of_cycle state_data (World 0 0))) = false ∧
  SanctionLetterTrigger._should_generate_sanction_letter state_data = Ok true ∧
  final !! "verification_status" = Some (PDict status) ∧
  SanctionLetterTrigger._should_generate_sanction_letter final = Ok true.
Proof.
  intros rt status customer loan state_data final.
  assert (DocumentVerification.ge_half
            (DocumentVerification.mean_score
               (DocumentVerification.scores_of_cycle state_data (World 0 0)))
          = false) as Hlow by (vm_compute; reflexivity).
  assert (SanctionLetterTrigger._should_generate_sanction_letter state_data
          = Ok true) as Hready by (vm_compute; reflexivity).
  split; [exact Hlow|]. split; [exact Hready|].
  destruct (@low_score_keeps_trigger_verdict rt state_data customer status []
              (World 0 0) eq_refl eq_refl eq_refl eq_refl Hlow)
    as (_ & Hstatus & Hverdict).
  split; [exact Hstatus|]. exact (eq_trans Hverdict Hready).
Defined.
